(** * Normalisation core of open-wearables: a shallow embedding

    The development follows the Python sources of the backend:

    - [app/constants/workout_types/google_health.py]: the exercise-type
      table of Health Connect and its two lookups;
    - [app/services/providers/google_health/handlers/health_connect.py]:
      the JSON handler ([normalize], [_parse_exercise_session] and the
      aggregation helpers);
    - [app/services/providers/apple/handlers/healthkit.py]: the XML handler
      and its unit conversions;
    - [app/services/providers/google_health/workouts.py] and
      [app/services/providers/factory.py]: dispatch by source type and by
      provider name.

    Python objects decoded from JSON are values of [json]; a Python [float]
    is an IEEE 754 binary64 number ([spec_float] with precision 53 and
    [emax] 1024); [decimal.Decimal] is a coefficient and a power of ten,
    rounded to the 28 significant digits of the default context; exceptions
    are values of [exn] carried by [result]; the wall clock, [uuid4] and the
    logger are threaded through an explicit [World]. *)

From Stdlib Require Import ZArith QArith String Ascii List Lia Bool.
From Stdlib Require Import Floats.SpecFloat.
From stdpp Require Import gmap strings list pretty.

Local Open Scope string_scope.
Local Open Scope list_scope.
Local Open Scope Z_scope.

Set Warnings "-register-all".

(** ** Exceptions and results *)

(** The exception classes the modelled code can meet.  All of them derive
    from [Exception], so a clause [except Exception] catches every one.
    [InvalidOperation] is the signal of the decimal module, an
    ArithmeticError and neither a ValueError nor a TypeError; a division
    by zero of the decimal module counts as [ZeroDivisionError], from which
    its signal derives; [ValidationError] is raised by the schemas;
    [UnicodeDecodeError] is a ValueError; [HTTPException] is the exception
    of the web framework, which answers with its status code. *)
Inductive exn : Type :=
| AttributeError
| TypeError
| ValueError (msg : string)
| InvalidOperation
| ZeroDivisionError
| OverflowError
| ValidationError
| UnicodeDecodeError
| HTTPException (status_code : Z) (detail : string).

Inductive result (A : Type) : Type :=
| Ok (a : A)
| Raise (e : exn).

Arguments Ok {A} a.
Arguments Raise {A} e.

Definition bind {A B : Type} (c : result A) (k : A -> result B) : result B :=
  match c with
  | Ok a => k a
  | Raise e => Raise e
  end.

Notation "'let!' x ':=' c 'in' k" := (bind c (fun x => k))
  (at level 10, x name, c at level 100, k at level 200, only parsing).

Definition is_ok {A : Type} (r : result A) : bool :=
  match r with Ok _ => true | Raise _ => false end.

(** ** Binary64 floats *)

Module Float64.

Definition prec : Z := 53.
Definition emax : Z := 1024.

Definition float : Type := spec_float.

Definition add : float -> float -> float := SFadd prec emax.
Definition mul : float -> float -> float := SFmul prec emax.
Definition div : float -> float -> float := SFdiv prec emax.

Definition zero : float := S754_zero false.

Definition is_finite (x : float) : bool :=
  match x with
  | S754_zero _ | S754_finite _ _ _ => true
  | S754_infinity _ | S754_nan => false
  end.

(** The quotient [n / d] of two integers rounded once, to nearest even:
    the mantissas are exact, and [SFdiv] rounds the exact quotient. *)
Definition of_ratio (n : Z) (d : positive) : float :=
  match n with
  | Z0 => zero
  | Zpos p => div (S754_finite false p 0) (S754_finite false d 0)
  | Zneg p => div (S754_finite true p 0) (S754_finite false d 0)
  end.

(** [float(n)] for an integer: OverflowError beyond the binary64 range. *)
Definition of_int (n : Z) : result float :=
  let x := of_ratio n 1 in
  if is_finite x then Ok x else Raise OverflowError.

(** [a / b] on two integers (true division): correctly rounded. *)
Definition int_true_divide (a b : Z) : result float :=
  match b with
  | Z0 => Raise ZeroDivisionError
  | Zpos d =>
      let x := of_ratio a d in
      if is_finite x then Ok x else Raise OverflowError
  | Zneg d =>
      let x := of_ratio (- a) d in
      if is_finite x then Ok x else Raise OverflowError
  end.

(** The value [m * 10 ^ k] rounded once. *)
Definition of_decimal (m k : Z) : float :=
  if 0 <=? k then of_ratio (m * 10 ^ k) 1
  else of_ratio m (Z.to_pos (10 ^ (- k))).

(** [int(x)]: truncation toward zero. *)
Definition to_int (x : float) : result Z :=
  match x with
  | S754_zero _ => Ok 0
  | S754_finite s m e =>
      let a := if 0 <=? e then Z.pos m * 2 ^ e else Z.pos m / 2 ^ (- e) in
      Ok (if s then - a else a)
  | S754_infinity _ => Raise OverflowError
  | S754_nan => Raise (ValueError "cannot convert float NaN to integer")
  end.

(** The exact value of a finite float as a rational. *)
Definition to_Q (x : float) : Q :=
  match x with
  | S754_finite s m e =>
      let a := if s then Z.neg m else Z.pos m in
      if 0 <=? e then Qmake (a * 2 ^ e) 1 else Qmake a (Z.to_pos (2 ^ (- e)))
  | _ => Qmake 0 1
  end.

(** *** Shortest decimal that reads back as the same float

    [repr] of a float prints the shortest string of digits that rounds
    to the float, the closest one when there are several. *)

(** [10 ^ p <= m * 2 ^ e], exactly. *)
Definition pow10_le (p : Z) (m : positive) (e : Z) : bool :=
  let num := if 0 <=? e then Z.pos m * 2 ^ e else Z.pos m in
  let den := if 0 <=? e then 1 else 2 ^ (- e) in
  if 0 <=? p then 10 ^ p * den <=? num else den <=? num * 10 ^ (- p).

Fixpoint decpt_from (fuel : nat) (p : Z) (m : positive) (e : Z) : Z :=
  match fuel with
  | O => p
  | S fuel' => if pow10_le p m e then decpt_from fuel' (p + 1) m e else p
  end.

(** The least [p] with [m * 2 ^ e < 10 ^ p]. *)
Definition decpt (m : positive) (e : Z) : Z :=
  let bits := Z.pos (digits2_pos m) + e in
  decpt_from 8 ((bits - 1) * 30103 / 100000 - 2) m e.

(** The candidates with [n] digits: the two multiples of [10 ^ k] around
    the value, [k = decpt - n]; the result is the one that reads back as
    the float, the nearer when both do. *)
Definition candidate (m : positive) (e : Z) (k : Z) : option Z :=
  let num := (if 0 <=? e then Z.pos m * 2 ^ e else Z.pos m)
             * (if 0 <=? k then 1 else 10 ^ (- k)) in
  let den := (if 0 <=? e then 1 else 2 ^ (- e))
             * (if 0 <=? k then 10 ^ k else 1) in
  let lo := num / den in
  let r := num mod den in
  let x := S754_finite false m e in
  let ok c := Qeq_bool (to_Q (of_decimal c k)) (to_Q x) in
  match ok lo, ok (lo + 1) with
  | true, true =>
      match Z.compare (2 * r) den with
      | Lt => Some lo
      | Gt => Some (lo + 1)
      | Eq => Some (if Z.even lo then lo else lo + 1)
      end
  | true, false => Some lo
  | false, true => Some (lo + 1)
  | false, false => None
  end.

Fixpoint shortest_from (fuel : nat) (n : Z) (m : positive) (e : Z) : Z * Z :=
  let k := decpt m e - n in
  match fuel with
  | O => (0, k)
  | S fuel' =>
      match candidate m e k with
      | Some c => (c, k)
      | None => shortest_from fuel' (n + 1) m e
      end
  end.

(** Digits [c] and exponent [k] of the shortest decimal [c * 10 ^ k];
    seventeen digits always suffice for binary64. *)
Definition shortest (m : positive) (e : Z) : Z * Z :=
  let '(c, k) := shortest_from 17 1 m e in
  if (c mod 10 =? 0) && negb (c =? 0) then (c / 10, k + 1) else (c, k).

End Float64.

Abbreviation float := Float64.float.

(** ** Characters and numerals *)

(** A [str] stands as the bytes of its UTF-8 encoding; where the library
    looks at characters it sees the code points. *)

Definition chars (s : string) : list ascii := list_ascii_of_string s.

Definition code (c : ascii) : Z := Z.of_N (N_of_ascii c).

Definition char_of (n : Z) : ascii := ascii_of_N (Z.to_N n).

(** The code points of a text.  A byte that starts no character stands
    as U+FFFD; a [str] has none. *)
Fixpoint code_points (s : list ascii) : list Z :=
  match s with
  | [] => []
  | b1 :: rest =>
      let lead := code b1 in
      if lead <? 128 then lead :: code_points rest
      else if (192 <=? lead) && (lead <? 224) then
        match rest with
        | b2 :: rest2 =>
            ((lead - 192) * 64 + (code b2 - 128)) :: code_points rest2
        | _ => [65533]
        end
      else if (224 <=? lead) && (lead <? 240) then
        match rest with
        | b2 :: b3 :: rest3 =>
            (((lead - 224) * 64 + (code b2 - 128)) * 64 + (code b3 - 128))
            :: code_points rest3
        | _ => [65533]
        end
      else if (240 <=? lead) && (lead <? 248) then
        match rest with
        | b2 :: b3 :: b4 :: rest4 =>
            ((((lead - 240) * 64 + (code b2 - 128)) * 64 + (code b3 - 128))
             * 64 + (code b4 - 128))
            :: code_points rest4
        | _ => [65533]
        end
      else 65533 :: code_points rest
  end.

(** The whitespace of Unicode, as [str.isspace], [str.strip] and the
    class [\s] of a regular expression take it: the ASCII blanks, the
    separators 28 to 31, and the blanks beyond ASCII. *)
Definition is_space_point (p : Z) : bool :=
  ((9 <=? p) && (p <=? 13)) || ((28 <=? p) && (p <=? 32))
  || (p =? 133) || (p =? 160) || (p =? 5760)
  || ((8192 <=? p) && (p <=? 8202))
  || (p =? 8232) || (p =? 8233) || (p =? 8239) || (p =? 8287)
  || (p =? 12288).

(** The decimal digits of Unicode (version 14) come in runs of ten, zero
    to nine; these are the code points of the zeros. *)
Definition decimal_blocks : list Z :=
  [
    48; 1632; 1776; 1984; 2406; 2534; 2662; 2790;
    2918; 3046; 3174; 3302; 3430; 3558; 3664; 3792;
    3872; 4160; 4240; 6112; 6160; 6470; 6608; 6784;
    6800; 6992; 7088; 7232; 7248; 42528; 43216; 43264;
    43472; 43504; 43600; 44016; 65296; 66720; 68912; 69734;
    69872; 69942; 70096; 70384; 70736; 70864; 71248; 71360;
    71472; 71904; 72016; 72784; 73040; 73120; 92768; 92864;
    93008; 120782; 120792; 120802; 120812; 120822; 123200; 123632;
    125264; 130032 ].

Definition decimal_of_point (p : Z) : option Z :=
  match List.find (fun zero => (zero <=? p) && (p <? zero + 10))
          decimal_blocks with
  | Some zero => Some (p - zero)
  | None => None
  end.

Definition digit_of (c : ascii) : option Z :=
  if (48 <=? code c) && (code c <=? 57) then Some (code c - 48) else None.

Definition is_digit (c : ascii) : bool :=
  match digit_of c with Some _ => true | None => false end.

(** The blanks of C, which [float] and [int] skip around a numeral:
    space, tab, newline, vertical tab, form feed and carriage return. *)
Definition is_c_space (c : ascii) : bool :=
  (code c =? 32) || ((9 <=? code c) && (code c <=? 13)).

Fixpoint lstrip {A : Type} (blank : A -> bool) (s : list A) : list A :=
  match s with
  | c :: s' => if blank c then lstrip blank s' else s
  | [] => []
  end.

Definition strip {A : Type} (blank : A -> bool) (s : list A) : list A :=
  rev (lstrip blank (rev (lstrip blank s))).

(** What [float] and [int] make of a text before they read it: a blank
    beyond ASCII becomes a space, a decimal digit beyond ASCII its ASCII
    digit, and any other character beyond ASCII a question mark. *)
Definition transform_decimal_and_space (s : list ascii) : list ascii :=
  map (fun p =>
         if p <? 128 then char_of p
         else if is_space_point p then char_of 32
         else match decimal_of_point p with
              | Some d => char_of (48 + d)
              | None => char_of 63
              end)
    (code_points s).

Definition lower (c : ascii) : ascii :=
  if (65 <=? code c) && (code c <=? 90)
  then ascii_of_N (Z.to_N (code c + 32)) else c.

(** A run of decimal digits: its value, its length and the rest.  With
    [underscores], one underscore between two digits is skipped. *)
Fixpoint digits_run (underscores : bool) (s : list ascii) (acc len : Z)
  : Z * Z * list ascii :=
  match s with
  | c :: s' =>
      match digit_of c with
      | Some d => digits_run underscores s' (10 * acc + d) (len + 1)
      | None =>
          match s' with
          | c' :: _ =>
              if underscores && (0 <? len) && (code c =? 95) && is_digit c'
              then digits_run underscores s' acc len
              else (acc, len, s)
          | [] => (acc, len, s)
          end
      end
  | [] => (acc, len, [])
  end.

(** What a numeric literal denotes. *)
Inductive numeral : Type :=
| NumFinite (negative : bool) (coeff : Z) (exp : Z)
| NumInfinity (negative : bool)
| NumNaN (signaling : bool).

Definition parse_sign (s : list ascii) : bool * list ascii :=
  match s with
  | c :: s' =>
      if code c =? 45 then (true, s')
      else if code c =? 43 then (false, s') else (false, s)
  | [] => (false, [])
  end.

(** [e] or [E], an optional sign and at least one digit; nothing may
    follow. *)
Definition parse_exponent (underscores : bool) (s : list ascii) : option Z :=
  match s with
  | [] => Some 0
  | c :: s' =>
      if code (lower c) =? 101 then
        let '(neg, s1) := parse_sign s' in
        match digits_run underscores s1 0 0 with
        | (v, len, []) =>
            if 0 <? len then Some (if neg then - v else v) else None
        | _ => None
        end
      else None
  end.

(** Digits with an optional point and an optional exponent; at least one
    digit before or after the point. *)
Definition parse_number (underscores : bool) (neg : bool) (s : list ascii)
  : option numeral :=
  let '(ip, ilen, s1) := digits_run underscores s 0 0 in
  let '(fp, flen, s2) :=
    match s1 with
    | c :: s1' => if code c =? 46 then digits_run underscores s1' 0 0
                  else (0, 0, s1)
    | [] => (0, 0, [])
    end in
  if 0 <? ilen + flen then
    match parse_exponent underscores s2 with
    | Some e => Some (NumFinite neg (ip * 10 ^ flen + fp) (e - flen))
    | None => None
    end
  else None.

Definition is_word (w : string) (s : list ascii) : bool :=
  bool_decide (map lower s = chars w).

(** The numerals of [float]: a sign, then [inf], [infinity] or [nan] in
    any case, or a number in which an underscore may stand between two
    digits. *)
Definition parse_float_numeral (s : list ascii) : option numeral :=
  let '(neg, s1) := parse_sign s in
  if is_word "inf" s1 || is_word "infinity" s1 then Some (NumInfinity neg)
  else if is_word "nan" s1 then Some (NumNaN false)
  else parse_number true neg s1.

(** [float(s)] on a string; [None] stands for ValueError. *)
Definition float_of_string (s : string) : option float :=
  match parse_float_numeral
          (strip is_c_space (transform_decimal_and_space (chars s))) with
  | Some (NumFinite neg c e) =>
      Some (match Float64.of_decimal c e with
            | S754_zero _ => S754_zero neg
            | S754_finite _ m e' => S754_finite neg m e'
            | S754_infinity _ => S754_infinity neg
            | S754_nan => S754_nan
            end)
  | Some (NumInfinity neg) => Some (S754_infinity neg)
  | Some (NumNaN _) => Some S754_nan
  | None => None
  end.

(** [int(s)] on a string: blanks around, a sign, and digits between
    which an underscore may stand; [None] stands for ValueError. *)
Definition int_of_string (s : string) : option Z :=
  let '(neg, s1) :=
    parse_sign (strip is_c_space (transform_decimal_and_space (chars s))) in
  match digits_run true s1 0 0 with
  | (v, len, []) => if 0 <? len then Some (if neg then - v else v) else None
  | _ => None
  end.

(** ** Decimal *)

(** A [decimal.Decimal]: [coeff * 10 ^ exp], an infinity, or a NaN, quiet
    or signalling.  The sign of a zero, the sign and the payload of a NaN
    and the exponent limits of the context are not represented. *)
Inductive Decimal : Type :=
| DFinite (coeff : Z) (exp : Z)
| DInfinity (negative : bool)
| DNaN (signaling : bool).

(** The characters of a text as [Decimal] reads them: blanks are dropped
    at both ends, underscores everywhere; a blank beyond ASCII inside
    becomes a space and a decimal digit beyond ASCII its ASCII digit; any
    other character beyond ASCII, and the character zero, are refused. *)
Fixpoint decimal_ascii (points : list Z) : option (list ascii) :=
  match points with
  | [] => Some []
  | p :: rest =>
      if p =? 95 then decimal_ascii rest
      else
        let keep c := option_map (cons c) (decimal_ascii rest) in
        if (0 <? p) && (p <? 128) then keep (char_of p)
        else if is_space_point p then keep (char_of 32)
        else match decimal_of_point p with
             | Some d => keep (char_of (48 + d))
             | None => None
             end
  end.

(** [nan] or [snan] in any case, followed by digits only. *)
Definition parse_nan (s : list ascii) : option bool :=
  let all_digits rest := forallb is_digit rest in
  match map lower s with
  | c1 :: c2 :: c3 :: rest =>
      if (code c1 =? 110) && (code c2 =? 97) && (code c3 =? 110)
         && all_digits rest
      then Some false
      else
        match rest with
        | c4 :: rest' =>
            if (code c1 =? 115) && (code c2 =? 110) && (code c3 =? 97)
               && (code c4 =? 110) && all_digits rest'
            then Some true else None
        | [] => None
        end
  | _ => None
  end.

(** The numerals of [Decimal]: a sign, then [inf] or [infinity], a NaN,
    or a number. *)
Definition parse_decimal_numeral (s : list ascii) : option numeral :=
  let '(neg, s1) := parse_sign s in
  if is_word "inf" s1 || is_word "infinity" s1 then Some (NumInfinity neg)
  else
    match parse_nan s1 with
    | Some signaling => Some (NumNaN signaling)
    | None => parse_number false neg s1
    end.

Module Dec.

(** Precision of the default context. *)
Definition prec : Z := 28.

Fixpoint digits10_aux (fuel : nat) (n acc : Z) : Z :=
  match fuel with
  | O => acc
  | S fuel' => if n =? 0 then acc else digits10_aux fuel' (n / 10) (acc + 1)
  end.

(** Number of decimal digits of [|n|]; [0] for [0]. *)
Definition digits10 (n : Z) : Z :=
  digits10_aux (S (Z.to_nat (Z.log2 (Z.abs n)))) (Z.abs n) 0.

Definition half_even (q r p : Z) : Z :=
  match Z.compare (2 * r) p with
  | Lt => q
  | Gt => q + 1
  | Eq => if Z.even q then q else q + 1
  end.

(** [_fix]: round to the precision of the context, ties to even. *)
Definition fix_ (c e : Z) : Decimal :=
  let d := digits10 c in
  if d <=? prec then DFinite c e
  else
    let shift := d - prec in
    let p := 10 ^ shift in
    let q := half_even (Z.abs c / p) (Z.abs c mod p) p in
    if q =? 10 ^ prec
    then DFinite (Z.sgn c * (q / 10)) (e + shift + 1)
    else DFinite (Z.sgn c * q) (e + shift).

Definition of_int (n : Z) : Decimal := DFinite n 0.

(** [Decimal(s)]: the literal is taken exactly.  [None] stands for
    InvalidOperation. *)
Definition of_string (s : string) : option Decimal :=
  match decimal_ascii (strip is_space_point (code_points (chars s))) with
  | None => None
  | Some text =>
      match parse_decimal_numeral text with
      | Some (NumFinite neg c e) => Some (DFinite (if neg then - c else c) e)
      | Some (NumInfinity neg) => Some (DInfinity neg)
      | Some (NumNaN signaling) => Some (DNaN signaling)
      | None => None
      end
  end.

(** [Decimal(str(x))] for a float: [repr] prints the shortest digits,
    with a point and [.0] up to sixteen integer digits and in scientific
    notation beyond. *)
Definition of_float (x : float) : Decimal :=
  match x with
  | S754_zero _ => DFinite 0 (-1)
  | S754_infinity s => DInfinity s
  | S754_nan => DNaN false
  | S754_finite s m e =>
      let '(c, k) := Float64.shortest m e in
      let c := if s then - c else c in
      if (0 <=? k) && (k + digits10 c <=? 16)
      then DFinite (c * 10 ^ (k + 1)) (-1)
      else DFinite c k
  end.

Definition add (a b : Decimal) : result Decimal :=
  match a, b with
  | DNaN true, _ | _, DNaN true => Raise InvalidOperation
  | DNaN false, _ | _, DNaN false => Ok (DNaN false)
  | DInfinity s, DInfinity s' =>
      if Bool.eqb s s' then Ok a else Raise InvalidOperation
  | DInfinity _, _ => Ok a
  | _, DInfinity _ => Ok b
  | DFinite c e, DFinite c' e' =>
      let e0 := Z.min e e' in
      Ok (fix_ (c * 10 ^ (e - e0) + c' * 10 ^ (e' - e0)) e0)
  end.

Definition mul (a b : Decimal) : result Decimal :=
  match a, b with
  | DNaN true, _ | _, DNaN true => Raise InvalidOperation
  | DNaN false, _ | _, DNaN false => Ok (DNaN false)
  | DInfinity s, DInfinity s' => Ok (DInfinity (xorb s s'))
  | DInfinity s, DFinite c _ | DFinite c _, DInfinity s =>
      if c =? 0 then Raise InvalidOperation
      else Ok (DInfinity (xorb s (c <? 0)))
  | DFinite c e, DFinite c' e' => Ok (fix_ (c * c') (e + e'))
  end.

Fixpoint strip_zeros (fuel : nat) (c e ideal : Z) : Z * Z :=
  match fuel with
  | O => (c, e)
  | S fuel' =>
      if (e <? ideal) && (c mod 10 =? 0)
      then strip_zeros fuel' (c / 10) (e + 1) ideal else (c, e)
  end.

(** [__truediv__]: one digit more than the precision is computed; an
    inexact quotient is nudged off a multiple of five so that [_fix]
    rounds it right, an exact one is brought as close as possible to
    the ideal exponent. *)
Definition div (a b : Decimal) : result Decimal :=
  match a, b with
  | DNaN true, _ | _, DNaN true => Raise InvalidOperation
  | DNaN false, _ | _, DNaN false => Ok (DNaN false)
  | DInfinity _, DInfinity _ => Raise InvalidOperation
  | DInfinity s, DFinite c _ => Ok (DInfinity (xorb s (c <? 0)))
  | DFinite _ e, DInfinity _ => Ok (DFinite 0 e)
  | DFinite c e, DFinite c' e' =>
      if c' =? 0 then
        Raise (if c =? 0 then InvalidOperation else ZeroDivisionError)
      else if c =? 0 then Ok (fix_ 0 (e - e'))
      else
        let shift := digits10 c' - digits10 c + prec + 1 in
        let num := if 0 <=? shift then Z.abs c * 10 ^ shift else Z.abs c in
        let den := if 0 <=? shift then Z.abs c' else Z.abs c' * 10 ^ (- shift) in
        let q := num / den in
        let sign := Z.sgn c * Z.sgn c' in
        if num mod den =? 0 then
          let '(q', ex) :=
            strip_zeros (Z.to_nat (2 * prec + 2)) q (e - e' - shift) (e - e') in
          Ok (fix_ (sign * q') ex)
        else
          Ok (fix_ (sign * (if q mod 5 =? 0 then q + 1 else q))
                (e - e' - shift))
  end.

(** [a > 0]: an ordering comparison with a NaN signals. *)
Definition gt_zero (a : Decimal) : result bool :=
  match a with
  | DFinite c _ => Ok (0 <? c)
  | DInfinity s => Ok (negb s)
  | DNaN _ => Raise InvalidOperation
  end.

End Dec.

(** ** Decoded JSON payloads *)

(** What [json.loads] returns: [None], [bool], [int], [float], [str],
    [list] and [dict] with string keys.  A dict is its items in order;
    keys are looked up from the front. *)
Inductive json : Type :=
| JNull
| JBool (b : bool)
| JInt (n : Z)
| JFloat (x : float)
| JStr (s : string)
| JList (items : list json)
| JDict (items : list (string * json)).

(** Truth value of an object, as [not x] and [x or y] test it. *)
Definition truthy (v : json) : bool :=
  match v with
  | JNull => false
  | JBool b => b
  | JInt n => negb (n =? 0)
  | JFloat x => match x with S754_zero _ => false | _ => true end
  | JStr s => negb (String.eqb s "")
  | JList items => match items with [] => false | _ => true end
  | JDict items => match items with [] => false | _ => true end
  end.

Fixpoint dict_get (key : string) (items : list (string * json)) : option json :=
  match items with
  | [] => None
  | (k, v) :: rest => if String.eqb k key then Some v else dict_get key rest
  end.

(** [obj.get(key, default)]: only a dict has the method. *)
Definition get (obj : json) (key : string) (default : json) : result json :=
  match obj with
  | JDict items => Ok (from_option (fun v => v) default (dict_get key items))
  | _ => Raise AttributeError
  end.

(** The characters of a text, each as the bytes that encode it. *)
Fixpoint characters (s : list ascii) : list (list ascii) :=
  match s with
  | [] => []
  | b1 :: rest =>
      let lead := code b1 in
      if (192 <=? lead) && (lead <? 224) then
        match rest with
        | b2 :: rest2 => [b1; b2] :: characters rest2
        | _ => [s]
        end
      else if (224 <=? lead) && (lead <? 240) then
        match rest with
        | b2 :: b3 :: rest3 => [b1; b2; b3] :: characters rest3
        | _ => [s]
        end
      else if (240 <=? lead) && (lead <? 248) then
        match rest with
        | b2 :: b3 :: b4 :: rest4 => [b1; b2; b3; b4] :: characters rest4
        | _ => [s]
        end
      else [b1] :: characters rest
  end.

(** [for x in obj]: the elements of a list, the keys of a dict, the
    characters of a string; [None], a bool and a number are not iterable. *)
Definition iterate (obj : json) : result (list json) :=
  match obj with
  | JList items => Ok items
  | JDict items => Ok (map (fun kv => JStr (fst kv)) items)
  | JStr s =>
      Ok (map (fun c => JStr (string_of_list_ascii c)) (characters (chars s)))
  | JNull | JBool _ | JInt _ | JFloat _ => Raise TypeError
  end.

(** [Decimal(str(v))]: [str] of a number is a numeral; [str] of [None],
    of a bool, of a list or of a dict is not one. *)
Definition Decimal_of_str (v : json) : result Decimal :=
  match v with
  | JInt n => Ok (Dec.of_int n)
  | JFloat x => Ok (Dec.of_float x)
  | JStr s =>
      match Dec.of_string s with
      | Some d => Ok d
      | None => Raise InvalidOperation
      end
  | JNull | JBool _ | JList _ | JDict _ => Raise InvalidOperation
  end.

(** [v > 0]: defined on numbers (a bool is an int); TypeError otherwise. *)
Definition gt_zero (v : json) : result bool :=
  match v with
  | JInt n => Ok (0 <? n)
  | JBool b => Ok b
  | JFloat x =>
      Ok (match x with
          | S754_finite false _ _ | S754_infinity false => true
          | _ => false
          end)
  | JNull | JStr _ | JList _ | JDict _ => Raise TypeError
  end.

(** ** Dates and times *)

(** A [datetime]: the calendar fields and, when the value is aware, its
    offset from UTC in microseconds. *)
Record datetime : Type := mk_datetime {
  year : Z; month : Z; day : Z;
  hour : Z; minute : Z; second : Z; microsecond : Z;
  tzinfo : option Z
}.

Definition is_leap (y : Z) : bool :=
  (y mod 4 =? 0) && (negb (y mod 100 =? 0) || (y mod 400 =? 0)).

Definition days_in_month (y m : Z) : Z :=
  if m =? 2 then (if is_leap y then 29 else 28)
  else if (m =? 4) || (m =? 6) || (m =? 9) || (m =? 11) then 30 else 31.

Definition days_before_year (y : Z) : Z :=
  let p := y - 1 in p * 365 + p / 4 - p / 100 + p / 400.

Fixpoint days_before_month_aux (y : Z) (k : nat) : Z :=
  match k with
  | O => 0
  | S k' => days_before_month_aux y k' + days_in_month y (Z.of_nat k)
  end.

Definition days_before_month (y m : Z) : Z :=
  days_before_month_aux y (Z.to_nat (m - 1)).

(** Day number, 1 for 0001-01-01. *)
Definition toordinal (d : datetime) : Z :=
  days_before_year (year d) + days_before_month (year d) (month d) + day d.

(** Microseconds of the calendar fields since the start of day 0. *)
Definition local_microseconds (d : datetime) : Z :=
  ((toordinal d * 24 + hour d) * 60 + minute d) * 60 * 1000000
  + second d * 1000000 + microsecond d.

(** The checks of the [datetime] constructor. *)
Definition valid_datetime (d : datetime) : bool :=
  (1 <=? year d) && (year d <=? 9999)
  && (1 <=? month d) && (month d <=? 12)
  && (1 <=? day d) && (day d <=? days_in_month (year d) (month d))
  && (0 <=? hour d) && (hour d <=? 23)
  && (0 <=? minute d) && (minute d <=? 59)
  && (0 <=? second d) && (second d <=? 59)
  && (0 <=? microsecond d) && (microsecond d <=? 999999)
  && match tzinfo d with
     | Some off => (- 86400000000 <? off) && (off <? 86400000000)
     | None => true
     end.

(** [a - b] as microseconds: two naive values, or two aware ones; mixing
    them is a TypeError. *)
Definition datetime_sub (a b : datetime) : result Z :=
  match tzinfo a, tzinfo b with
  | None, None => Ok (local_microseconds a - local_microseconds b)
  | Some oa, Some ob =>
      Ok ((local_microseconds a - oa) - (local_microseconds b - ob))
  | _, _ => Raise TypeError
  end.

(** [timedelta.total_seconds()]: the microseconds divided by [10 ** 6],
    a float. *)
Definition total_seconds (microseconds : Z) : result float :=
  Float64.int_true_divide microseconds 1000000.

(** *** [datetime.fromisoformat]

    The reader of the library works on the bytes of the text: a
    position is an index, and the byte at an index past the end is the
    zero that closes the buffer. *)

Definition peek (s : list Z) (i : Z) : Z :=
  if i <? 0 then 0 else nth (Z.to_nat i) s 0.

Definition ascii_digit (c : Z) : bool := (48 <=? c) && (c <=? 57).

(** [n] digits from the position [p] on: their value, added to [acc],
    and the position after them. *)
Fixpoint parse_digits (s : list Z) (p : Z) (n : nat) (acc : Z)
  : option (Z * Z) :=
  match n with
  | O => Some (acc, p)
  | S n' =>
      let c := peek s p in
      if ascii_digit c then parse_digits s (p + 1) n' (10 * acc + (c - 48))
      else None
  end.

(** The year, month and day of a day number. *)
Definition ord_to_ymd (ordinal : Z) : Z * Z * Z :=
  let n := ordinal - 1 in
  let n400 := n / 146097 in
  let n := n mod 146097 in
  let n100 := n / 36524 in
  let n := n mod 36524 in
  let n4 := n / 1461 in
  let n := n mod 1461 in
  let n1 := n / 365 in
  let n := n mod 365 in
  let y := n400 * 400 + 1 + n100 * 100 + n4 * 4 + n1 in
  if (n1 =? 4) || (n100 =? 4) then (y - 1, 12, 31)
  else
    let leap := (n1 =? 3) && (negb (n4 =? 24) || (n100 =? 3)) in
    let before m := days_before_month y m in
    let estimate := Z.shiftr (n + 50) 5 in
    let m := if n <? before estimate then estimate - 1 else estimate in
    (y, m, n - before m + 1).

(** The day of the week of the first of January, Monday being 0, and
    the day number of the Monday of the first ISO week. *)
Definition first_weekday (y : Z) : Z := (days_before_year y + 1 + 6) mod 7.

Definition iso_week1_monday (y : Z) : Z :=
  let first_day := days_before_year y + 1 in
  let monday := first_day - first_weekday y in
  if 3 <? first_weekday y then monday + 7 else monday.

(** The calendar date of an ISO year, week and day of the week.  A year
    below 1 gives no date of the calendar. *)
Definition iso_to_ymd (iso_year iso_week iso_day : Z) : option (Z * Z * Z) :=
  let week_53 :=
    (iso_week =? 53)
    && ((first_weekday iso_year =? 3)
        || ((first_weekday iso_year =? 2) && is_leap iso_year)) in
  if (iso_year <? 1) then None
  else if ((iso_week <=? 0) || (53 <=? iso_week)) && negb week_53 then None
  else if (iso_day <=? 0) || (8 <=? iso_day) then None
  else
    Some (ord_to_ymd (iso_week1_monday iso_year
                      + (iso_week - 1) * 7 + iso_day - 1)).

(** The date at the start of the text, which is read up to [len]:
    [YYYY-MM-DD], [YYYYMMDD], or a week date [YYYY-Www[-D]], [YYYYWww[D]]. *)
Definition parse_isoformat_date (s : list Z) (len : Z) : option (Z * Z * Z) :=
  match parse_digits s 0 4 0 with
  | None => None
  | Some (year, p) =>
      let uses_separator := peek s p =? 45 in
      let p := if uses_separator then p + 1 else p in
      let after_separator p :=
        if uses_separator
        then (if peek s p =? 45 then Some (p + 1) else None)
        else Some p in
      if peek s p =? 87 then
        match parse_digits s (p + 1) 2 0 with
        | None => None
        | Some (iso_week, p) =>
            if p <? len then
              match after_separator p with
              | None => None
              | Some p =>
                  match parse_digits s p 1 0 with
                  | Some (iso_day, _) => iso_to_ymd year iso_week iso_day
                  | None => None
                  end
              end
            else iso_to_ymd year iso_week 1
        end
      else
        match parse_digits s p 2 0 with
        | None => None
        | Some (month, p) =>
            match after_separator p with
            | None => None
            | Some p =>
                match parse_digits s p 2 0 with
                | Some (day, _) => Some (year, month, day)
                | None => None
                end
            end
        end
  end.

(** The position of the character between the date and the time, which
    the shape of the date decides; [None] where the library gives up. *)
Fixpoint digits_end (s : list Z) (idx : Z) (fuel : nat) : Z :=
  match fuel with
  | O => idx
  | S fuel' =>
      if ascii_digit (peek s idx) then digits_end s (idx + 1) fuel' else idx
  end.

Definition find_isoformat_datetime_separator (s : list Z) (len : Z)
  : option Z :=
  if len =? 7 then Some 7
  else if peek s 4 =? 45 then
    if peek s 5 =? 87 then
      if len <? 8 then None
      else if (8 <? len) && (peek s 8 =? 45) then
        if len =? 9 then None
        else if (10 <? len) && ascii_digit (peek s 10) then Some 8
        else Some 10
      else Some 8
    else Some 10
  else if peek s 4 =? 87 then
    let idx := digits_end s 7 (Z.to_nat (len - 7)) in
    if idx <? 9 then Some idx
    else if idx mod 2 =? 0 then Some 7 else Some 8
  else Some 8.

(** Hours, minutes, seconds and a fraction between the positions [p] and
    [p_end]: the fields, and whether something is left that is not the
    closing zero.  The colon after the hours decides whether colons are
    expected; a fraction follows a point or a comma, and its digits
    beyond the sixth are dropped. *)
Definition parse_fraction (s : list Z) (p p_end : Z)
  : option (Z * bool) :=
  let len_remains := p_end - p in
  let to_parse := if 6 <=? len_remains then 6 else len_remains in
  match parse_digits s p (Z.to_nat to_parse) 0 with
  | None => None
  | Some (value, p) =>
      let microsecond := value * 10 ^ (6 - to_parse) in
      let p := digits_end s p (length s) in
      Some (microsecond, negb (peek s p =? 0))
  end.

Definition parse_hh_mm_ss_ff (s : list Z) (p p_end : Z)
  : option (Z * Z * Z * Z * bool) :=
  match parse_digits s p 2 0 with
  | None => None
  | Some (hour, p) =>
      let c := peek s p in
      let p := p + 1 in
      let has_separator := c =? 58 in
      let fraction hour minute second p :=
        match parse_fraction s p p_end with
        | Some (microsecond, more) =>
            Some (hour, minute, second, microsecond, more)
        | None => None
        end in
      let seconds hour minute p :=
        match parse_digits s p 2 0 with
        | None => None
        | Some (second, p) =>
            let c := peek s p in
            let p := p + 1 in
            if p_end <=? p then Some (hour, minute, second, 0, negb (c =? 0))
            else if has_separator && (c =? 58) then fraction hour minute second p
            else if (c =? 46) || (c =? 44) then fraction hour minute second p
            else if negb has_separator then fraction hour minute second (p - 1)
            else None
        end in
      let minutes hour p :=
        match parse_digits s p 2 0 with
        | None => None
        | Some (minute, p) =>
            let c := peek s p in
            let p := p + 1 in
            if p_end <=? p then Some (hour, minute, 0, 0, negb (c =? 0))
            else if has_separator && (c =? 58) then seconds hour minute p
            else if (c =? 46) || (c =? 44) then fraction hour minute 0 p
            else if negb has_separator then seconds hour minute (p - 1)
            else None
        end in
      if p_end <=? p then Some (hour, 0, 0, 0, negb (c =? 0))
      else if has_separator && (c =? 58) then minutes hour p
      else if (c =? 46) || (c =? 44) then fraction hour 0 0 p
      else if negb has_separator then minutes hour (p - 1)
      else None
  end.

(** The first position from [p] on, below [p_end], that holds [Z], [+]
    or [-]; the position [p] itself is looked at in any case. *)
Fixpoint find_tzinfo (s : list Z) (p p_end : Z) (fuel : nat) : Z :=
  let c := peek s p in
  if (c =? 90) || (c =? 43) || (c =? 45) then p
  else
    match fuel with
    | O => p + 1
    | S fuel' =>
        if p + 1 <? p_end then find_tzinfo s (p + 1) p_end fuel' else p + 1
    end.

(** The time from the position [p] to the end of the text, and the
    offset in microseconds when there is one. *)
Definition parse_isoformat_time (s : list Z) (p : Z)
  : option (Z * Z * Z * Z * option Z) :=
  let p_end := Z.of_nat (length s) in
  let tzinfo_pos := find_tzinfo s p p_end (length s) in
  match parse_hh_mm_ss_ff s p tzinfo_pos with
  | None => None
  | Some (hour, minute, second, microsecond, more) =>
      if tzinfo_pos =? p_end then
        if more then None
        else Some (hour, minute, second, microsecond, None)
      else if peek s tzinfo_pos =? 90 then
        if peek s (tzinfo_pos + 1) =? 0
        then Some (hour, minute, second, microsecond, Some 0)
        else None
      else
        match parse_hh_mm_ss_ff s (tzinfo_pos + 1) p_end with
        | Some (tzhour, tzminute, tzsecond, tzmicrosecond, false) =>
            let tzoffset := (tzhour * 60 + tzminute) * 60 + tzsecond in
            let off :=
              if tzoffset =? 0 then 0
              else tzoffset * 1000000 + tzmicrosecond in
            Some (hour, minute, second, microsecond,
                  Some (if peek s tzinfo_pos =? 45 then - off else off))
        | _ => None
        end
  end.

(** The bytes a character takes, from its first byte. *)
Definition char_width (lead : Z) : Z :=
  if lead <? 128 then 1
  else if Z.land lead 240 =? 224 then 3
  else if Z.land lead 240 =? 240 then 4
  else 2.

(** [datetime.fromisoformat], as the library reads since version 3.11: a
    date, then any one character, then a time [HH[:MM[:SS[.f+]]]] written
    with or without colons, then [Z] or an offset; [None] stands for
    ValueError. *)
Definition fromisoformat (date_string : string) : option datetime :=
  let s := map code (chars date_string) in
  let len := Z.of_nat (length s) in
  if len <? 7 then None
  else
    match find_isoformat_datetime_separator s len with
    | None => None
    | Some separator_location =>
        match parse_isoformat_date s separator_location with
        | None => None
        | Some (y, mo, d) =>
            let finish h mi sec us tz :=
              let r := mk_datetime y mo d h mi sec us tz in
              if valid_datetime r then Some r else None in
            if separator_location <? len then
              match parse_isoformat_time s
                      (separator_location
                       + char_width (peek s separator_location)) with
              | Some (h, mi, sec, us, tz) => finish h mi sec us tz
              | None => None
              end
            else finish 0 0 0 0 None
        end
    end.

Definition endswith (s suffix : string) : bool :=
  let n := String.length s in
  let k := String.length suffix in
  (k <=? n)%nat && String.eqb (substring (n - k) k s) suffix.

(** [s.replace(old, new)] for a one-character [old]. *)
Fixpoint replace_char (old : ascii) (new : string) (s : string) : string :=
  match s with
  | EmptyString => EmptyString
  | String c s' =>
      if Ascii.eqb c old then new +:+ replace_char old new s'
      else String c (replace_char old new s')
  end.

(** ** The world outside the handlers *)

Definition UUID : Type := N.

(** What the handlers leave behind for an operator: a record of the
    logger of the Health Connect handler, or a line printed by the
    HealthKit handler. *)
Inductive diagnostic : Type :=
| LogError (session_id : json) (e : exn)
| Printed (e : exn).

(** The [n]-th call of [datetime.now()] reads [wall_clock n] and the
    [n]-th call of [uuid4()] draws [uuid_source n]. *)
Record World : Type := mk_World {
  wall_clock : nat -> datetime;
  clock_reads : nat;
  uuid_source : nat -> UUID;
  uuid_draws : nat;
  diagnostics : list diagnostic
}.

(** A computation that reads and updates the world and may raise. *)
Definition M (A : Type) : Type := World -> result A * World.

Definition ret {A : Type} (a : A) : M A := fun w => (Ok a, w).

Definition raise {A : Type} (e : exn) : M A := fun w => (Raise e, w).

Definition lift {A : Type} (r : result A) : M A := fun w => (r, w).

Definition bindM {A B : Type} (c : M A) (k : A -> M B) : M B :=
  fun w =>
    match c w with
    | (Ok a, w') => k a w'
    | (Raise e, w') => (Raise e, w')
    end.

Notation "'let*' x ':=' c 'in' k" := (bindM c (fun x => k))
  (at level 10, x name, c at level 100, k at level 200, only parsing).

(** [try: body except Exception as e: handler e]. *)
Definition try_except {A : Type} (body : M A) (handler : exn -> M A) : M A :=
  fun w =>
    match body w with
    | (Ok a, w') => (Ok a, w')
    | (Raise e, w') => handler e w'
    end.

(** [datetime.now()]: the local time, naive. *)
Definition now : M datetime :=
  fun w =>
    let t := wall_clock w (clock_reads w) in
    (Ok (mk_datetime (year t) (month t) (day t) (hour t) (minute t)
           (second t) (microsecond t) None),
     mk_World (wall_clock w) (S (clock_reads w)) (uuid_source w)
       (uuid_draws w) (diagnostics w)).

Definition uuid4 : M UUID :=
  fun w =>
    (Ok (uuid_source w (uuid_draws w)),
     mk_World (wall_clock w) (clock_reads w) (uuid_source w)
       (S (uuid_draws w)) (diagnostics w)).

Definition emit (d : diagnostic) : M unit :=
  fun w =>
    (Ok tt,
     mk_World (wall_clock w) (clock_reads w) (uuid_source w) (uuid_draws w)
       (diagnostics w ++ [d])).

(** A loop that threads an accumulator through the items and stops at the
    first exception. *)
Fixpoint for_each {A B : Type} (body : B -> A -> result B) (items : list A)
  (acc : B) : result B :=
  match items with
  | [] => Ok acc
  | x :: rest => let! acc' := body acc x in for_each body rest acc'
  end.

(** ** Unified taxonomy *)

(** Modelled from the spec: the enumeration [WorkoutType] of
    [app/schemas/workout_types.py] is not among the sources; its members
    here are the ones the mapping table names. *)
Inductive WorkoutType : Type :=
| RUNNING | TREADMILL | WALKING | HIKING | CYCLING | INDOOR_CYCLING
| POOL_SWIMMING | OPEN_WATER_SWIMMING | STRENGTH_TRAINING | ELLIPTICAL
| CARDIO_TRAINING | OTHER | STRETCHING | FITNESS_EQUIPMENT | PILATES
| ROCK_CLIMBING | INLINE_SKATING | ROWING_MACHINE | STAIR_CLIMBING | YOGA
| ALPINE_SKIING | CROSS_COUNTRY_SKIING | HOCKEY | ICE_SKATING
| SNOWBOARDING | SNOWSHOEING | KAYAKING | KITESURFING | PADDLING | ROWING
| SAILING | DIVING | SURFING | WINDSURFING | AMERICAN_FOOTBALL | FOOTBALL
| BADMINTON | BASEBALL | BASKETBALL | HANDBALL | RUGBY | SOCCER
| VOLLEYBALL | SQUASH | TABLE_TENNIS | TENNIS | PICKLEBALL | BOXING
| MARTIAL_ARTS | DANCE | GOLF | HORSEBACK_RIDING | STAND_UP_PADDLEBOARDING.

(** [(exercise_type_id, exercise_type_name, unified_type)], in the order
    of the source. *)
Definition GOOGLE_HEALTH_WORKOUT_TYPE_MAPPINGS : list (Z * string * WorkoutType) :=
  [ (79, "EXERCISE_TYPE_RUNNING", RUNNING);
    (80, "EXERCISE_TYPE_RUNNING_TREADMILL", TREADMILL);
    (90, "EXERCISE_TYPE_WALKING", WALKING);
    (36, "EXERCISE_TYPE_HIKING", HIKING);
    (8, "EXERCISE_TYPE_BIKING", CYCLING);
    (9, "EXERCISE_TYPE_BIKING_STATIONARY", INDOOR_CYCLING);
    (82, "EXERCISE_TYPE_SWIMMING_POOL", POOL_SWIMMING);
    (83, "EXERCISE_TYPE_SWIMMING_OPEN_WATER", OPEN_WATER_SWIMMING);
    (5, "EXERCISE_TYPE_BACK_EXTENSION", STRENGTH_TRAINING);
    (10, "EXERCISE_TYPE_CALISTHENICS", STRENGTH_TRAINING);
    (13, "EXERCISE_TYPE_CRUNCH", STRENGTH_TRAINING);
    (25, "EXERCISE_TYPE_ELLIPTICAL", ELLIPTICAL);
    (26, "EXERCISE_TYPE_EXERCISE_CLASS", CARDIO_TRAINING);
    (28, "EXERCISE_TYPE_FRISBEE_DISC", OTHER);
    (32, "EXERCISE_TYPE_GUIDED_BREATHING", STRETCHING);
    (33, "EXERCISE_TYPE_GYMNASTICS", FITNESS_EQUIPMENT);
    (37, "EXERCISE_TYPE_HIGH_INTENSITY_INTERVAL_TRAINING", CARDIO_TRAINING);
    (45, "EXERCISE_TYPE_JUMP_ROPE", CARDIO_TRAINING);
    (55, "EXERCISE_TYPE_PILATES", PILATES);
    (56, "EXERCISE_TYPE_PLANK", STRENGTH_TRAINING);
    (74, "EXERCISE_TYPE_ROCK_CLIMBING", ROCK_CLIMBING);
    (75, "EXERCISE_TYPE_ROLLER_SKATING", INLINE_SKATING);
    (78, "EXERCISE_TYPE_ROWING_MACHINE", ROWING_MACHINE);
    (84, "EXERCISE_TYPE_STAIR_CLIMBING", STAIR_CLIMBING);
    (85, "EXERCISE_TYPE_STAIR_CLIMBING_MACHINE", STAIR_CLIMBING);
    (86, "EXERCISE_TYPE_STRENGTH_TRAINING", STRENGTH_TRAINING);
    (87, "EXERCISE_TYPE_STRETCHING", STRETCHING);
    (91, "EXERCISE_TYPE_WEIGHTLIFTING", STRENGTH_TRAINING);
    (92, "EXERCISE_TYPE_WHEELCHAIR", OTHER);
    (93, "EXERCISE_TYPE_YOGA", YOGA);
    (17, "EXERCISE_TYPE_DOWNHILL_SKIING", ALPINE_SKIING);
    (18, "EXERCISE_TYPE_CROSS_COUNTRY_SKIING", CROSS_COUNTRY_SKIING);
    (38, "EXERCISE_TYPE_ICE_HOCKEY", HOCKEY);
    (39, "EXERCISE_TYPE_ICE_SKATING", ICE_SKATING);
    (81, "EXERCISE_TYPE_SNOWBOARDING", SNOWBOARDING);
    (89, "EXERCISE_TYPE_SNOWSHOEING", SNOWSHOEING);
    (46, "EXERCISE_TYPE_KAYAKING", KAYAKING);
    (47, "EXERCISE_TYPE_KITESURFING", KITESURFING);
    (53, "EXERCISE_TYPE_PARAGLIDING", OTHER);
    (54, "EXERCISE_TYPE_PADDLING", PADDLING);
    (76, "EXERCISE_TYPE_ROWING", ROWING);
    (77, "EXERCISE_TYPE_SAILING", SAILING);
    (80, "EXERCISE_TYPE_SCUBA_DIVING", DIVING);
    (88, "EXERCISE_TYPE_SURFING", SURFING);
    (91, "EXERCISE_TYPE_WATER_POLO", OTHER);
    (92, "EXERCISE_TYPE_WINDSURFING", WINDSURFING);
    (3, "EXERCISE_TYPE_AMERICAN_FOOTBALL", AMERICAN_FOOTBALL);
    (4, "EXERCISE_TYPE_AUSTRALIAN_FOOTBALL", FOOTBALL);
    (6, "EXERCISE_TYPE_BADMINTON", BADMINTON);
    (7, "EXERCISE_TYPE_BASEBALL", BASEBALL);
    (11, "EXERCISE_TYPE_BASKETBALL", BASKETBALL);
    (14, "EXERCISE_TYPE_CRICKET", OTHER);
    (27, "EXERCISE_TYPE_FENCING", OTHER);
    (31, "EXERCISE_TYPE_HANDBALL", HANDBALL);
    (40, "EXERCISE_TYPE_LACROSSE", OTHER);
    (73, "EXERCISE_TYPE_RUGBY", RUGBY);
    (79, "EXERCISE_TYPE_SOCCER", SOCCER);
    (80, "EXERCISE_TYPE_SOFTBALL", BASEBALL);
    (88, "EXERCISE_TYPE_VOLLEYBALL", VOLLEYBALL);
    (57, "EXERCISE_TYPE_RACQUETBALL", OTHER);
    (84, "EXERCISE_TYPE_SQUASH", SQUASH);
    (85, "EXERCISE_TYPE_TABLE_TENNIS", TABLE_TENNIS);
    (86, "EXERCISE_TYPE_TENNIS", TENNIS);
    (58, "EXERCISE_TYPE_PICKLEBALL", PICKLEBALL);
    (12, "EXERCISE_TYPE_BOXING", BOXING);
    (48, "EXERCISE_TYPE_MARTIAL_ARTS", MARTIAL_ARTS);
    (93, "EXERCISE_TYPE_WRESTLING", MARTIAL_ARTS);
    (15, "EXERCISE_TYPE_DANCING", DANCE);
    (1, "EXERCISE_TYPE_ALPINE_SKIING", ALPINE_SKIING);
    (2, "EXERCISE_TYPE_ARCHERY", OTHER);
    (16, "EXERCISE_TYPE_GOLF", GOLF);
    (29, "EXERCISE_TYPE_GARDENING", OTHER);
    (34, "EXERCISE_TYPE_HORSEBACK_RIDING", HORSEBACK_RIDING);
    (41, "EXERCISE_TYPE_MARTIAL_ARTS", MARTIAL_ARTS);
    (50, "EXERCISE_TYPE_PADDLEBOARDING", STAND_UP_PADDLEBOARDING);
    (59, "EXERCISE_TYPE_SKATING", ICE_SKATING);
    (60, "EXERCISE_TYPE_SKATEBOARDING", OTHER);
    (0, "EXERCISE_TYPE_OTHER_WORKOUT", OTHER) ].

(** A dict comprehension [{k: v for ... in table}]: the items are stored
    in order, a later item replacing an earlier one with the same key. *)
Definition dict_comprehension `{Countable K} {V : Type}
  (items : list (K * V)) : gmap K V :=
  foldl (fun d kv => <[fst kv := snd kv]> d) ∅ items.

Definition GOOGLE_HEALTH_ID_TO_UNIFIED : gmap Z WorkoutType :=
  dict_comprehension
    (map (fun '(exercise_id, _, unified_type) => (exercise_id, unified_type))
       GOOGLE_HEALTH_WORKOUT_TYPE_MAPPINGS).

Definition GOOGLE_HEALTH_NAME_TO_UNIFIED : gmap string WorkoutType :=
  dict_comprehension
    (map (fun '(_, name, unified_type) => (name, unified_type))
       GOOGLE_HEALTH_WORKOUT_TYPE_MAPPINGS).

Definition get_unified_workout_type_by_id (exercise_type_id : Z) : WorkoutType :=
  default OTHER (GOOGLE_HEALTH_ID_TO_UNIFIED !! exercise_type_id).

Definition get_unified_workout_type_by_name (exercise_type_name : string)
  : WorkoutType :=
  default OTHER (GOOGLE_HEALTH_NAME_TO_UNIFIED !! exercise_type_name).

(** ** Canonical records *)

(** Modelled from the spec: the schemas [EventRecordCreate] and
    [EventRecordDetailCreate] of [app/schemas] are not among the sources.
    The summary carries the fields the handlers pass to its constructor,
    with the types of section 3 of the specification; the canonical type
    is kept as the enumeration member whose [value] the handler stores. *)
Module EventRecordCreate.
Record t : Type := mk {
  id : UUID;
  category : string;
  type : WorkoutType;
  source_name : string;
  device_id : option string;
  duration_seconds : Z;
  start_datetime : datetime;
  end_datetime : datetime;
  provider_id : option string;
  user_id : option UUID
}.

(** [record.user_id = user_id]. *)
Definition set_user_id (r : t) (u : UUID) : t :=
  mk (id r) (category r) (type r) (source_name r) (device_id r)
    (duration_seconds r) (start_datetime r) (end_datetime r)
    (provider_id r) (Some u).
End EventRecordCreate.

(** Modelled from the spec: the detail has optional fields only; a metric
    that is not passed to the constructor is absent. *)
Module EventRecordDetailCreate.
Record t : Type := mk {
  record_id : UUID;
  heart_rate_avg : option Decimal;
  heart_rate_max : option Decimal;
  heart_rate_min : option Decimal;
  distance_total : option Decimal;
  calories_total : option Decimal;
  elevation_gain : option Decimal;
  elevation_loss : option Decimal;
  temperature : option Decimal;
  humidity : option Decimal
}.

(** [EventRecordDetailCreate(record_id=workout_id, **metrics)]. *)
Definition create (workout_id : UUID) (metrics : gmap string Decimal) : t :=
  mk workout_id
    (metrics !! "heart_rate_avg") (metrics !! "heart_rate_max")
    (metrics !! "heart_rate_min") (metrics !! "distance_total")
    (metrics !! "calories_total") (metrics !! "elevation_gain")
    (metrics !! "elevation_loss") (metrics !! "temperature")
    (metrics !! "humidity").
End EventRecordDetailCreate.

(** Modelled from the spec: a field declared as a string takes a string
    and nothing else; the schema rejects other objects. *)
Definition str_field (v : json) : result string :=
  match v with
  | JStr s => Ok s
  | _ => Raise ValidationError
  end.

Definition optional_str_field (v : json) : result (option string) :=
  match v with
  | JNull => Ok None
  | JStr s => Ok (Some s)
  | _ => Raise ValidationError
  end.

(** ** Arithmetic on decoded numbers *)

(** The number an object denotes in a comparison or a sum: an integer
    (a bool is one) or a float. *)
Definition as_number (v : json) : option (Z + float) :=
  match v with
  | JInt n => Some (inl n)
  | JBool b => Some (inl (if b then 1 else 0))
  | JFloat x => Some (inr x)
  | _ => None
  end.

(** Exact values, with the two infinities, to compare integers and
    floats the way Python does: by value. *)
Inductive extended : Type :=
| Finite (q : Q)
| PlusInfinity
| MinusInfinity
| Unordered.

Definition exact (v : json) : extended :=
  match as_number v with
  | Some (inl n) => Finite (Qmake n 1)
  | Some (inr (S754_infinity s)) => if s then MinusInfinity else PlusInfinity
  | Some (inr S754_nan) => Unordered
  | Some (inr x) => Finite (Float64.to_Q x)
  | None => Unordered
  end.

Definition Qltb (p q : Q) : bool := negb (Qle_bool q p).

(** [a < b] on numbers. *)
Definition lt (a b : json) : bool :=
  match exact a, exact b with
  | Finite p, Finite q => Qltb p q
  | MinusInfinity, (Finite _ | PlusInfinity) => true
  | Finite _, PlusInfinity => true
  | _, _ => false
  end.

(** [min(items)] and [max(items)] on a non-empty list: the first smallest
    and the first largest element. *)
Definition py_min (first : json) (rest : list json) : json :=
  fold_left (fun m x => if lt x m then x else m) rest first.

Definition py_max (first : json) (rest : list json) : json :=
  fold_left (fun m x => if lt m x then x else m) rest first.

(** [a + b] on numbers: integers add exactly; with a float the integer
    is converted first. *)
Definition py_add (a b : json) : result json :=
  match as_number a, as_number b with
  | Some (inl x), Some (inl y) => Ok (JInt (x + y))
  | Some (inl x), Some (inr y) =>
      let! x' := Float64.of_int x in Ok (JFloat (Float64.add x' y))
  | Some (inr x), Some (inl y) =>
      let! y' := Float64.of_int y in Ok (JFloat (Float64.add x y'))
  | Some (inr x), Some (inr y) => Ok (JFloat (Float64.add x y))
  | _, _ => Raise TypeError
  end.

(** [sum(items)]: from [0], left to right.  (An interpreter may add
    floats with a compensated algorithm; integers are added exactly
    either way.) *)
Definition py_sum (items : list json) : result json :=
  for_each py_add items (JInt 0).

(** [a / n] for a number [a] and a positive length [n]. *)
Definition py_truediv (a : json) (n : Z) : result float :=
  match as_number a with
  | Some (inl x) => Float64.int_true_divide x n
  | Some (inr x) =>
      let! n' := Float64.of_int n in
      match n' with
      | S754_zero _ => Raise ZeroDivisionError
      | _ => Ok (Float64.div x n')
      end
  | None => Raise TypeError
  end.

(** The key under which an object is found in a dict with integer keys:
    numbers that compare equal hash alike; a list or a dict cannot be
    hashed. *)
Definition int_key (v : json) : result (option Z) :=
  match v with
  | JInt n => Ok (Some n)
  | JBool b => Ok (Some (if b then 1 else 0))
  | JFloat x =>
      Ok (match x with
          | S754_zero _ => Some 0
          | S754_finite s m e =>
              if 0 <=? e then Some ((if s then -1 else 1) * (Z.pos m * 2 ^ e))
              else if Z.pos m mod 2 ^ (- e) =? 0
                   then Some ((if s then -1 else 1) * (Z.pos m / 2 ^ (- e)))
                   else None
          | _ => None
          end)
  | JNull | JStr _ => Ok None
  | JList _ | JDict _ => Raise TypeError
  end.

(** ** The Health Connect handler *)

Abbreviation record_pair := (EventRecordCreate.t * EventRecordDetailCreate.t)%type.

(** [f"{type(data)}"]. *)
Definition type_repr (v : json) : string :=
  match v with
  | JNull => "<class 'NoneType'>"
  | JBool _ => "<class 'bool'>"
  | JInt _ => "<class 'int'>"
  | JFloat _ => "<class 'float'>"
  | JStr _ => "<class 'str'>"
  | JList _ => "<class 'list'>"
  | JDict _ => "<class 'dict'>"
  end.

Module HealthConnectHandler.

Definition _parse_datetime (date_str : json) : M datetime :=
  if negb (truthy date_str) then now
  else
    match date_str with
    | JStr s =>
        let parsed :=
          if endswith s "Z"
          then fromisoformat (replace_char "Z" "+00:00" s)
          else fromisoformat s in
        match parsed with
        | Some d => ret d
        | None => now
        end
    | _ => raise AttributeError
    end.

Definition _extract_distance (session : json) : result (option Decimal) :=
  let! distance_records := get session "distanceRecords" (JList []) in
  if negb (truthy distance_records) then Ok None
  else
    let! records := iterate distance_records in
    let! total_distance :=
      for_each
        (fun total record =>
           let! d := get record "distance" (JDict []) in
           let! distance := get d "inMeters" (JInt 0) in
           let! x := Decimal_of_str distance in
           Dec.add total x)
        records (Dec.of_int 0) in
    let! positive := Dec.gt_zero total_distance in
    Ok (if positive then Some total_distance else None).

Definition _extract_calories (session : json) : result (option Decimal) :=
  let! calories_records := get session "caloriesRecords" (JList []) in
  if negb (truthy calories_records) then Ok None
  else
    let! records := iterate calories_records in
    let! total_calories :=
      for_each
        (fun total record =>
           let! e := get record "energy" (JDict []) in
           let! energy := get e "inKilocalories" (JInt 0) in
           let! x := Decimal_of_str energy in
           Dec.add total x)
        records (Dec.of_int 0) in
    let! positive := Dec.gt_zero total_calories in
    Ok (if positive then Some total_calories else None).

(** The inner loop over the samples of one record. *)
Definition collect_samples (all_bpm : list json) (record : json)
  : result (list json) :=
  let! samples := get record "samples" (JList []) in
  let! items := iterate samples in
  for_each
    (fun acc sample =>
       let! bpm := get sample "beatsPerMinute" (JInt 0) in
       let! positive := gt_zero bpm in
       Ok (if positive then acc ++ [bpm] else acc))
    items all_bpm.

Definition _extract_heart_rate (session : json) : result (gmap string Decimal) :=
  let! hr_records := get session "heartRateRecords" (JList []) in
  if negb (truthy hr_records) then Ok ∅
  else
    let! records := iterate hr_records in
    let! all_bpm := for_each collect_samples records [] in
    match all_bpm with
    | [] => Ok ∅
    | first :: rest =>
        let! lo := Decimal_of_str (py_min first rest) in
        let! hi := Decimal_of_str (py_max first rest) in
        let! total := py_sum all_bpm in
        let! mean := py_truediv total (Z.of_nat (length all_bpm)) in
        Ok (<["avg" := Dec.of_float mean]>
              (<["max" := hi]> (<["min" := lo]> ∅)))
    end.

Definition _extract_elevation (session : json) : result (gmap string Decimal) :=
  let! elevation_records := get session "elevationRecords" (JList []) in
  if negb (truthy elevation_records) then Ok ∅
  else
    let! records := iterate elevation_records in
    let! total_gain :=
      for_each
        (fun total record =>
           let! e := get record "elevation" (JDict []) in
           let! elevation := get e "inMeters" (JInt 0) in
           let! positive := gt_zero elevation in
           if positive then
             let! x := Decimal_of_str elevation in Dec.add total x
           else Ok total)
        records (Dec.of_int 0) in
    let! positive := Dec.gt_zero total_gain in
    Ok (if positive then <["gain" := total_gain]> ∅ else ∅).

Definition _build_metrics (heart_rate_data : gmap string Decimal)
  (distance_meters calories : option Decimal)
  (elevation_data : gmap string Decimal) : gmap string Decimal :=
  let metrics : gmap string Decimal := ∅ in
  let metrics :=
    match heart_rate_data !! "avg" with
    | Some v => <["heart_rate_avg" := v]> metrics
    | None => metrics
    end in
  let metrics :=
    match heart_rate_data !! "max" with
    | Some v => <["heart_rate_max" := v]> metrics
    | None => metrics
    end in
  let metrics :=
    match heart_rate_data !! "min" with
    | Some v => <["heart_rate_min" := v]> metrics
    | None => metrics
    end in
  let metrics :=
    match distance_meters with
    | Some v => <["distance_total" := v]> metrics
    | None => metrics
    end in
  let metrics :=
    match calories with
    | Some v => <["calories_total" := v]> metrics
    | None => metrics
    end in
  match elevation_data !! "gain" with
  | Some v => <["elevation_gain" := v]> metrics
  | None => metrics
  end.

Definition _parse_exercise_session (session : json) : M record_pair :=
  let* exercise_type := lift (get session "exerciseType" (JInt 0)) in
  let* start_str := lift (get session "startTime" (JStr "")) in
  let* start_time := _parse_datetime start_str in
  let* end_str := lift (get session "endTime" (JStr "")) in
  let* end_time := _parse_datetime end_str in
  let* delta := lift (datetime_sub end_time start_time) in
  let* seconds := lift (total_seconds delta) in
  let* duration_seconds := lift (Float64.to_int seconds) in
  let* metadata := lift (get session "metadata" (JDict [])) in
  let* source_name :=
    lift (get metadata "dataOrigin" (JStr "Google Health Connect")) in
  let* device_name := lift (get metadata "device" JNull) in
  let* distance_meters := lift (_extract_distance session) in
  let* calories := lift (_extract_calories session) in
  let* heart_rate_data := lift (_extract_heart_rate session) in
  let* elevation_data := lift (_extract_elevation session) in
  let metrics :=
    _build_metrics heart_rate_data distance_meters calories elevation_data in
  let* workout_id := uuid4 in
  let* key := lift (int_key exercise_type) in
  let unified_type :=
    match key with
    | Some n => get_unified_workout_type_by_id n
    | None => OTHER
    end in
  let* session_id := lift (get session "id" JNull) in
  let* source_name' := lift (str_field source_name) in
  let* device_id' :=
    lift (optional_str_field (if truthy device_name then device_name else JNull)) in
  let* provider_id' := lift (optional_str_field session_id) in
  let record :=
    EventRecordCreate.mk workout_id "workout" unified_type source_name'
      device_id' duration_seconds start_time end_time provider_id' None in
  let detail := EventRecordDetailCreate.create workout_id metrics in
  ret (record, detail).

(** The body of the loop of [normalize] for one session. *)
Definition normalize_step (workouts : list record_pair) (session : json)
  : M (list record_pair) :=
  try_except
    (let* pair := _parse_exercise_session session in
     ret (workouts ++ [pair]))
    (fun e =>
       let* session_id := lift (get session "id" (JStr "unknown")) in
       let* _ := emit (LogError session_id e) in
       ret workouts).

Fixpoint normalize_loop (sessions : list json) (workouts : list record_pair)
  : M (list record_pair) :=
  match sessions with
  | [] => ret workouts
  | session :: rest =>
      let* workouts' := normalize_step workouts session in
      normalize_loop rest workouts'
  end.

Definition normalize (data : json) : M (list record_pair) :=
  match data with
  | JDict _ => normalize_loop [data] []
  | JList sessions => normalize_loop sessions []
  | _ =>
      raise (ValueError
               ("Unsupported data type for Health Connect parsing: "
                +:+ type_repr data))
  end.

End HealthConnectHandler.

(** ** The HealthKit handler *)

(** An element of a parsed XML document: its tag, its attributes and its
    child elements. *)
Inductive Element : Type :=
| mk_Element (tag : string) (attrib : list (string * string))
    (children : list Element).

Definition tag_of (e : Element) : string :=
  match e with mk_Element t _ _ => t end.

Definition children_of (e : Element) : list Element :=
  match e with mk_Element _ _ c => c end.

Fixpoint attrib_get (key : string) (attrib : list (string * string))
  : option string :=
  match attrib with
  | [] => None
  | (k, v) :: rest => if String.eqb k key then Some v else attrib_get key rest
  end.

(** [elem.get(key)] and [elem.get(key, default)]. *)
Definition elem_get (e : Element) (key : string) : option string :=
  match e with mk_Element _ attrib _ => attrib_get key attrib end.

Definition elem_get_default (e : Element) (key default : string) : string :=
  from_option (fun v => v) default (elem_get e key).

(** The descendants of an element with a given tag, in document order. *)
Fixpoint descendants (name : string) (e : Element) : list Element :=
  match e with
  | mk_Element _ _ kids =>
      (fix walk (l : list Element) : list Element :=
         match l with
         | [] => []
         | k :: l' =>
             (if String.eqb (tag_of k) name then [k] else [])
             ++ descendants name k ++ walk l'
         end) kids
  end.

(** [root.findall(".//Workout")] and [elem.findall("MetadataEntry")]. *)
Definition findall_descendants (root : Element) (name : string) : list Element :=
  descendants name root.

Definition findall_children (e : Element) (name : string) : list Element :=
  List.filter (fun k => String.eqb (tag_of k) name) (children_of e).

(** *** Regular expressions

    [strptime] turns its format into a regular expression and matches
    the text against it.  These are the constructs its expressions are
    made of, matched as the module [re] matches them: alternatives are
    tried from the left, an optional part and a run of blanks take as
    much as they can first, and the first way that succeeds is kept. *)
Inductive regex : Type :=
| Eps
| Lit (p : Z)
| Class (accepts : Z -> bool)
| Seq (r1 r2 : regex)
| Alt (r1 r2 : regex)
| Opt (r : regex)
| Blanks
| Group (name : Z) (r : regex).

(** [\s+]. *)
Fixpoint blanks_then {R : Type} (s : list Z) (k : list Z -> option R)
  : option R :=
  match s with
  | p :: s' =>
      if is_space_point p then
        match blanks_then s' k with
        | Some r => Some r
        | None => k s'
        end
      else None
  | [] => None
  end.

(** The flag IGNORECASE on a literal character; letters beyond ASCII are
    compared as they are. *)
Definition fold_case (p : Z) : Z :=
  if (65 <=? p) && (p <=? 90) then p + 32 else p.

(** What is left of the text and the named groups, for the first way the
    expression matches a prefix of the text. *)
Fixpoint rmatch {R : Type} (r : regex) (s : list Z)
  (groups : list (Z * list Z))
  (k : list Z -> list (Z * list Z) -> option R) : option R :=
  match r with
  | Eps => k s groups
  | Lit p =>
      match s with
      | c :: s' => if fold_case c =? fold_case p then k s' groups else None
      | [] => None
      end
  | Class accepts =>
      match s with
      | c :: s' => if accepts c then k s' groups else None
      | [] => None
      end
  | Seq r1 r2 =>
      rmatch r1 s groups (fun s' groups' => rmatch r2 s' groups' k)
  | Alt r1 r2 =>
      match rmatch r1 s groups k with
      | Some x => Some x
      | None => rmatch r2 s groups k
      end
  | Opt r1 =>
      match rmatch r1 s groups k with
      | Some x => Some x
      | None => k s groups
      end
  | Blanks => blanks_then s (fun s' => k s' groups)
  | Group name r1 =>
      rmatch r1 s groups
        (fun s' groups' =>
           k s' ((name, firstn (length s - length s') s) :: groups'))
  end.

(** [\d], a decimal digit of Unicode, and a range of ASCII. *)
Definition any_digit : regex :=
  Class (fun p => match decimal_of_point p with Some _ => true | None => false end).

Definition between (lo hi : string) : regex :=
  Class (fun p =>
           match chars lo, chars hi with
           | [a], [b] => (code a <=? p) && (p <=? code b)
           | _, _ => false
           end).

Definition lit (c : string) : regex :=
  match chars c with
  | [a] => Lit (code a)
  | _ => Eps
  end.

Fixpoint seq (rs : list regex) : regex :=
  match rs with
  | [] => Eps
  | [r] => r
  | r :: rest => Seq r (seq rest)
  end.

Fixpoint alt (rs : list regex) : regex :=
  match rs with
  | [] => Class (fun _ => false)
  | [r] => r
  | r :: rest => Alt r (alt rest)
  end.

(** The expressions of the directives, as [_strptime.py] lists them. *)
Definition directive (d : Z) : option regex :=
  let named r := Some (Group d r) in
  if d =? 100 then        (* d: 3[0-1]|[1-2]\d|0[1-9]|[1-9]| [1-9] *)
    named (alt [seq [lit "3"; between "0" "1"];
                seq [between "1" "2"; any_digit];
                seq [lit "0"; between "1" "9"];
                between "1" "9";
                seq [lit " "; between "1" "9"]])
  else if d =? 72 then    (* H: 2[0-3]|[0-1]\d|\d *)
    named (alt [seq [lit "2"; between "0" "3"];
                seq [between "0" "1"; any_digit];
                any_digit])
  else if d =? 109 then   (* m: 1[0-2]|0[1-9]|[1-9] *)
    named (alt [seq [lit "1"; between "0" "2"];
                seq [lit "0"; between "1" "9"];
                between "1" "9"])
  else if d =? 77 then    (* M: [0-5]\d|\d *)
    named (alt [seq [between "0" "5"; any_digit]; any_digit])
  else if d =? 83 then    (* S: 6[0-1]|[0-5]\d|\d *)
    named (alt [seq [lit "6"; between "0" "1"];
                seq [between "0" "5"; any_digit];
                any_digit])
  else if d =? 89 then    (* Y: \d\d\d\d *)
    named (seq [any_digit; any_digit; any_digit; any_digit])
  else if d =? 122 then
    (* z: [+-]\d\d:?[0-5]\d(:?[0-5]\d(\.\d{1,6})?)?|(?-i:Z) *)
    named
      (alt [seq [Class (fun p => (p =? 43) || (p =? 45));
                 any_digit; any_digit; Opt (lit ":");
                 between "0" "5"; any_digit;
                 Opt (seq [Opt (lit ":"); between "0" "5"; any_digit;
                           Opt (seq [lit ".";
                                     any_digit;
                                     Opt (seq [any_digit;
                                     Opt (seq [any_digit;
                                     Opt (seq [any_digit;
                                     Opt (seq [any_digit;
                                     Opt any_digit])])])])])])];
            Class (fun p => p =? 90)])
  else if d =? 37 then Some (Lit 37)
  else None.

(** The expression of a format: a directive gives its expression, a run
    of blanks [\s+], any other character itself. *)
Fixpoint pattern (after_blank : bool) (format : list Z) : option regex :=
  match format with
  | [] => Some Eps
  | p :: rest =>
      if p =? 37 then
        match rest with
        | d :: rest' =>
            match directive d, pattern false rest' with
            | Some r, Some r' => Some (Seq r r')
            | _, _ => None
            end
        | [] => None
        end
      else if is_space_point p then
        match pattern true rest with
        | Some r' => Some (if after_blank then r' else Seq Blanks r')
        | None => None
        end
      else
        match pattern false rest with
        | Some r' => Some (Seq (Lit p) r')
        | None => None
        end
  end.

(** [int] of a group: blanks before the digits are skipped. *)
Fixpoint digits_value (points : list Z) (acc : Z) : option Z :=
  match points with
  | [] => Some acc
  | p :: rest =>
      match decimal_of_point p with
      | Some d => digits_value rest (10 * acc + d)
      | None => None
      end
  end.

Definition int_of_points (points : list Z) : option Z :=
  match lstrip is_space_point points with
  | [] => None
  | digits => digits_value digits 0
  end.

Definition group (name : string) (groups : list (Z * list Z))
  : option (list Z) :=
  match chars name with
  | [c] =>
      match List.find (fun g => fst g =? code c) groups with
      | Some g => Some (snd g)
      | None => None
      end
  | _ => None
  end.

Definition without (i : nat) (z : list Z) : list Z :=
  firstn i z ++ skipn (S i) z.

Definition slice (i j : nat) (z : list Z) : list Z := firstn (j - i) (skipn i z).

(** The offset of a [%z] group in microseconds: colons are taken out
    when the first one is in its place, the hours, minutes and seconds
    are read by position, and the fraction is padded to six digits. *)
Definition z_offset (z : list Z) : option Z :=
  if bool_decide (z = [90]) then Some 0
  else
    let colon i l := bool_decide (nth_error l i = Some 58) in
    let unified :=
      if colon 3%nat z then
        let z1 := without 3 z in
        if (5 <? length z1)%nat then
          if colon 5%nat z1 then Some (without 5 z1) else None
        else Some z1
      else Some z in
    match unified with
    | None => None
    | Some z2 =>
        let seconds_text := slice 5 7 z2 in
        let remainder := skipn 8 z2 in
        match int_of_points (slice 1 3 z2), int_of_points (slice 3 5 z2),
              (match seconds_text with
               | [] => Some 0
               | _ => int_of_points seconds_text
               end),
              int_of_points
                (remainder ++ repeat 48 (6 - length remainder)) with
        | Some hours, Some minutes, Some seconds, Some fraction =>
            let off := ((hours * 60 + minutes) * 60 + seconds) * 1000000
                       + fraction in
            Some (if bool_decide (head z2 = Some 45) then - off else off)
        | _, _, _, _ => None
        end
    end.

(** [datetime.strptime(s, format)] for formats made of the directives
    [%Y %m %d %H %M %S %z], blanks and literal characters; [None] stands
    for ValueError. *)
Definition strptime (date_string format : string) : option datetime :=
  match pattern false (code_points (chars format)) with
  | None => None
  | Some expression =>
      match rmatch expression (code_points (chars date_string)) []
              (fun rest groups => Some (rest, groups)) with
      | Some ([], groups) =>
          let number name default :=
            match group name groups with
            | Some text => int_of_points text
            | None => Some default
            end in
          let zone :=
            match group "z" groups with
            | Some z => option_map Some (z_offset z)
            | None => Some None
            end in
          match number "Y" 1900, number "m" 1, number "d" 1,
                number "H" 0, number "M" 0, number "S" 0, zone with
          | Some y, Some mo, Some d, Some h, Some mi, Some sec, Some tz =>
              let r := mk_datetime y mo d h mi sec 0 tz in
              if valid_datetime r then Some r else None
          | _, _, _, _, _, _, _ => None
          end
      | _ => None
      end
  end.

(** *** Bytes and text

    A [str] stands here as the bytes of its UTF-8 encoding, so
    [bytes.decode("utf-8")] keeps the bytes when they are well formed and
    raises UnicodeDecodeError when they are not: a byte that cannot start
    a character, a missing or wrong continuation byte, an overlong form,
    a surrogate, or a code point above U+10FFFF. *)

Definition byte_in (b : Byte.byte) (lo hi : Z) : bool :=
  (lo <=? Z.of_N (Byte.to_N b)) && (Z.of_N (Byte.to_N b) <=? hi).

Fixpoint well_formed_utf8 (data : list Byte.byte) : bool :=
  match data with
  | [] => true
  | b1 :: rest =>
      let lead := Z.of_N (Byte.to_N b1) in
      if lead <=? 127 then well_formed_utf8 rest
      else if (194 <=? lead) && (lead <=? 223) then
        match rest with
        | b2 :: rest2 => byte_in b2 128 191 && well_formed_utf8 rest2
        | _ => false
        end
      else if (224 <=? lead) && (lead <=? 239) then
        match rest with
        | b2 :: b3 :: rest3 =>
            byte_in b2 (if lead =? 224 then 160 else 128)
              (if lead =? 237 then 159 else 191)
            && byte_in b3 128 191 && well_formed_utf8 rest3
        | _ => false
        end
      else if (240 <=? lead) && (lead <=? 244) then
        match rest with
        | b2 :: b3 :: b4 :: rest4 =>
            byte_in b2 (if lead =? 240 then 144 else 128)
              (if lead =? 244 then 143 else 191)
            && byte_in b3 128 191 && byte_in b4 128 191
            && well_formed_utf8 rest4
        | _ => false
        end
      else false
  end.

(** [data.decode("utf-8")]. *)
Definition decode_utf8 (data : list Byte.byte) : result string :=
  if well_formed_utf8 data then Ok (string_of_list_byte data)
  else Raise UnicodeDecodeError.

Module HealthKitHandler.
Section Collaborators.

(** [ET.fromstring], the XML parser of the standard library. *)
Variable fromstring : string -> result Element.

(** Modelled from the spec: the lookup of Apple activity names in
    [app/constants/workout_types/apple.py] is not among the sources; it
    is a total function into the unified taxonomy. *)
Variable get_unified_workout_type : string -> WorkoutType.

(** What [normalize] may be handed: a string, bytes, a parsed element,
    or an object of another type (of which only the printed type
    matters). *)
Inductive payload : Type :=
| Text (s : string)
| Bytes (data : list Byte.byte)
| Parsed (root : Element)
| Other (type_name : string).

Definition _parse_datetime (date_str : string) : M datetime :=
  if String.eqb date_str "" then now
  else
    match strptime date_str "%Y-%m-%d %H:%M:%S %z" with
    | Some d => ret d
    | None =>
        match strptime date_str "%Y-%m-%d %H:%M:%S" with
        | Some d => ret d
        | None =>
            match fromisoformat (replace_char " " "T" date_str) with
            | Some d => ret d
            | None => raise (ValueError "Invalid isoformat string")
            end
        end
    end.

(** [not value] for an optional attribute: [None] or the empty string. *)
Definition missing (value : option string) : bool :=
  match value with
  | None => true
  | Some s => String.eqb s ""
  end.

Definition _parse_duration (value : option string) (unit : string) : result Z :=
  match value with
  | None => Ok 0
  | Some v =>
      if String.eqb v "" then Ok 0
      else
        match float_of_string v with
        | None => Ok 0
        | Some duration =>
            if String.eqb unit "min"
            then Float64.to_int (Float64.mul duration (Float64.of_ratio 60 1))
            else if String.eqb unit "hr"
            then Float64.to_int (Float64.mul duration (Float64.of_ratio 3600 1))
            else if String.eqb unit "s"
            then Float64.to_int duration
            else Float64.to_int (Float64.mul duration (Float64.of_ratio 60 1))
        end
  end.

Definition _parse_distance (value unit : option string)
  : result (option Decimal) :=
  match value with
  | None => Ok None
  | Some v =>
      if String.eqb v "" then Ok None
      else
        match Dec.of_string v with
        | None => Raise InvalidOperation
        | Some distance =>
            if missing unit then Ok (Some distance)
            else
              let u := default "" unit in
              if String.eqb u "km"
              then let! r := Dec.mul distance (Dec.of_int 1000) in Ok (Some r)
              else if String.eqb u "mi"
              then let! r := Dec.mul distance (DFinite 160934 (-2)) in Ok (Some r)
              else if String.eqb u "m"
              then Ok (Some distance)
              else if String.eqb u "yd"
              then let! r := Dec.mul distance (DFinite 9144 (-4)) in Ok (Some r)
              else Ok (Some distance)
        end
  end.

Definition _parse_energy (value : option string) (unit : string)
  : result (option Decimal) :=
  match value with
  | None => Ok None
  | Some v =>
      if String.eqb v "" then Ok None
      else
        match Dec.of_string v with
        | None => Raise InvalidOperation
        | Some energy =>
            if String.eqb unit "Cal" || String.eqb unit "kcal"
            then Ok (Some energy)
            else if String.eqb unit "kJ"
            then let! r := Dec.div energy (DFinite 4184 (-3)) in Ok (Some r)
            else Ok (Some energy)
        end
  end.

(** A metadata value: an [int], a [float] or the string itself. *)
Definition metadata_value (value : string) : json :=
  match int_of_string value with
  | Some n => JInt n
  | None =>
      match float_of_string value with
      | Some x => JFloat x
      | None => JStr value
      end
  end.

Definition _parse_metadata (workout_elem : Element) : gmap string json :=
  foldl
    (fun metadata meta_elem =>
       let key := elem_get_default meta_elem "key" "" in
       let value := elem_get_default meta_elem "value" "" in
       if negb (String.eqb key "") && negb (String.eqb value "")
       then <[key := metadata_value value]> metadata
       else metadata)
    ∅ (findall_children workout_elem "MetadataEntry").

(** One clause [if key in metadata: metrics[name] = Decimal(str(...))]. *)
Definition copy_metric (metadata : gmap string json) (key name : string)
  (metrics : gmap string Decimal) : result (gmap string Decimal) :=
  match metadata !! key with
  | Some v => let! d := Decimal_of_str v in Ok (<[name := d]> metrics)
  | None => Ok metrics
  end.

Definition _build_metrics (metadata : gmap string json)
  (distance_meters calories : option Decimal) : result (gmap string Decimal) :=
  let! metrics := copy_metric metadata "HKAverageHeartRate" "heart_rate_avg" ∅ in
  let! metrics := copy_metric metadata "HKMaximumHeartRate" "heart_rate_max" metrics in
  let! metrics := copy_metric metadata "HKMinimumHeartRate" "heart_rate_min" metrics in
  let metrics :=
    match distance_meters with
    | Some v => <["distance_total" := v]> metrics
    | None => metrics
    end in
  let metrics :=
    match calories with
    | Some v => <["calories_total" := v]> metrics
    | None => metrics
    end in
  let! metrics := copy_metric metadata "HKElevationAscended" "elevation_gain" metrics in
  let! metrics := copy_metric metadata "HKElevationDescended" "elevation_loss" metrics in
  let! metrics := copy_metric metadata "HKWeatherTemperature" "temperature" metrics in
  copy_metric metadata "HKWeatherHumidity" "humidity" metrics.

Definition _parse_workout_element (workout_elem : Element) : M record_pair :=
  let workout_type :=
    elem_get_default workout_elem "workoutActivityType"
      "HKWorkoutActivityTypeOther" in
  let source_name := elem_get_default workout_elem "sourceName" "Apple Health" in
  let device_name := elem_get_default workout_elem "device" "" in
  let* start_date := _parse_datetime (elem_get_default workout_elem "startDate" "") in
  let* end_date := _parse_datetime (elem_get_default workout_elem "endDate" "") in
  let duration_value := elem_get workout_elem "duration" in
  let duration_unit := elem_get_default workout_elem "durationUnit" "min" in
  let* duration_seconds := lift (_parse_duration duration_value duration_unit) in
  let distance_value := elem_get workout_elem "totalDistance" in
  let distance_unit := elem_get workout_elem "totalDistanceUnit" in
  let* distance_meters := lift (_parse_distance distance_value distance_unit) in
  let energy_value := elem_get workout_elem "totalEnergyBurned" in
  let energy_unit := elem_get_default workout_elem "totalEnergyBurnedUnit" "kcal" in
  let* calories := lift (_parse_energy energy_value energy_unit) in
  let metadata := _parse_metadata workout_elem in
  let* metrics := lift (_build_metrics metadata distance_meters calories) in
  let* workout_id := uuid4 in
  let unified_type := get_unified_workout_type workout_type in
  let record :=
    EventRecordCreate.mk workout_id "workout" unified_type source_name
      (if String.eqb device_name "" then None else Some device_name)
      duration_seconds start_date end_date None None in
  let detail := EventRecordDetailCreate.create workout_id metrics in
  ret (record, detail).

Definition normalize_step (workouts : list record_pair) (workout_elem : Element)
  : M (list record_pair) :=
  try_except
    (let* pair := _parse_workout_element workout_elem in
     ret (workouts ++ [pair]))
    (fun e =>
       let* _ := emit (Printed e) in
       ret workouts).

Fixpoint normalize_loop (elems : list Element) (workouts : list record_pair)
  : M (list record_pair) :=
  match elems with
  | [] => ret workouts
  | workout_elem :: rest =>
      let* workouts' := normalize_step workouts workout_elem in
      normalize_loop rest workouts'
  end.

Definition normalize (data : payload) : M (list record_pair) :=
  let* root :=
    match data with
    | Text s => lift (fromstring s)
    | Bytes data =>
        lift (let! decoded := decode_utf8 data in fromstring decoded)
    | Parsed root => ret root
    | Other type_name =>
        raise (ValueError
                 ("Unsupported data type for HealthKit parsing: "
                  +:+ type_name))
    end in
  normalize_loop (findall_descendants root "Workout") [].

End Collaborators.
End HealthKitHandler.

(** ** Dispatch: the Google Health strategy and the provider factory *)

Module GoogleHealthWorkouts.
Section Persistence.

(** The persistence collaborator: [_save_workout] of the workouts
    template, which is not among the sources, acting on a database. *)
Variable Database : Type.
Variable _save_workout :
  Database -> EventRecordCreate.t -> EventRecordDetailCreate.t ->
  result unit * Database.

(** [self.handlers]: one handler per source type. *)
Definition handlers : gmap string (json -> M (list record_pair)) :=
  {[ "health_connect" := HealthConnectHandler.normalize ]}.

(** The loop over the normalized pairs: the user is stamped on the
    record, then the pair is saved; an exception of the collaborator
    is not caught. *)
Fixpoint save_all (db : Database) (user_id : UUID)
  (normalized_data : list record_pair) : result unit * Database :=
  match normalized_data with
  | [] => (Ok tt, db)
  | (record, detail) :: rest =>
      match _save_workout db (EventRecordCreate.set_user_id record user_id)
              detail with
      | (Ok _, db') => save_all db' user_id rest
      | (Raise e, db') => (Raise e, db')
      end
  end.

Definition process_payload (db : Database) (user_id : UUID) (payload : json)
  (source_type : string) (w : World) : result unit * Database * World :=
  match handlers !! source_type with
  | None =>
      (Raise (ValueError
                ("Unknown Google Health Connect source: " +:+ source_type)),
       db, w)
  | Some handler =>
      match handler payload w with
      | (Ok normalized_data, w') =>
          (save_all db user_id normalized_data, w')
      | (Raise e, w') => (Raise e, db, w')
      end
  end.

End Persistence.
End GoogleHealthWorkouts.

(** The strategies the factory constructs. *)
Inductive BaseProviderStrategy : Type :=
| AppleStrategy
| GarminStrategy
| GoogleHealthStrategy
| SuuntoStrategy
| PolarStrategy.

Module ProviderFactory.

Definition get_provider (provider_name : string) : result BaseProviderStrategy :=
  if String.eqb provider_name "apple" then Ok AppleStrategy
  else if String.eqb provider_name "garmin" then Ok GarminStrategy
  else if String.eqb provider_name "google_health" then Ok GoogleHealthStrategy
  else if String.eqb provider_name "suunto" then Ok SuuntoStrategy
  else if String.eqb provider_name "polar" then Ok PolarStrategy
  else Raise (ValueError ("Unknown provider: " +:+ provider_name)).

End ProviderFactory.

(** ** Sample inputs *)

(** A world whose clock stands at the first of January 2025 and whose
    identifiers count up from zero. *)
Definition sample_world : World :=
  mk_World (fun _ => mk_datetime 2025 1 1 0 0 0 0 None) 0
    (fun n => N.of_nat n) 0 [].

(** A database that keeps the saved pairs in order. *)
Definition save_to_list (db : list record_pair) (record : EventRecordCreate.t)
  (detail : EventRecordDetailCreate.t) : result unit * list record_pair :=
  (Ok tt, db ++ [(record, detail)]).

Definition bpm_sample (n : Z) : json := JDict [("beatsPerMinute", JInt n)].

(** The single-session payload of section 8 of the specification; the
    distance is the double nearest to 5280.5. *)
Definition sample_session : json :=
  JDict
    [ ("exerciseType", JInt 79);
      ("startTime", JStr "2024-01-15T08:30:00Z");
      ("endTime", JStr "2024-01-15T09:15:00Z");
      ("distanceRecords",
        JList [JDict [("distance",
                        JDict [("inMeters", JFloat (Float64.of_decimal 52805 (-1)))])]]);
      ("caloriesRecords",
        JList [JDict [("energy", JDict [("inKilocalories", JInt 342)])]]);
      ("heartRateRecords",
        JList [JDict [("samples",
                        JList [bpm_sample 125; bpm_sample 142; bpm_sample 138;
                               bpm_sample 155; bpm_sample 148])]]) ].

(** ** Vocabulary of the statements *)

Import HealthConnectHandler.

(** The identifiers and the names of the mapping table. *)
Definition table_ids : list Z :=
  map (fun t => fst (fst t)) GOOGLE_HEALTH_WORKOUT_TYPE_MAPPINGS.

Definition table_names : list string :=
  map (fun t => snd (fst t)) GOOGLE_HEALTH_WORKOUT_TYPE_MAPPINGS.

Definition is_dict (v : json) : bool :=
  match v with JDict _ => true | _ => false end.

(** Whether a session parses in a given world. *)
Definition parses (session : json) (w : World) : bool :=
  is_ok (fst (_parse_exercise_session session w)).

(** The sessions of a batch that fail to parse, each met in the world the
    sessions before it have left. *)
Fixpoint failed_sessions (sessions : list json) (w : World) : nat :=
  match sessions with
  | [] => 0
  | session :: rest =>
      ((if parses session w then 0 else 1)
       + failed_sessions rest (snd (normalize_step [] session w)))%nat
  end.

(** The value a sub-record carries: [record.get(outer, {}).get(inner, 0)]. *)
Definition field_of (outer inner : string) (record : json) : result json :=
  let! d := get record outer (JDict []) in get d inner (JInt 0).

(** The sum of the values as the handlers take it: each value through
    [Decimal(str(v))], added from zero in order. *)
Definition sum_decimals (values : list json) : result Decimal :=
  for_each (fun total v => let! x := Decimal_of_str v in Dec.add total x)
    values (Dec.of_int 0).

(** The exact sum of integer values, and the sum of their magnitudes. *)
Definition exact_sum (ns : list Z) : Z := fold_right Z.add 0 ns.

Definition magnitude (ns : list Z) : Z :=
  fold_right (fun n acc => Z.abs n + acc) 0 ns.

(** An integer or a finite float. *)
Definition finite_number (v : json) : bool :=
  match v with
  | JInt _ => true
  | JFloat x => Float64.is_finite x
  | _ => false
  end.

(** [v > 0] holds. *)
Definition positive (v : json) : bool :=
  match gt_zero v with Ok b => b | Raise _ => false end.

(** The samples of a heart-rate record and the rate of a sample. *)
Definition samples_of (record : json) : result (list json) :=
  let! samples := get record "samples" (JList []) in iterate samples.

Definition bpm_of (sample : json) : result json :=
  get sample "beatsPerMinute" (JInt 0).

(** An [int] or a [float]. *)
Definition is_number (v : json) : bool :=
  match v with
  | JInt _ | JFloat _ => true
  | _ => false
  end.

(** [Decimal(str(v))] of a number. *)
Definition decimal_of_number (v : json) : Decimal :=
  match v with
  | JInt n => Dec.of_int n
  | JFloat x => Dec.of_float x
  | _ => DNaN false
  end.

(** A key is absent from the session or holds an empty list. *)
Definition no_records (key : string) (items : list (string * json)) : Prop :=
  dict_get key items = None \/ dict_get key items = Some (JList []).

(** A number that takes part in the order: not a NaN. *)
Definition comparable (v : json) : bool :=
  match exact v with
  | Unordered => false
  | _ => true
  end.

Definition is_list (v : json) : bool :=
  match v with JList _ => true | _ => false end.

(** A computation that leaves no diagnostic. *)
Definition quiet {A : Type} (c : M A) : Prop :=
  forall w, diagnostics (snd (c w)) = diagnostics w.

(** A timestamp string the Health Connect handler cannot read: empty, or
    refused by [fromisoformat]. *)
Definition unreadable (s : string) : Prop :=
  s = "" \/
  (if endswith s "Z" then fromisoformat (replace_char "Z" "+00:00" s)
   else fromisoformat s) = None.

(** A timestamp string none of the three formats of the HealthKit handler
    reads. *)
Definition matches_no_format (s : string) : Prop :=
  strptime s "%Y-%m-%d %H:%M:%S %z" = None /\
  strptime s "%Y-%m-%d %H:%M:%S" = None /\
  fromisoformat (replace_char " " "T" s) = None.

(** An export whose only workout has a start date that is no date. *)
Definition garbled_export : Element :=
  mk_Element "HealthData" []
    [ mk_Element "Workout"
        [ ("workoutActivityType", "HKWorkoutActivityTypeRunning");
          ("startDate", "not a date");
          ("endDate", "2024-01-15 09:15:00 -0800");
          ("duration", "45") ] [] ].

(** Stand-ins for the collaborators of the HealthKit handler. *)
Definition no_xml_parser (s : string) : result Element :=
  Raise (ValueError "not well-formed").

Definition every_activity_is_other (name : string) : WorkoutType := OTHER.

(** ** Further code of the repository *)

(** The third dictionary of [google_health.py] and its lookup. *)
Definition GOOGLE_HEALTH_ID_TO_NAME : gmap Z string :=
  dict_comprehension
    (map (fun '(exercise_id, name, _) => (exercise_id, name))
       GOOGLE_HEALTH_WORKOUT_TYPE_MAPPINGS).

Definition get_exercise_name (exercise_type_id : Z) : string :=
  default "Unknown" (GOOGLE_HEALTH_ID_TO_NAME !! exercise_type_id).

(** The import route of [import_google_health.py], from the uploaded file
    on: what reading the file and [json.loads] made of it, the factory,
    the strategy's workouts and the count it answers with. *)
Module ImportGoogleHealth.
Section Route.

Variable Database : Type.
Variable _save_workout :
  Database -> EventRecordCreate.t -> EventRecordDetailCreate.t ->
  result unit * Database.

(** [strategy.workouts.process_payload] of the strategies whose workouts
    are not among the sources. *)
Variable other_process_payload :
  BaseProviderStrategy -> Database -> UUID -> json -> string -> World ->
  result unit * Database * World.

(** The outcome of [await file.read()] followed by [json.loads]: the
    decoded object, a JSONDecodeError or another exception, each with its
    text. *)
Inductive upload : Type :=
| Decoded (data : json)
| NotJson (text : string)
| Unreadable (text : string).

(** What the route does: it returns the body of the 201 response, or
    it raises, an HTTPException of its own or whatever a callee raised. *)
Inductive response : Type :=
| Created (success : bool) (message : string) (workouts_imported : Z)
| Raised (e : exn).

Definition process_payload_of (strategy : BaseProviderStrategy) :
  Database -> UUID -> json -> string -> World ->
  result unit * Database * World :=
  match strategy with
  | GoogleHealthStrategy =>
      GoogleHealthWorkouts.process_payload Database _save_workout
  | _ => other_process_payload strategy
  end.

Definition import_google_health (user_id : UUID) (file : upload)
  (db : Database) (w : World) : response * Database * World :=
  match file with
  | NotJson text =>
      (Raised (HTTPException 400 ("Invalid JSON format: " +:+ text)), db, w)
  | Unreadable text =>
      (Raised (HTTPException 400 ("Error reading file: " +:+ text)), db, w)
  | Decoded data =>
      match ProviderFactory.get_provider "google_health" with
      | Raise e => (Raised e, db, w)
      | Ok strategy =>
          match process_payload_of strategy db user_id data
                  "health_connect" w with
          | (Raise e, db', w') => (Raised e, db', w')
          | (Ok _, db', w') =>
              let workout_count :=
                match data with
                | JList items => Z.of_nat (length items)
                | _ => 1
                end in
              (Created true
                 ("Successfully imported " +:+ pretty workout_count
                  +:+ " workout(s) from Google Health Connect")
                 workout_count,
               db', w')
          end
      end
  end.

End Route.
End ImportGoogleHealth.

(** The repository of [series_unit_mapping_repository.py] over the rows
    of the table [series_unit_mapping]. *)
Module SeriesUnitMappingRepository.
Section Table.

(** The enumeration [SeriesType] of [app/schemas/time_series.py] is not
    among the sources. *)
Variable SeriesType : Type.
Context `{EqDecision SeriesType}.

Record SeriesUnitMapping : Type := mk {
  id : UUID;
  series_type : SeriesType;
  unit : string
}.

(** [Query.one_or_none()]: the row, [None] when there is none, and the
    exception MultipleResultsFound when there are several. *)
Inductive one_or_none : Type :=
| NoRow
| OneRow (row : SeriesUnitMapping)
| MultipleResultsFound.

(** [query(model).filter(model.series_type == series_type).one_or_none()]. *)
Definition get_by_series_type (db_session : list SeriesUnitMapping)
  (wanted : SeriesType) : one_or_none :=
  match List.filter (fun row => bool_decide (series_type row = wanted))
          db_session with
  | [] => NoRow
  | [row] => OneRow row
  | _ => MultipleResultsFound
  end.

(** [UniqueConstraint("series_type")] of the model. *)
Definition uq_series_unit_series_type (db_session : list SeriesUnitMapping)
  : Prop :=
  NoDup (map series_type db_session).

End Table.
End SeriesUnitMappingRepository.

(** ** Vocabulary of the further statements *)

(** The value of the last item with a given key. *)
Fixpoint last_binding `{EqDecision K} {V : Type} (key : K)
  (items : list (K * V)) : option V :=
  match items with
  | [] => None
  | (k, v) :: rest =>
      match last_binding key rest with
      | Some v' => Some v'
      | None => if decide (k = key) then Some v else None
      end
  end.

(** What the Health Connect handler makes of a timestamp string that is
    not empty. *)
Definition iso_reading (s : string) : option datetime :=
  if endswith s "Z" then fromisoformat (replace_char "Z" "+00:00" s)
  else fromisoformat s.

(** The invariants of a record pair as a handler returns it. *)
Definition fresh_pair (p : record_pair) : Prop :=
  EventRecordDetailCreate.record_id (snd p) = EventRecordCreate.id (fst p) /\
  EventRecordCreate.category (fst p) = "workout" /\
  EventRecordCreate.user_id (fst p) = None.

(** The metrics only the HealthKit handler fills. *)
Definition no_healthkit_metric (p : record_pair) : Prop :=
  EventRecordDetailCreate.elevation_loss (snd p) = None /\
  EventRecordDetailCreate.temperature (snd p) = None /\
  EventRecordDetailCreate.humidity (snd p) = None.

(** The key and value of the metadata entries of a workout that carry
    both. *)
Definition metadata_entries (workout_elem : Element) : list (string * string) :=
  List.filter
    (fun kv => negb (String.eqb (fst kv) "") && negb (String.eqb (snd kv) ""))
    (map (fun meta_elem =>
            (elem_get_default meta_elem "key" "",
             elem_get_default meta_elem "value" ""))
       (findall_children workout_elem "MetadataEntry")).

(** The metadata keys the HealthKit handler reads and the metric each
    one fills. *)
Definition healthkit_metric_keys : list (string * string) :=
  [ ("HKAverageHeartRate", "heart_rate_avg");
    ("HKMaximumHeartRate", "heart_rate_max");
    ("HKMinimumHeartRate", "heart_rate_min");
    ("HKElevationAscended", "elevation_gain");
    ("HKElevationDescended", "elevation_loss");
    ("HKWeatherTemperature", "temperature");
    ("HKWeatherHumidity", "humidity") ].

(** [Decimal(str(v))] when it does not raise. *)
Definition decimal_view (v : json) : option Decimal :=
  match Decimal_of_str v with
  | Ok d => Some d
  | Raise _ => None
  end.

(** The pair as [process_payload] hands it to the collaborator. *)
Definition stamped (user_id : UUID) (p : record_pair) : record_pair :=
  (EventRecordCreate.set_user_id (fst p) user_id, snd p).

(** A computation that leaves the clock and the identifier source as
    they are and only moves forward in them. *)
Definition steady {A : Type} (c : M A) : Prop :=
  forall w,
    wall_clock (snd (c w)) = wall_clock w /\
    uuid_source (snd (c w)) = uuid_source w /\
    (uuid_draws w <= uuid_draws (snd (c w)))%nat /\
    (clock_reads w <= clock_reads (snd (c w)))%nat.

(** The identifier of the record of a pair. *)
Definition pair_id (p : record_pair) : UUID := EventRecordCreate.id (fst p).

Definition is_str (v : json) : bool :=
  match v with JStr _ => true | _ => false end.

(** The world after one diagnostic more. *)
Definition with_diagnostic (w : World) (d : diagnostic) : World :=
  mk_World (wall_clock w) (clock_reads w) (uuid_source w) (uuid_draws w)
    (diagnostics w ++ [d]).

(** The identifier a session is logged under. *)
Definition logged_id (items : list (string * json)) : json :=
  from_option (fun v => v) (JStr "unknown") (dict_get "id" items).


(** A database that holds at most [capacity] pairs and refuses the
    next one. *)
Definition save_up_to (capacity : nat) (db : list record_pair)
  (record : EventRecordCreate.t) (detail : EventRecordDetailCreate.t)
  : result unit * list record_pair :=
  if (length db <? capacity)%nat then (Ok tt, db ++ [(record, detail)])
  else (Raise (ValueError "database is full"), db).

(** The strategies of the providers other than Google Health are not
    among the sources; the route never reaches them. *)
Definition no_other_payloads {Database : Type} (strategy : BaseProviderStrategy)
  (db : Database) (user_id : UUID) (payload : json) (source_type : string)
  (w : World) : result unit * Database * World :=
  (Raise (ValueError "not among the sources"), db, w).

(** A mapping table of two series, named by numbers. *)
Definition sample_mappings : list (SeriesUnitMappingRepository.SeriesUnitMapping Z) :=
  [ SeriesUnitMappingRepository.mk Z 1%N 10 "bpm";
    SeriesUnitMappingRepository.mk Z 2%N 20 "m" ].
(** ** Properties *)

(** *** The library models on known values *)

(** [repr] prints the shortest digits that read back: [1/3], [2/3], a
    sixteen-digit integer, [1e16] and [1e-05]. *)
Example repr_shortest_digits :
  Dec.of_float (Float64.of_ratio 1 3) = DFinite 3333333333333333 (-16) /\
  Dec.of_float (Float64.of_ratio 2 3) = DFinite 6666666666666666 (-16) /\
  Dec.of_float (Float64.of_decimal 1 15) = DFinite 10000000000000000 (-1) /\
  Dec.of_float (Float64.of_decimal 1 16) = DFinite 1 16 /\
  Dec.of_float (Float64.of_decimal 1 (-5)) = DFinite 1 (-5) /\
  Dec.of_float (Float64.of_decimal 1 (-1)) = DFinite 1 (-1).
Proof. repeat split; vm_compute; reflexivity. Qed.

(** Integers beyond [2 ** 53] are rounded to even on conversion. *)
Example float_of_large_integer :
  Float64.of_int 9007199254740993 = Ok (S754_finite false 4503599627370496 1) /\
  Float64.int_true_divide 708 5 = Ok (S754_finite false 4982107087778611 (-45)).
Proof. split; vm_compute; reflexivity. Qed.

(** The context of [decimal] keeps 28 digits: a quotient, and a sum that
    needs 30. *)
Example decimal_context_precision :
  Dec.div (DFinite 1000 0) (DFinite 4184 (-3))
  = Ok (DFinite 2390057361376673040152963671 (-25)) /\
  Dec.div (DFinite 4184 0) (DFinite 4184 (-3)) = Ok (DFinite 1 3) /\
  Dec.add (DFinite 1 30) (DFinite (-1) 0)
  = Ok (DFinite 1000000000000000000000000000 3).
Proof. repeat split; vm_compute; reflexivity. Qed.

Example numerals_of_strings :
  Dec.of_string " -1_000.50e-3 " = Some (DFinite (-100050) (-5)) /\
  Dec.of_string "5." = Some (DFinite 5 0) /\
  Dec.of_string "." = None /\
  Dec.of_string "72 count/min" = None /\
  float_of_string "1_0" = Some (S754_finite false 5629499534213120 (-49)) /\
  float_of_string "1__0" = None /\
  float_of_string "NaN" = Some S754_nan /\
  int_of_string " +42 " = Some 42 /\
  int_of_string "4.2" = None.
Proof. repeat split; vm_compute; reflexivity. Qed.

(** [test_datetime_parsing] of the repository. *)
Example datetime_parsing :
  HealthConnectHandler._parse_datetime (JStr "2024-01-15T08:30:00Z") sample_world
  = (Ok (mk_datetime 2024 1 15 8 30 0 0 (Some 0)), sample_world) /\
  HealthConnectHandler._parse_datetime (JStr "2024-01-15T08:30:00+00:00") sample_world
  = (Ok (mk_datetime 2024 1 15 8 30 0 0 (Some 0)), sample_world) /\
  fst (HealthConnectHandler._parse_datetime (JStr "") sample_world)
  = Ok (mk_datetime 2025 1 1 0 0 0 0 None) /\
  toordinal (mk_datetime 2024 1 15 0 0 0 0 None) = 738900.
Proof. repeat split; vm_compute; reflexivity. Qed.

(** [test_distance_aggregation] of the repository. *)
Example distance_aggregation :
  _extract_distance
    (JDict [("distanceRecords",
              JList [JDict [("distance", JDict [("inMeters", JInt 1000)])];
                     JDict [("distance", JDict [("inMeters", JInt 2000)])];
                     JDict [("distance", JDict [("inMeters", JInt 500)])]])])
  = Ok (Some (DFinite 3500 0)).
Proof. vm_compute. reflexivity. Qed.

(** The formats of the HealthKit handler. *)
Example healthkit_datetime_formats :
  strptime "2024-01-15 08:30:00 -0800" "%Y-%m-%d %H:%M:%S %z"
  = Some (mk_datetime 2024 1 15 8 30 0 0 (Some (-28800000000))) /\
  strptime "2024-01-15 08:30:00" "%Y-%m-%d %H:%M:%S %z" = None /\
  strptime "2024-01-15 08:30:00" "%Y-%m-%d %H:%M:%S"
  = Some (mk_datetime 2024 1 15 8 30 0 0 None) /\
  fromisoformat (replace_char " " "T" "2024-01-15 08:30:00.250")
  = Some (mk_datetime 2024 1 15 8 30 0 250000 None).
Proof. repeat split; vm_compute; reflexivity. Qed.

(** Conversions of the HealthKit handler on plain values. *)
Example healthkit_conversions :
  HealthKitHandler._parse_duration (Some "45.5") "min" = Ok 2730 /\
  HealthKitHandler._parse_duration (Some "1.5") "hr" = Ok 5400 /\
  HealthKitHandler._parse_duration (Some "90") "s" = Ok 90 /\
  HealthKitHandler._parse_duration (Some "nan") "min"
  = Raise (ValueError "cannot convert float NaN to integer") /\
  HealthKitHandler._parse_distance (Some "5.2") (Some "km")
  = Ok (Some (DFinite 52000 (-1))) /\
  HealthKitHandler._parse_distance (Some "3.1") (Some "mi")
  = Ok (Some (DFinite 4988954 (-3))) /\
  HealthKitHandler._parse_energy (Some "1000") "kJ"
  = Ok (Some (DFinite 2390057361376673040152963671 (-25))).
Proof. repeat split; vm_compute; reflexivity. Qed.

(** Spellings the readers of the library take and refuse. *)
Example readers_of_the_library :
  fromisoformat "2024-01-15T" = None /\
  fromisoformat "20240115T083000" = Some (mk_datetime 2024 1 15 8 30 0 0 None) /\
  fromisoformat "2024-W03-1T08:30:00.5+0530"
  = Some (mk_datetime 2024 1 15 8 30 0 500000 (Some 19800000000)) /\
  strptime "2024-01- 5 08:30:00" "%Y-%m-%d %H:%M:%S"
  = Some (mk_datetime 2024 1 5 8 30 0 0 None) /\
  strptime "2024-01-15 08:30:00 +05:30:15" "%Y-%m-%d %H:%M:%S %z"
  = Some (mk_datetime 2024 1 15 8 30 0 0 (Some 19815000000)) /\
  Dec.of_string "_ 5" = None /\
  Dec.of_string "sNaN" = Some (DNaN true) /\
  Dec.of_string "NaN123" = Some (DNaN false) /\
  Dec.add (DFinite 1 0) (DNaN true) = Raise InvalidOperation /\
  Dec.of_string (String (char_of 28) "5") = Some (DFinite 5 0) /\
  float_of_string (String (char_of 28) "5") = None /\
  int_of_string (String (char_of 28) "5") = None /\
  int_of_string (String (char_of 194) (String (char_of 160) "5")) = Some 5.
Proof. repeat split; vm_compute; reflexivity. Qed.

(** *** Taxonomy lookups *)

Section DictComprehension.
Context `{Countable K} {V : Type}.

Lemma foldl_insert_lookup_None (items : list (K * V)) (d : gmap K V) (k : K) :
  d !! k = None -> k ∉ map fst items ->
  foldl (fun d kv => <[fst kv := snd kv]> d) d items !! k = None.
Proof.
  revert d. induction items as [|[k' v] items IH]; intros d Hd Hk; simpl.
  - exact Hd.
  - apply IH.
    + rewrite lookup_insert_ne; [exact Hd|].
      intros ->. apply Hk. simpl. left.
    + intros Hin. apply Hk. simpl. right. exact Hin.
Qed.

Lemma dict_comprehension_lookup_None (items : list (K * V)) (k : K) :
  k ∉ map fst items -> dict_comprehension items !! k = None.
Proof. apply foldl_insert_lookup_None, lookup_empty. Qed.
End DictComprehension.


(** C3. The two lookups are total functions of their typed argument: an
    identifier that the mapping table does not list is mapped to OTHER,
    and so is a name that the table does not list. *)
Theorem lookups_default_to_other (exercise_type_id : Z) (exercise_type_name : string) :
  (exercise_type_id ∉ table_ids ->
   get_unified_workout_type_by_id exercise_type_id = OTHER) /\
  (exercise_type_name ∉ table_names ->
   get_unified_workout_type_by_name exercise_type_name = OTHER).
Proof.
  split; intros Hout.
  - unfold get_unified_workout_type_by_id, GOOGLE_HEALTH_ID_TO_UNIFIED.
    rewrite dict_comprehension_lookup_None; [reflexivity|].
    rewrite map_map. unfold table_ids in Hout.
    erewrite map_ext; [exact Hout|]. intros [[i n] t]. reflexivity.
  - unfold get_unified_workout_type_by_name, GOOGLE_HEALTH_NAME_TO_UNIFIED.
    rewrite dict_comprehension_lookup_None; [reflexivity|].
    rewrite map_map. unfold table_names in Hout.
    erewrite map_ext; [exact Hout|]. intros [[i n] t]. reflexivity.
Qed.

Lemma lookups_default_to_other_witness :
  get_unified_workout_type_by_id 999 = OTHER /\
  get_unified_workout_type_by_name "UNKNOWN" = OTHER.
Proof.
  destruct (lookups_default_to_other 999 "UNKNOWN") as [Hid Hname].
  split.
  - apply Hid. apply (bool_decide_unpack _). vm_compute. exact I.
  - apply Hname. apply (bool_decide_unpack _). vm_compute. exact I.
Defined.

(** C1. On the single-session payload of the specification [normalize]
    returns one record pair with duration 2700, distance 5280.5, calories
    342 and heart rate 125, 155 and 141.6 (minimum, maximum, average);
    its canonical type is SOCCER, not RUNNING: the table lists the
    identifier 79 twice and the later entry wins. *)
Theorem sample_session_is_typed_soccer (w : World) :
  exists record detail w',
    HealthConnectHandler.normalize sample_session w = (Ok [(record, detail)], w') /\
    EventRecordCreate.type record = SOCCER /\
    EventRecordCreate.duration_seconds record = 2700 /\
    EventRecordDetailCreate.distance_total detail = Some (DFinite 52805 (-1)) /\
    EventRecordDetailCreate.calories_total detail = Some (DFinite 342 0) /\
    EventRecordDetailCreate.heart_rate_min detail = Some (DFinite 125 0) /\
    EventRecordDetailCreate.heart_rate_max detail = Some (DFinite 155 0) /\
    EventRecordDetailCreate.heart_rate_avg detail = Some (DFinite 1416 (-1)).
Proof.
  eexists _, _, _. split.
  - vm_compute. reflexivity.
  - repeat split; vm_compute; reflexivity.
Qed.

Lemma normalize_step_dict (items : list (string * json)) (workouts : list record_pair) (w : World) :
  exists workouts' w',
    normalize_step workouts (JDict items) w = (Ok workouts', w') /\
    w' = snd (normalize_step [] (JDict items) w) /\
    (length workouts' + (if parses (JDict items) w then 0 else 1)
     = S (length workouts))%nat /\
    (length (diagnostics w')
     = length (diagnostics (snd (_parse_exercise_session (JDict items) w)))
       + (if parses (JDict items) w then 0 else 1))%nat.
Proof.
  unfold normalize_step, parses, try_except, bindM.
  destruct (_parse_exercise_session (JDict items) w) as [[pair|e] w1]; simpl.
  - eexists _, _. split; [reflexivity|]. split; [reflexivity|]. split.
    + rewrite length_app. simpl. lia.
    + lia.
  - eexists _, _. split; [reflexivity|]. split; [reflexivity|]. split.
    + lia.
    + simpl. rewrite length_app. simpl. lia.
Qed.

Lemma normalize_step_not_dict (session : json) (workouts : list record_pair) (w : World) :
  is_dict session = false ->
  normalize_step workouts session w = (Raise AttributeError, w).
Proof.
  destruct session; simpl; intros Hd; try discriminate; reflexivity.
Qed.



Lemma normalize_loop_not_dict (sessions : list json) :
  Exists (fun s => is_dict s = false) sessions ->
  forall (workouts : list record_pair) (w : World),
  exists w', normalize_loop sessions workouts w = (Raise AttributeError, w').
Proof.
  induction sessions as [|session sessions IH]; intros Hex workouts w.
  - inversion Hex.
  - simpl. unfold bindM at 1.
    destruct (is_dict session) eqn:Hd.
    + destruct session as [| | | | | |items]; try discriminate.
      destruct (normalize_step_dict items workouts w) as (ws1 & w1 & Hstep & _).
      rewrite Hstep. apply IH.
      inversion Hex as [? ? Hh|? ? Ht]; subst; [simpl in Hh; discriminate | exact Ht].
    + rewrite (normalize_step_not_dict _ _ _ Hd). eexists. reflexivity.
Qed.



Lemma for_each_Forall2 {A B C : Type} (f : C -> A -> result C)
  (g : C -> B -> result C) (xs : list A) (ys : list B) :
  Forall2 (fun x y => forall acc, f acc x = g acc y) xs ys ->
  forall acc, for_each f xs acc = for_each g ys acc.
Proof.
  induction 1 as [|x y xs ys Hxy _ IH]; intros acc; simpl.
  - reflexivity.
  - rewrite Hxy. destruct (g acc y); simpl; [apply IH | reflexivity].
Qed.

Lemma fix_finite (c e : Z) : exists c' e', Dec.fix_ c e = DFinite c' e'.
Proof.
  unfold Dec.fix_.
  destruct (Dec.digits10 c <=? Dec.prec); [eauto|].
  match goal with |- context [if ?b then _ else _] => destruct b end; eauto.
Qed.

Lemma Decimal_of_finite_number (v : json) :
  finite_number v = true -> exists c e, Decimal_of_str v = Ok (DFinite c e).
Proof.
  destruct v as [| |n|x| | |]; simpl; try discriminate; intros Hf.
  - eauto.
  - destruct x as [s|s| |s m e]; simpl in *; try discriminate.
    + eauto.
    + destruct (Float64.shortest m e) as [c k].
      match goal with |- context [if ?b then _ else _] => destruct b end; eauto.
Qed.

Lemma sum_step_finite (c e : Z) (v : json) :
  finite_number v = true ->
  exists c' e',
    (let! x := Decimal_of_str v in Dec.add (DFinite c e) x) = Ok (DFinite c' e').
Proof.
  intros Hf. destruct (Decimal_of_finite_number v Hf) as (c1 & e1 & ->).
  simpl. destruct (fix_finite (c * 10 ^ (e - Z.min e e1) + c1 * 10 ^ (e1 - Z.min e e1)) (Z.min e e1))
    as (c' & e' & ->). eauto.
Qed.

Lemma sum_from_finite (values : list json) :
  Forall (fun v => finite_number v = true) values ->
  forall c e, exists c' e',
    for_each (fun total v => let! x := Decimal_of_str v in Dec.add total x)
      values (DFinite c e) = Ok (DFinite c' e').
Proof.
  induction 1 as [|v values Hv _ IH]; intros c e; cbn [for_each].
  - eauto.
  - destruct (sum_step_finite c e v Hv) as (c1 & e1 & ->). cbn [bind]. apply IH.
Qed.

Lemma sum_decimals_finite (values : list json) :
  Forall (fun v => finite_number v = true) values ->
  exists c e, sum_decimals values = Ok (DFinite c e).
Proof. intros Hv. apply (sum_from_finite values Hv). Qed.

(** The additive extractors on well-formed sub-records. *)
Lemma extract_distance_sum (items : list (string * json)) (records values : list json) :
  dict_get "distanceRecords" items = Some (JList records) ->
  Forall2 (fun r v => field_of "distance" "inMeters" r = Ok v) records values ->
  _extract_distance (JDict items) =
    (let! total := sum_decimals values in
     let! above := Dec.gt_zero total in
     Ok (if above then Some total else None)).
Proof.
  intros Hget Hrec. unfold _extract_distance. simpl. rewrite Hget. simpl.
  destruct Hrec as [|r v records values Hr Hrec].
  - reflexivity.
  - cbn [truthy negb iterate bind]. unfold sum_decimals.
    erewrite for_each_Forall2; [reflexivity|].
    constructor.
    + intros acc. unfold field_of in Hr.
      destruct (get r "distance" (JDict [])) as [d|]; simpl in *; [|discriminate].
      rewrite Hr. reflexivity.
    + eapply Forall2_impl; [exact Hrec|]. intros r' v' Hr' acc.
      unfold field_of in Hr'.
      destruct (get r' "distance" (JDict [])) as [d|]; simpl in *; [|discriminate].
      rewrite Hr'. reflexivity.
Qed.

Lemma extract_calories_sum (items : list (string * json)) (records values : list json) :
  dict_get "caloriesRecords" items = Some (JList records) ->
  Forall2 (fun r v => field_of "energy" "inKilocalories" r = Ok v) records values ->
  _extract_calories (JDict items) =
    (let! total := sum_decimals values in
     let! above := Dec.gt_zero total in
     Ok (if above then Some total else None)).
Proof.
  intros Hget Hrec. unfold _extract_calories. simpl. rewrite Hget. simpl.
  destruct Hrec as [|r v records values Hr Hrec].
  - reflexivity.
  - cbn [truthy negb iterate bind]. unfold sum_decimals.
    erewrite for_each_Forall2; [reflexivity|].
    constructor.
    + intros acc. unfold field_of in Hr.
      destruct (get r "energy" (JDict [])) as [d|]; simpl in *; [|discriminate].
      rewrite Hr. reflexivity.
    + eapply Forall2_impl; [exact Hrec|]. intros r' v' Hr' acc.
      unfold field_of in Hr'.
      destruct (get r' "energy" (JDict [])) as [d|]; simpl in *; [|discriminate].
      rewrite Hr'. reflexivity.
Qed.

Lemma gt_zero_finite_number (v : json) :
  finite_number v = true -> gt_zero v = Ok (positive v).
Proof.
  unfold positive. destruct v; simpl; try discriminate; reflexivity.
Qed.

Lemma elevation_loop (records values : list json) :
  Forall2 (fun r v => field_of "elevation" "inMeters" r = Ok v) records values ->
  Forall (fun v => finite_number v = true) values ->
  forall acc,
    for_each
      (fun total record =>
         let! e := get record "elevation" (JDict []) in
         let! elevation := get e "inMeters" (JInt 0) in
         let! above := gt_zero elevation in
         if above then
           let! x := Decimal_of_str elevation in Dec.add total x
         else Ok total)
      records acc
    = for_each (fun total v => let! x := Decimal_of_str v in Dec.add total x)
        (List.filter positive values) acc.
Proof.
  induction 1 as [|r v records values Hr _ IH]; intros Hfin acc.
  - reflexivity.
  - inversion Hfin as [|? ? Hv Hrest]; subst.
    cbn [for_each List.filter]. unfold field_of in Hr.
    destruct (get r "elevation" (JDict [])) as [d|]; simpl in Hr; [|discriminate].
    cbn [bind]. rewrite Hr. cbn [bind].
    rewrite (gt_zero_finite_number v Hv). cbn [bind].
    destruct (positive v); cbn [for_each].
    + destruct (let! x := Decimal_of_str v in Dec.add acc x); cbn [bind];
        [apply IH; exact Hrest | reflexivity].
    + apply IH; exact Hrest.
Qed.

Lemma extract_elevation_sum (items : list (string * json)) (records values : list json) :
  dict_get "elevationRecords" items = Some (JList records) ->
  Forall2 (fun r v => field_of "elevation" "inMeters" r = Ok v) records values ->
  Forall (fun v => finite_number v = true) values ->
  _extract_elevation (JDict items) =
    (let! total := sum_decimals (List.filter positive values) in
     let! above := Dec.gt_zero total in
     Ok (if above then <["gain" := total]> ∅ else ∅)).
Proof.
  intros Hget Hrec Hfin. unfold _extract_elevation. simpl. rewrite Hget. simpl.
  destruct records as [|r records].
  - inversion Hrec; subst. reflexivity.
  - cbn [truthy negb iterate bind]. unfold sum_decimals.
    rewrite (elevation_loop _ _ Hrec Hfin). reflexivity.
Qed.

(** *** Order on numbers *)

Lemma Qltb_lt (p q : Q) : Qltb p q = true <-> (p < q)%Q.
Proof.
  unfold Qltb. rewrite negb_true_iff. split.
  - intros Hle. apply Qnot_le_lt. intros Hqp.
    apply Qle_bool_iff in Hqp. congruence.
  - intros Hlt. destruct (Qle_bool q p) eqn:Hle; [|reflexivity].
    apply Qle_bool_iff in Hle. exfalso. exact (Qlt_not_le _ _ Hlt Hle).
Qed.

Lemma lt_irrefl (a : json) : lt a a = false.
Proof.
  unfold lt. destruct (exact a) as [q| | |]; try reflexivity.
  destruct (Qltb q q) eqn:Hq; [|reflexivity].
  apply Qltb_lt in Hq. exfalso. exact (Qlt_irrefl _ Hq).
Qed.

Lemma lt_trans (a b c : json) : lt a b = true -> lt b c = true -> lt a c = true.
Proof.
  unfold lt.
  destruct (exact a) as [p| | |], (exact b) as [q| | |], (exact c) as [r| | |];
    try discriminate; try reflexivity.
  rewrite !Qltb_lt. apply Qlt_trans.
Qed.

(** A number that is neither a NaN nor another object. *)
Lemma lt_asym (a b : json) : lt a b = true -> lt b a = false.
Proof.
  intros Hab. destruct (lt b a) eqn:Hba; [|reflexivity].
  pose proof (lt_trans _ _ _ Hab Hba) as Haa.
  rewrite lt_irrefl in Haa. discriminate.
Qed.

Lemma lt_cotrans (a b c : json) :
  comparable b = true -> lt a c = true -> lt a b = true \/ lt b c = true.
Proof.
  unfold comparable, lt.
  destruct (exact a) as [p| | |], (exact b) as [q| | |], (exact c) as [r| | |];
    try discriminate; auto.
  rewrite !Qltb_lt. intros _ Hpr.
  destruct (Qlt_le_dec p q) as [Hpq|Hqp]; [left; exact Hpq|].
  right. exact (Qle_lt_trans _ _ _ Hqp Hpr).
Qed.

Lemma positive_comparable (v : json) : positive v = true -> comparable v = true.
Proof.
  unfold positive, comparable, exact.
  destruct v as [|b|n|x| | |]; simpl; try discriminate; try reflexivity.
  destruct x as [s|s| |s m e]; try discriminate; destruct s;
    try discriminate; reflexivity.
Qed.

Lemma py_min_least (rest : list json) (first : json) :
  Forall (fun v => comparable v = true) (first :: rest) ->
  In (py_min first rest) (first :: rest) /\
  forall x, In x (first :: rest) -> lt x (py_min first rest) = false.
Proof.
  unfold py_min. revert first.
  induction rest as [|y rest IH]; intros first Hcmp; simpl.
  - split; [left; reflexivity|]. intros x [<-|[]]. apply lt_irrefl.
  - inversion Hcmp as [|? ? Hf Hrest]; subst.
    inversion Hrest as [|? ? Hy Hrest']; subst.
    set (m0 := if lt y first then y else first).
    assert (Hm0 : comparable m0 = true) by (unfold m0; destruct (lt y first); assumption).
    destruct (IH m0 ltac:(constructor; assumption)) as [Hin Hleast].
    assert (Hres : lt m0 (fold_left (fun m x => if lt x m then x else m) rest m0) = false)
      by (apply Hleast; left; reflexivity).
    assert (Hbelow : forall x, lt x m0 = false ->
              lt x (fold_left (fun m x => if lt x m then x else m) rest m0) = false).
    { intros x Hx.
      destruct (lt x (fold_left (fun m x => if lt x m then x else m) rest m0)) eqn:Hlt;
        [|reflexivity].
      destruct (lt_cotrans _ m0 _ Hm0 Hlt) as [H1|H1]; congruence. }
    split.
    + destruct Hin as [Heq|Hin]; [|right; right; exact Hin].
      rewrite <- Heq. unfold m0. destruct (lt y first); [right; left|left]; reflexivity.
    + intros x [<-|[<-|Hx]].
      * apply Hbelow. unfold m0. destruct (lt y first) eqn:Hyf;
          [apply lt_asym; exact Hyf | apply lt_irrefl].
      * apply Hbelow. unfold m0. destruct (lt y first) eqn:Hyf;
          [apply lt_irrefl | exact Hyf].
      * apply Hleast. right. exact Hx.
Qed.

Lemma py_max_greatest (rest : list json) (first : json) :
  Forall (fun v => comparable v = true) (first :: rest) ->
  In (py_max first rest) (first :: rest) /\
  forall x, In x (first :: rest) -> lt (py_max first rest) x = false.
Proof.
  unfold py_max. revert first.
  induction rest as [|y rest IH]; intros first Hcmp; simpl.
  - split; [left; reflexivity|]. intros x [<-|[]]. apply lt_irrefl.
  - inversion Hcmp as [|? ? Hf Hrest]; subst.
    inversion Hrest as [|? ? Hy Hrest']; subst.
    set (m0 := if lt first y then y else first).
    assert (Hm0 : comparable m0 = true) by (unfold m0; destruct (lt first y); assumption).
    destruct (IH m0 ltac:(constructor; assumption)) as [Hin Hmost].
    assert (Habove : forall x, lt m0 x = false ->
              lt (fold_left (fun m x => if lt m x then x else m) rest m0) x = false).
    { intros x Hx.
      destruct (lt (fold_left (fun m x => if lt m x then x else m) rest m0) x) eqn:Hlt;
        [|reflexivity].
      destruct (lt_cotrans _ m0 _ Hm0 Hlt) as [H1|H1]; [|congruence].
      assert (lt (fold_left (fun m x => if lt m x then x else m) rest m0) m0 = false)
        by (apply Hmost; left; reflexivity).
      congruence. }
    split.
    + destruct Hin as [Heq|Hin]; [|right; right; exact Hin].
      rewrite <- Heq. unfold m0. destruct (lt first y); [right; left|left]; reflexivity.
    + intros x [<-|[<-|Hx]].
      * apply Habove. unfold m0. destruct (lt first y) eqn:Hfy;
          [apply lt_asym; exact Hfy | apply lt_irrefl].
      * apply Habove. unfold m0. destruct (lt first y) eqn:Hfy;
          [apply lt_irrefl | exact Hfy].
      * apply Hmost. right. exact Hx.
Qed.

(** *** The heart-rate loops *)

Lemma gt_zero_number (v : json) : is_number v = true -> gt_zero v = Ok (positive v).
Proof.
  unfold positive. destruct v; simpl; try discriminate; reflexivity.
Qed.

Lemma samples_loop (samples bpms : list json) :
  Forall2 (fun s b => bpm_of s = Ok b) samples bpms ->
  Forall (fun b => is_number b = true) bpms ->
  forall acc,
    for_each
      (fun acc sample =>
         let! bpm := get sample "beatsPerMinute" (JInt 0) in
         let! above := gt_zero bpm in
         Ok (if above then acc ++ [bpm] else acc))
      samples acc
    = Ok (acc ++ List.filter positive bpms).
Proof.
  induction 1 as [|s b samples bpms Hs _ IH]; intros Hnum acc.
  - simpl. rewrite app_nil_r. reflexivity.
  - inversion Hnum as [|? ? Hb Hrest]; subst.
    cbn [for_each List.filter]. unfold bpm_of in Hs. rewrite Hs. cbn [bind].
    rewrite (gt_zero_number b Hb). cbn [bind].
    rewrite (IH Hrest). destruct (positive b).
    + rewrite <- app_assoc. reflexivity.
    + reflexivity.
Qed.

Lemma records_loop (records : list json) (sample_lists bpm_lists : list (list json)) :
  Forall2 (fun r ss => samples_of r = Ok ss) records sample_lists ->
  Forall2 (Forall2 (fun s b => bpm_of s = Ok b)) sample_lists bpm_lists ->
  Forall (Forall (fun b => is_number b = true)) bpm_lists ->
  forall acc,
    for_each collect_samples records acc
    = Ok (acc ++ List.filter positive (concat bpm_lists)).
Proof.
  intros Hrec. revert bpm_lists.
  induction Hrec as [|r ss records sample_lists Hr _ IH];
    intros bpm_lists Hbpm Hnum acc.
  - inversion Hbpm; subst. simpl. rewrite app_nil_r. reflexivity.
  - inversion Hbpm as [|? bs ? bpm_rest Hss Hbpm']; subst.
    inversion Hnum as [|? ? Hbs Hnum']; subst.
    cbn [for_each]. unfold collect_samples at 1. unfold samples_of in Hr.
    destruct (get r "samples" (JList [])) as [samples|]; simpl in Hr; [|discriminate].
    cbn [bind]. rewrite Hr. cbn [bind].
    rewrite (samples_loop ss bs Hss Hbs). cbn [bind].
    rewrite (IH bpm_rest Hbpm' Hnum').
    rewrite <- app_assoc. simpl. rewrite List.filter_app. reflexivity.
Qed.

Lemma Decimal_of_number (v : json) :
  is_number v = true -> Decimal_of_str v = Ok (decimal_of_number v).
Proof. destruct v; simpl; try discriminate; reflexivity. Qed.

Lemma positive_is_number (values : list json) :
  Forall (fun b => is_number b = true) values ->
  Forall (fun b => is_number b = true) (List.filter positive values).
Proof.
  induction 1 as [|v values Hv _ IH]; simpl; [constructor|].
  destruct (positive v); [constructor; assumption | assumption].
Qed.

Lemma Forall_concat_number (lists : list (list json)) :
  Forall (Forall (fun b => is_number b = true)) lists ->
  Forall (fun b => is_number b = true) (concat lists).
Proof.
  induction 1 as [|l lists Hl _ IH]; simpl; [constructor|].
  apply Forall_app. split; assumption.
Qed.

Lemma filter_positive_comparable (values : list json) :
  Forall (fun v => comparable v = true) (List.filter positive values).
Proof.
  induction values as [|v values IH]; simpl; [constructor|].
  destruct (positive v) eqn:Hp; [|exact IH].
  constructor; [apply positive_comparable; exact Hp | exact IH].
Qed.

Lemma py_min_in (first : json) (rest : list json) :
  In (py_min first rest) (first :: rest).
Proof.
  unfold py_min. revert first.
  induction rest as [|y rest IH]; intros first; simpl.
  - left. reflexivity.
  - destruct (IH (if lt y first then y else first)) as [Heq|Hin].
    + rewrite <- Heq. destruct (lt y first); [right; left|left]; reflexivity.
    + right. right. exact Hin.
Qed.

Lemma py_max_in (first : json) (rest : list json) :
  In (py_max first rest) (first :: rest).
Proof.
  unfold py_max. revert first.
  induction rest as [|y rest IH]; intros first; simpl.
  - left. reflexivity.
  - destruct (IH (if lt first y then y else first)) as [Heq|Hin].
    + rewrite <- Heq. destruct (lt first y); [right; left|left]; reflexivity.
    + right. right. exact Hin.
Qed.

(** *** From the metrics to the detail *)

Lemma detail_fields (heart_rate_data : gmap string Decimal)
  (distance_meters calories : option Decimal)
  (elevation_data : gmap string Decimal) (workout_id : UUID) :
  let detail :=
    EventRecordDetailCreate.create workout_id
      (_build_metrics heart_rate_data distance_meters calories elevation_data) in
  EventRecordDetailCreate.heart_rate_min detail = heart_rate_data !! "min" /\
  EventRecordDetailCreate.heart_rate_max detail = heart_rate_data !! "max" /\
  EventRecordDetailCreate.heart_rate_avg detail = heart_rate_data !! "avg" /\
  EventRecordDetailCreate.distance_total detail = distance_meters /\
  EventRecordDetailCreate.calories_total detail = calories /\
  EventRecordDetailCreate.elevation_gain detail = elevation_data !! "gain".
Proof.
  unfold _build_metrics. simpl.
  destruct (heart_rate_data !! "avg"), (heart_rate_data !! "max"),
    (heart_rate_data !! "min"), distance_meters, calories,
    (elevation_data !! "gain");
    repeat split; simplify_map_eq; reflexivity.
Qed.

(** *** Aggregation of empty and of zero-sum sub-records *)

Lemma no_records_falsy (key : string) (items : list (string * json)) :
  no_records key items ->
  exists v, get (JDict items) key (JList []) = Ok v /\ truthy v = false.
Proof.
  intros [Hnone|Hempty]; simpl.
  - rewrite Hnone. exists (JList []). split; reflexivity.
  - rewrite Hempty. exists (JList []). split; reflexivity.
Qed.

(** Below the precision of the context nothing is rounded. *)
Lemma digits10_aux_bound (fuel : nat) :
  forall n acc k : Z,
  0 <= k -> 0 <= n < 10 ^ k -> Dec.digits10_aux fuel n acc <= acc + k.
Proof.
  induction fuel as [|fuel IH]; intros n acc k Hk Hn; simpl; [lia|].
  destruct (Z.eqb_spec n 0) as [->|Hne]; [lia|].
  assert (Hpos : 0 < k).
  { destruct (Z.eq_dec k 0) as [->|]; [simpl in Hn; lia | lia]. }
  assert (Hdiv : 0 <= n / 10 < 10 ^ (k - 1)).
  { split; [apply Z.div_pos; lia|].
    apply Z.div_lt_upper_bound; [lia|].
    rewrite <- Z.pow_succ_r by lia.
    replace (Z.succ (k - 1)) with k by lia. lia. }
  specialize (IH (n / 10) (acc + 1) (k - 1) ltac:(lia) Hdiv). lia.
Qed.

Lemma fix_exact (c e : Z) :
  Z.abs c < 10 ^ Dec.prec -> Dec.fix_ c e = DFinite c e.
Proof.
  intros Hc. unfold Dec.fix_, Dec.digits10.
  pose proof (digits10_aux_bound (S (Z.to_nat (Z.log2 (Z.abs c)))) (Z.abs c)
                0 Dec.prec ltac:(unfold Dec.prec; lia) ltac:(lia)) as Hd.
  destruct (Z.leb_spec
              (Dec.digits10_aux (S (Z.to_nat (Z.log2 (Z.abs c)))) (Z.abs c) 0)
              Dec.prec); [reflexivity | lia].
Qed.

Lemma magnitude_nonneg (ns : list Z) : 0 <= magnitude ns.
Proof. induction ns as [|n ns IH]; simpl; lia. Qed.

(** Integers whose magnitudes add up to less than [10 ^ 28] are summed
    exactly. *)
Lemma sum_integers_from (ns : list Z) :
  forall c : Z,
  Z.abs c + magnitude ns < 10 ^ Dec.prec ->
  for_each (fun total v => let! x := Decimal_of_str v in Dec.add total x)
    (map JInt ns) (DFinite c 0)
  = Ok (DFinite (c + exact_sum ns) 0).
Proof.
  induction ns as [|n ns IH]; intros c Hc.
  - simpl. rewrite Z.add_0_r. reflexivity.
  - pose proof (magnitude_nonneg ns) as Hpos.
    change (magnitude (n :: ns)) with (Z.abs n + magnitude ns) in Hc.
    change (exact_sum (n :: ns)) with (n + exact_sum ns).
    cbn [map for_each Decimal_of_str bind Dec.of_int Dec.add].
    change (Z.min 0 0) with 0. change (10 ^ (0 - 0)) with 1.
    replace (c * 1 + n * 1) with (c + n) by lia.
    rewrite fix_exact by lia. cbn [bind].
    rewrite IH by lia. do 2 f_equal. lia.
Qed.

Lemma sum_decimals_integers (ns : list Z) :
  magnitude ns < 10 ^ Dec.prec ->
  sum_decimals (map JInt ns) = Ok (DFinite (exact_sum ns) 0).
Proof.
  intros Hns. unfold sum_decimals, Dec.of_int.
  rewrite sum_integers_from by (change (Z.abs 0) with 0; lia). reflexivity.
Qed.

(** C6, as the code has it.  Aggregation of an empty set of sub-records
    yields an absent metric, never an error and never a zero: a session
    without distance, calories, heart-rate or elevation records (the key
    missing or the list empty) gives no distance, no calories, no
    heart-rate statistics and no elevation gain, heart-rate records
    without samples give no statistics, and the detail built from these
    has every metric absent.  Distance or calories records of the
    expected shape, carrying integers or finite floats that the handler
    adds up to zero in its decimal arithmetic of 28 digits, give no
    total; for integer values whose magnitudes add up to less than
    [10 ^ 28] that sum is the exact one, so values that add up to exactly
    zero give no total. *)
Theorem empty_or_zero_sum_is_absent (items : list (string * json))
  (records values : list json) (ns : list Z) (e : Z) (workout_id : UUID) :
  (no_records "distanceRecords" items ->
   _extract_distance (JDict items) = Ok None) /\
  (no_records "caloriesRecords" items ->
   _extract_calories (JDict items) = Ok None) /\
  (no_records "heartRateRecords" items ->
   _extract_heart_rate (JDict items) = Ok ∅) /\
  (no_records "elevationRecords" items ->
   _extract_elevation (JDict items) = Ok ∅) /\
  (dict_get "heartRateRecords" items = Some (JList records) ->
   Forall (fun r => samples_of r = Ok []) records ->
   _extract_heart_rate (JDict items) = Ok ∅) /\
  EventRecordDetailCreate.create workout_id (_build_metrics ∅ None None ∅)
  = EventRecordDetailCreate.mk workout_id None None None None None None None
      None None /\
  (dict_get "distanceRecords" items = Some (JList records) ->
   Forall2 (fun r v => field_of "distance" "inMeters" r = Ok v) records values ->
   Forall (fun v => finite_number v = true) values ->
   sum_decimals values = Ok (DFinite 0 e) ->
   _extract_distance (JDict items) = Ok None) /\
  (dict_get "caloriesRecords" items = Some (JList records) ->
   Forall2 (fun r v => field_of "energy" "inKilocalories" r = Ok v) records values ->
   Forall (fun v => finite_number v = true) values ->
   sum_decimals values = Ok (DFinite 0 e) ->
   _extract_calories (JDict items) = Ok None) /\
  (dict_get "distanceRecords" items = Some (JList records) ->
   Forall2 (fun r n => field_of "distance" "inMeters" r = Ok (JInt n))
     records ns ->
   magnitude ns < 10 ^ 28 -> exact_sum ns = 0 ->
   _extract_distance (JDict items) = Ok None) /\
  (dict_get "caloriesRecords" items = Some (JList records) ->
   Forall2 (fun r n => field_of "energy" "inKilocalories" r = Ok (JInt n))
     records ns ->
   magnitude ns < 10 ^ 28 -> exact_sum ns = 0 ->
   _extract_calories (JDict items) = Ok None).
Proof.
  split; [|split; [|split; [|split; [|split; [|split; [|split;
    [|split; [|split]]]]]]]].
  - intros Hno. destruct (no_records_falsy _ _ Hno) as (v & Hv & Hf).
    unfold _extract_distance. rewrite Hv. cbn [bind]. rewrite Hf. reflexivity.
  - intros Hno. destruct (no_records_falsy _ _ Hno) as (v & Hv & Hf).
    unfold _extract_calories. rewrite Hv. cbn [bind]. rewrite Hf. reflexivity.
  - intros Hno. destruct (no_records_falsy _ _ Hno) as (v & Hv & Hf).
    unfold _extract_heart_rate. rewrite Hv. cbn [bind]. rewrite Hf. reflexivity.
  - intros Hno. destruct (no_records_falsy _ _ Hno) as (v & Hv & Hf).
    unfold _extract_elevation. rewrite Hv. cbn [bind]. rewrite Hf. reflexivity.
  - intros Hget Hempty. unfold _extract_heart_rate. simpl. rewrite Hget. simpl.
    destruct records as [|r records]; [reflexivity|].
    cbn [truthy negb iterate bind].
    rewrite (records_loop (r :: records) (map (fun _ => []) (r :: records))
               (map (fun _ => []) (r :: records))).
    + simpl. clear. induction records; simpl; [reflexivity|assumption].
    + clear -Hempty. induction Hempty; simpl; constructor; assumption.
    + clear. generalize (r :: records). intros l.
      induction l; simpl; constructor; [constructor|assumption].
    + clear. generalize (r :: records). intros l.
      induction l; simpl; constructor; [constructor|assumption].
  - reflexivity.
  - intros Hget Hrec _ Hsum.
    rewrite (extract_distance_sum items records values Hget Hrec), Hsum.
    reflexivity.
  - intros Hget Hrec _ Hsum.
    rewrite (extract_calories_sum items records values Hget Hrec), Hsum.
    reflexivity.
  - intros Hget Hrec Hsmall Hzero.
    rewrite (extract_distance_sum items records (map JInt ns) Hget)
      by (apply Forall2_fmap_r; exact Hrec).
    rewrite sum_decimals_integers by exact Hsmall.
    rewrite Hzero. reflexivity.
  - intros Hget Hrec Hsmall Hzero.
    rewrite (extract_calories_sum items records (map JInt ns) Hget)
      by (apply Forall2_fmap_r; exact Hrec).
    rewrite sum_decimals_integers by exact Hsmall.
    rewrite Hzero. reflexivity.
Qed.

Lemma empty_or_zero_sum_is_absent_witness :
  _extract_distance (JDict [("exerciseType", JInt 79)]) = Ok None /\
  _extract_heart_rate
    (JDict [("heartRateRecords", JList [JDict [("samples", JList [])]])]) = Ok ∅ /\
  _extract_distance
    (JDict [("distanceRecords",
              JList [JDict [("distance", JDict [("inMeters", JInt 5)])];
                     JDict [("distance", JDict [("inMeters", JInt (-5))])]])])
  = Ok None /\
  _extract_calories
    (JDict [("caloriesRecords",
              JList [JDict [("energy", JDict [("inKilocalories", JInt 0)])]])])
  = Ok None /\
  _extract_calories
    (JDict [("caloriesRecords",
              JList [JDict [("energy", JDict [("inKilocalories", JInt 342)])];
                     JDict [("energy", JDict [("inKilocalories", JInt (-342))])]])])
  = Ok None.
Proof.
  split; [|split; [|split; [|split]]].
  - destruct (empty_or_zero_sum_is_absent [("exerciseType", JInt 79)] [] [] []
                0 0%N) as (Hdistance & _).
    apply Hdistance. left. reflexivity.
  - destruct (empty_or_zero_sum_is_absent
                [("heartRateRecords", JList [JDict [("samples", JList [])]])]
                [JDict [("samples", JList [])]] [] [] 0 0%N)
      as (_ & _ & _ & _ & Hsamples & _).
    apply Hsamples; [reflexivity | repeat constructor].
  - destruct (empty_or_zero_sum_is_absent
                [("distanceRecords",
                   JList [JDict [("distance", JDict [("inMeters", JInt 5)])];
                          JDict [("distance", JDict [("inMeters", JInt (-5))])]])]
                [JDict [("distance", JDict [("inMeters", JInt 5)])];
                 JDict [("distance", JDict [("inMeters", JInt (-5))])]]
                [JInt 5; JInt (-5)] [] 0 0%N)
      as (_ & _ & _ & _ & _ & _ & Hzero & _).
    apply Hzero;
      [reflexivity | repeat constructor | repeat constructor | reflexivity].
  - destruct (empty_or_zero_sum_is_absent
                [("caloriesRecords",
                   JList [JDict [("energy", JDict [("inKilocalories", JInt 0)])]])]
                [JDict [("energy", JDict [("inKilocalories", JInt 0)])]]
                [JInt 0] [] 0 0%N)
      as (_ & _ & _ & _ & _ & _ & _ & Hzero & _).
    apply Hzero;
      [reflexivity | repeat constructor | repeat constructor | reflexivity].
  - destruct (empty_or_zero_sum_is_absent
                [("caloriesRecords",
                   JList [JDict [("energy", JDict [("inKilocalories", JInt 342)])];
                          JDict [("energy", JDict [("inKilocalories", JInt (-342))])]])]
                [JDict [("energy", JDict [("inKilocalories", JInt 342)])];
                 JDict [("energy", JDict [("inKilocalories", JInt (-342))])]]
                [] [342; -342] 0 0%N)
      as (_ & _ & _ & _ & _ & _ & _ & _ & _ & Hexact).
    apply Hexact; [reflexivity | repeat constructor | reflexivity | reflexivity].
Defined.

(** C6 as stated fails.  Aggregation does fail: a distance record whose
    value is [null] raises InvalidOperation, a calories record that is
    not a dict raises AttributeError, and a heart-rate sample whose rate
    is [null] raises TypeError.  And four distances that add up to
    exactly zero give a total of one metre: the sum is kept to 28
    digits, so the first unit is lost where the second is not. *)
Lemma aggregation_raises_and_rounds :
  _extract_distance
    (JDict [("distanceRecords",
              JList [JDict [("distance", JDict [("inMeters", JNull)])]])])
  = Raise InvalidOperation /\
  _extract_calories (JDict [("caloriesRecords", JList [JInt 342])])
  = Raise AttributeError /\
  _extract_heart_rate
    (JDict [("heartRateRecords",
              JList [JDict [("samples",
                              JList [JDict [("beatsPerMinute", JNull)]])]])])
  = Raise TypeError /\
  exact_sum [- 10 ^ 28; -1; 10 ^ 28; 1] = 0 /\
  _extract_distance
    (JDict [("distanceRecords",
              JList [JDict [("distance", JDict [("inMeters", JInt (- 10 ^ 28))])];
                     JDict [("distance", JDict [("inMeters", JInt (-1))])];
                     JDict [("distance", JDict [("inMeters", JInt (10 ^ 28))])];
                     JDict [("distance", JDict [("inMeters", JInt 1)])]])])
  = Ok (Some (DFinite 1 0)).
Proof. repeat split; vm_compute; reflexivity. Qed.

(** *** Heart-rate statistics *)
(** The sum of integer samples is their exact sum, and their mean is the
    quotient of two integers, rounded once. *)
Lemma py_sum_integers (ns : list Z) (start : Z) :
  for_each py_add (map JInt ns) (JInt start)
  = Ok (JInt (fold_left Z.add ns start)).
Proof.
  revert start. induction ns as [|n ns IH]; intros start; simpl.
  - reflexivity.
  - apply IH.
Qed.

Lemma mean_of_integers (ns : list Z) :
  (let! total := py_sum (map JInt ns) in
   py_truediv total (Z.of_nat (length (map JInt ns))))
  = Float64.int_true_divide (fold_left Z.add ns 0) (Z.of_nat (length ns)).
Proof.
  unfold py_sum. rewrite py_sum_integers. simpl. rewrite length_map.
  reflexivity.
Qed.

(** C7. Heart-rate aggregation keeps the samples that are greater than
    zero.  When none remains, the heart-rate data is empty and the detail
    has no minimum, maximum or average.  Otherwise the minimum is a
    remaining sample that no remaining sample is below, the maximum one
    that no remaining sample is above, and the average is the sum of the
    remaining samples divided by their number (as a float); the detail
    carries the three of them as decimals. *)
Theorem heart_rate_statistics (items : list (string * json))
  (records : list json) (sample_lists bpm_lists : list (list json)) :
  dict_get "heartRateRecords" items = Some (JList records) ->
  Forall2 (fun r ss => samples_of r = Ok ss) records sample_lists ->
  Forall2 (Forall2 (fun s b => bpm_of s = Ok b)) sample_lists bpm_lists ->
  Forall (Forall (fun b => is_number b = true)) bpm_lists ->
  let valid := List.filter positive (concat bpm_lists) in
  (valid = [] ->
   _extract_heart_rate (JDict items) = Ok ∅ /\
   forall distance_meters calories elevation_data workout_id,
     let detail :=
       EventRecordDetailCreate.create workout_id
         (_build_metrics ∅ distance_meters calories elevation_data) in
     EventRecordDetailCreate.heart_rate_min detail = None /\
     EventRecordDetailCreate.heart_rate_max detail = None /\
     EventRecordDetailCreate.heart_rate_avg detail = None) /\
  (forall first rest, valid = first :: rest ->
   let lowest := py_min first rest in
   let highest := py_max first rest in
   In lowest valid /\ In highest valid /\
   (forall x, In x valid -> lt x lowest = false /\ lt highest x = false) /\
   _extract_heart_rate (JDict items) =
     (let! total := py_sum valid in
      let! mean := py_truediv total (Z.of_nat (length valid)) in
      Ok (<["avg" := Dec.of_float mean]>
            (<["max" := decimal_of_number highest]>
               (<["min" := decimal_of_number lowest]> ∅)))) /\
   forall total mean,
     py_sum valid = Ok total ->
     py_truediv total (Z.of_nat (length valid)) = Ok mean ->
     exists heart_rate_data,
       _extract_heart_rate (JDict items) = Ok heart_rate_data /\
       forall distance_meters calories elevation_data workout_id,
         let detail :=
           EventRecordDetailCreate.create workout_id
             (_build_metrics heart_rate_data distance_meters calories
                elevation_data) in
         EventRecordDetailCreate.heart_rate_min detail
         = Some (decimal_of_number lowest) /\
         EventRecordDetailCreate.heart_rate_max detail
         = Some (decimal_of_number highest) /\
         EventRecordDetailCreate.heart_rate_avg detail
         = Some (Dec.of_float mean)).
Proof.
  intros Hget Hrec Hbpm Hnum valid.
  assert (Hloop : _extract_heart_rate (JDict items) =
            match valid with
            | [] => Ok ∅
            | first :: rest =>
                let! total := py_sum valid in
                let! mean := py_truediv total (Z.of_nat (length valid)) in
                Ok (<["avg" := Dec.of_float mean]>
                      (<["max" := decimal_of_number (py_max first rest)]>
                         (<["min" := decimal_of_number (py_min first rest)]> ∅)))
            end).
  { unfold _extract_heart_rate. simpl. rewrite Hget. simpl.
    destruct records as [|r records].
    - inversion Hrec; subst. inversion Hbpm; subst. reflexivity.
    - cbn [truthy negb iterate bind].
      rewrite (records_loop _ _ _ Hrec Hbpm Hnum). cbn [bind app].
      fold valid.
      assert (Hvalid : Forall (fun b => is_number b = true) valid)
        by (apply positive_is_number, Forall_concat_number; exact Hnum).
      destruct valid as [|first rest]; [reflexivity|].
      assert (Hlo : is_number (py_min first rest) = true).
      { apply (proj1 (List.Forall_forall _ _) Hvalid), py_min_in. }
      assert (Hhi : is_number (py_max first rest) = true).
      { apply (proj1 (List.Forall_forall _ _) Hvalid), py_max_in. }
      rewrite (Decimal_of_number _ Hlo), (Decimal_of_number _ Hhi).
      cbn [bind]. reflexivity. }
  split.
  - intros Hempty. rewrite Hempty in Hloop. split; [exact Hloop|].
    intros d c e id.
    destruct (detail_fields ∅ d c e id) as (Hmin & Hmax & Havg & _).
    cbv zeta. rewrite Hmin, Hmax, Havg. rewrite !lookup_empty. auto.
  - intros first rest Hcons lowest highest.
    assert (Hcmp : Forall (fun v => comparable v = true) (first :: rest)).
    { rewrite <- Hcons. apply filter_positive_comparable. }
    destruct (py_min_least rest first Hcmp) as [Hlo_in Hlo].
    destruct (py_max_greatest rest first Hcmp) as [Hhi_in Hhi].
    rewrite Hcons in Hloop |- *.
    split; [exact Hlo_in|]. split; [exact Hhi_in|].
    split; [intros x Hx; split; [apply Hlo | apply Hhi]; exact Hx|].
    split; [exact Hloop|].
    intros total mean Hsum Hdiv. rewrite Hloop, Hsum. cbn [bind].
    rewrite Hdiv. cbn [bind]. eexists. split; [reflexivity|].
    intros d c e id.
    match goal with |- context [_build_metrics ?hr _ _ _] =>
      destruct (detail_fields hr d c e id) as (Hmin & Hmax & Havg & _)
    end.
    cbv zeta. rewrite Hmin, Hmax, Havg.
    repeat split; simplify_map_eq; reflexivity.
Qed.

Lemma heart_rate_statistics_witness :
  _extract_heart_rate
    (JDict [("heartRateRecords",
              JList [JDict [("samples",
                              JList [bpm_sample 120; bpm_sample 0;
                                     bpm_sample 150; bpm_sample 135])]])])
  = Ok (<["avg" := DFinite 1350 (-1)]>
          (<["max" := DFinite 150 0]> (<["min" := DFinite 120 0]> ∅))).
Proof.
  destruct (heart_rate_statistics
              [("heartRateRecords",
                 JList [JDict [("samples",
                                 JList [bpm_sample 120; bpm_sample 0;
                                        bpm_sample 150; bpm_sample 135])]])]
              [JDict [("samples",
                        JList [bpm_sample 120; bpm_sample 0;
                               bpm_sample 150; bpm_sample 135])]]
              [[bpm_sample 120; bpm_sample 0; bpm_sample 150; bpm_sample 135]]
              [[JInt 120; JInt 0; JInt 150; JInt 135]])
    as [_ Hsome];
    [reflexivity | repeat constructor | repeat constructor | repeat constructor |].
  destruct (Hsome (JInt 120) [JInt 150; JInt 135] eq_refl)
    as (_ & _ & _ & Hdata & _).
  rewrite Hdata. vm_compute. reflexivity.
Defined.

(** *** Presence of the additive metrics *)

(** C10. In the Health Connect handler an additive metric is present
    exactly when its computed total is greater than zero: for distance
    and calories records carrying integers or finite floats the total is a
    finite decimal, returned when it is positive and dropped when it is
    zero or negative; the elevation gain adds the entries that are
    greater than zero only and is reported when that sum is positive;
    the detail carries what the extractors return. *)
Theorem additive_metric_present_iff_positive (items : list (string * json))
  (records values : list json) :
  Forall (fun v => finite_number v = true) values ->
  (dict_get "distanceRecords" items = Some (JList records) ->
   Forall2 (fun r v => field_of "distance" "inMeters" r = Ok v) records values ->
   exists c e,
     sum_decimals values = Ok (DFinite c e) /\
     _extract_distance (JDict items)
     = Ok (if 0 <? c then Some (DFinite c e) else None)) /\
  (dict_get "caloriesRecords" items = Some (JList records) ->
   Forall2 (fun r v => field_of "energy" "inKilocalories" r = Ok v) records values ->
   exists c e,
     sum_decimals values = Ok (DFinite c e) /\
     _extract_calories (JDict items)
     = Ok (if 0 <? c then Some (DFinite c e) else None)) /\
  (dict_get "elevationRecords" items = Some (JList records) ->
   Forall2 (fun r v => field_of "elevation" "inMeters" r = Ok v) records values ->
   exists c e,
     sum_decimals (List.filter positive values) = Ok (DFinite c e) /\
     _extract_elevation (JDict items)
     = Ok (if 0 <? c then <["gain" := DFinite c e]> ∅ else ∅)) /\
  (forall heart_rate_data distance_meters calories elevation_data workout_id,
     let detail :=
       EventRecordDetailCreate.create workout_id
         (_build_metrics heart_rate_data distance_meters calories
            elevation_data) in
     EventRecordDetailCreate.distance_total detail = distance_meters /\
     EventRecordDetailCreate.calories_total detail = calories /\
     EventRecordDetailCreate.elevation_gain detail = elevation_data !! "gain").
Proof.
  intros Hfin. repeat split.
  - intros Hget Hrec.
    destruct (sum_decimals_finite values Hfin) as (c & e & Hsum).
    exists c, e. split; [exact Hsum|].
    rewrite (extract_distance_sum items records values Hget Hrec), Hsum.
    reflexivity.
  - intros Hget Hrec.
    destruct (sum_decimals_finite values Hfin) as (c & e & Hsum).
    exists c, e. split; [exact Hsum|].
    rewrite (extract_calories_sum items records values Hget Hrec), Hsum.
    reflexivity.
  - intros Hget Hrec.
    assert (Hpos : Forall (fun v => finite_number v = true)
                     (List.filter positive values)).
    { clear -Hfin. induction Hfin as [|v values Hv _ IH]; simpl; [constructor|].
      destruct (positive v); [constructor; assumption | assumption]. }
    destruct (sum_decimals_finite _ Hpos) as (c & e & Hsum).
    exists c, e. split; [exact Hsum|].
    rewrite (extract_elevation_sum items records values Hget Hrec Hfin), Hsum.
    cbn [bind Dec.gt_zero]. destruct (0 <? c); reflexivity.
  - destruct (detail_fields heart_rate_data distance_meters calories
                elevation_data workout_id) as (_ & _ & _ & H & _). exact H.
  - destruct (detail_fields heart_rate_data distance_meters calories
                elevation_data workout_id) as (_ & _ & _ & _ & H & _). exact H.
  - destruct (detail_fields heart_rate_data distance_meters calories
                elevation_data workout_id) as (_ & _ & _ & _ & _ & H). exact H.
Qed.

Lemma additive_metric_present_iff_positive_witness :
  _extract_distance
    (JDict [("distanceRecords",
              JList [JDict [("distance", JDict [("inMeters", JInt 1000)])];
                     JDict [("distance", JDict [("inMeters", JInt (-2500))])]])])
  = Ok None /\
  _extract_elevation
    (JDict [("elevationRecords",
              JList [JDict [("elevation", JDict [("inMeters", JInt 12)])];
                     JDict [("elevation", JDict [("inMeters", JInt (-7))])];
                     JDict [("elevation", JDict [("inMeters", JInt 30)])]])])
  = Ok (<["gain" := DFinite 42 0]> ∅).
Proof.
  split.
  - destruct (additive_metric_present_iff_positive
                [("distanceRecords",
                   JList [JDict [("distance", JDict [("inMeters", JInt 1000)])];
                          JDict [("distance", JDict [("inMeters", JInt (-2500))])]])]
                [JDict [("distance", JDict [("inMeters", JInt 1000)])];
                 JDict [("distance", JDict [("inMeters", JInt (-2500))])]]
                [JInt 1000; JInt (-2500)])
      as (Hdistance & _); [repeat constructor|].
    destruct Hdistance as (c & e & Hsum & Hresult);
      [reflexivity | repeat constructor |].
    rewrite Hresult. vm_compute in Hsum.
    injection Hsum as <- <-. reflexivity.
  - destruct (additive_metric_present_iff_positive
                [("elevationRecords",
                   JList [JDict [("elevation", JDict [("inMeters", JInt 12)])];
                          JDict [("elevation", JDict [("inMeters", JInt (-7))])];
                          JDict [("elevation", JDict [("inMeters", JInt 30)])]])]
                [JDict [("elevation", JDict [("inMeters", JInt 12)])];
                 JDict [("elevation", JDict [("inMeters", JInt (-7))])];
                 JDict [("elevation", JDict [("inMeters", JInt 30)])]]
                [JInt 12; JInt (-7); JInt 30])
      as (_ & _ & Helevation & _); [repeat constructor|].
    destruct Helevation as (c & e & Hsum & Hresult);
      [reflexivity | repeat constructor |].
    rewrite Hresult. vm_compute in Hsum.
    injection Hsum as <- <-. reflexivity.
Defined.

(** *** Diagnostics of a batch *)

Lemma quiet_ret {A : Type} (a : A) : quiet (ret a).
Proof. intros w. reflexivity. Qed.

Lemma quiet_raise {A : Type} (e : exn) : quiet (@raise A e).
Proof. intros w. reflexivity. Qed.

Lemma quiet_lift {A : Type} (r : result A) : quiet (lift r).
Proof. intros w. reflexivity. Qed.

Lemma quiet_now : quiet now.
Proof. intros w. reflexivity. Qed.

Lemma quiet_uuid4 : quiet uuid4.
Proof. intros w. reflexivity. Qed.

Lemma quiet_bind {A B : Type} (c : M A) (k : A -> M B) :
  quiet c -> (forall a, quiet (k a)) -> quiet (bindM c k).
Proof.
  intros Hc Hk w. unfold bindM. specialize (Hc w).
  destruct (c w) as [[a|e] w1]; simpl in *.
  - rewrite (Hk a w1). exact Hc.
  - exact Hc.
Qed.

Lemma quiet_parse_datetime (date_str : json) : quiet (_parse_datetime date_str).
Proof.
  unfold _parse_datetime.
  destruct (negb (truthy date_str)); [apply quiet_now|].
  destruct date_str; try apply quiet_raise.
  match goal with |- quiet (match ?p with _ => _ end) => destruct p end;
    [apply quiet_ret | apply quiet_now].
Qed.

Create HintDb quiet.

#[local] Hint Resolve quiet_ret quiet_raise quiet_lift quiet_now quiet_uuid4
  quiet_parse_datetime : quiet.

Lemma quiet_parse_exercise_session (session : json) :
  quiet (_parse_exercise_session session).
Proof.
  unfold _parse_exercise_session.
  repeat (apply quiet_bind; [auto with quiet | intros ?]).
  auto with quiet.
Qed.

Lemma normalize_step_dict_diagnostics (items : list (string * json))
  (workouts : list record_pair) (w : World) :
  (length (diagnostics (snd (normalize_step workouts (JDict items) w)))
   = length (diagnostics w) + (if parses (JDict items) w then 0 else 1))%nat.
Proof.
  pose proof (quiet_parse_exercise_session (JDict items) w) as Hq.
  unfold normalize_step, parses, try_except, bindM.
  destruct (_parse_exercise_session (JDict items) w) as [[pair|e] w1];
    simpl in *.
  - rewrite Hq. lia.
  - rewrite length_app, Hq. simpl. lia.
Qed.

(** A batch of dict sessions: every session that parses gives one pair,
    every session that fails is skipped with one diagnostic, and
    [normalize] returns. *)
Lemma normalize_loop_dict_sessions (sessions : list json) :
  Forall (fun s => is_dict s = true) sessions ->
  forall (workouts : list record_pair) (w : World),
  exists workouts' w',
    normalize_loop sessions workouts w = (Ok workouts', w') /\
    (length workouts' + failed_sessions sessions w
     = length workouts + length sessions)%nat /\
    (length (diagnostics w')
     = length (diagnostics w) + failed_sessions sessions w)%nat.
Proof.
  induction 1 as [|session sessions Hd _ IH]; intros workouts w; simpl.
  - eexists _, _. split; [reflexivity|]. lia.
  - destruct session as [| | | | | |items]; try discriminate.
    destruct (normalize_step_dict items workouts w)
      as (ws1 & w1 & Hstep & Hw1 & Hlen & _).
    pose proof (normalize_step_dict_diagnostics items workouts w) as Hdiag.
    unfold bindM at 1. rewrite Hstep in *. simpl in Hdiag.
    destruct (IH ws1 w1) as (ws2 & w2 & Hloop & Hlen2 & Hdiag2).
    exists ws2, w2. split; [exact Hloop|].
    rewrite <- Hw1. lia.
Qed.

Lemma normalize_dict_sessions (sessions : list json) (w : World) :
  Forall (fun s => is_dict s = true) sessions ->
  exists workouts w',
    HealthConnectHandler.normalize (JList sessions) w = (Ok workouts, w') /\
    (length workouts + failed_sessions sessions w = length sessions)%nat /\
    (length (diagnostics w')
     = length (diagnostics w) + failed_sessions sessions w)%nat.
Proof.
  intros Hd. destruct (normalize_loop_dict_sessions sessions Hd [] w)
    as (ws & w' & Hloop & Hlen & Hdiag).
  exists ws, w'. split; [exact Hloop|]. split; [exact Hlen | exact Hdiag].
Qed.

(** A session that is not a dict makes [normalize] raise. *)
Lemma normalize_not_dict_session (sessions : list json) (w : World) :
  Exists (fun s => is_dict s = false) sessions ->
  exists w', HealthConnectHandler.normalize (JList sessions) w
             = (Raise AttributeError, w').
Proof. intros Hex. apply (normalize_loop_not_dict sessions Hex). Qed.

(** The sibling loop of the HealthKit handler never raises: a workout
    that fails is printed and skipped. *)
Lemma healthkit_normalize_loop_returns
  (get_unified_workout_type : string -> WorkoutType) (elems : list Element) :
  forall (workouts : list record_pair) (w : World),
  exists workouts' w',
    HealthKitHandler.normalize_loop get_unified_workout_type elems workouts w
    = (Ok workouts', w') /\
    (length workouts <= length workouts' <= length workouts + length elems)%nat.
Proof.
  induction elems as [|elem elems IH]; intros workouts w; simpl.
  - eexists _, _. split; [reflexivity|]. lia.
  - unfold bindM at 1.
    unfold HealthKitHandler.normalize_step at 1. unfold try_except, bindM.
    destruct (HealthKitHandler._parse_workout_element get_unified_workout_type
                elem w) as [[pair|e] w1]; simpl.
    + destruct (IH (workouts ++ [pair]) w1) as (ws & w2 & Hloop & Hlen).
      exists ws, w2. split; [exact Hloop|].
      rewrite length_app in Hlen. simpl in Hlen. lia.
    + match goal with |- context [HealthKitHandler.normalize_loop _ _ _ ?w'] =>
        destruct (IH workouts w') as (ws & w2 & Hloop & Hlen)
      end.
      exists ws, w2. split; [exact Hloop|]. lia.
Qed.


(** C2. A failing session is skipped only if it is a dict: the handler of
    the exception asks the session for its id.  On the batch [[42]] and on
    the batch of the sample session followed by [42], [normalize] raises
    AttributeError instead of returning the pairs of the sessions that
    parse. *)
Theorem normalize_batch_with_number_raises (w : World) :
  HealthConnectHandler.normalize (JList [JInt 42]) w = (Raise AttributeError, w)
  /\ HealthConnectHandler.normalize (JList [sample_session; JInt 42]) w
     = (Raise AttributeError,
        snd (HealthConnectHandler.normalize sample_session w)).
Proof. split; reflexivity. Qed.

(** *** Payload shape, source type and provider name *)

(** C8. A payload that is neither a dict nor a list makes [normalize]
    raise the error of the unsupported shape; [process_payload] lets it
    through, saves nothing and leaves the world as it was. *)
Theorem unsupported_payload_aborts (Database : Type)
  (_save_workout : Database -> EventRecordCreate.t ->
                   EventRecordDetailCreate.t -> result unit * Database)
  (db : Database) (user_id : UUID) (payload : json) (w : World) :
  is_dict payload = false ->
  is_list payload = false ->
  HealthConnectHandler.normalize payload w
  = (Raise (ValueError ("Unsupported data type for Health Connect parsing: "
                        +:+ type_repr payload)), w) /\
  GoogleHealthWorkouts.process_payload Database _save_workout db user_id
    payload "health_connect" w
  = (Raise (ValueError ("Unsupported data type for Health Connect parsing: "
                        +:+ type_repr payload)), db, w).
Proof.
  intros Hdict Hlist.
  destruct payload; try discriminate; split; reflexivity.
Qed.

Lemma unsupported_payload_aborts_witness :
  GoogleHealthWorkouts.process_payload (list record_pair) save_to_list []
    7%N (JStr "not a dict or list") "health_connect" sample_world
  = (Raise (ValueError
              "Unsupported data type for Health Connect parsing: <class 'str'>"),
     [], sample_world).
Proof.
  apply (unsupported_payload_aborts (list record_pair) save_to_list [] 7%N
           (JStr "not a dict or list") sample_world); reflexivity.
Defined.

(** C9. A provider name outside apple, garmin, google_health, suunto and
    polar makes the factory raise an error that names it; a source type
    without a registered handler makes [process_payload] raise an error
    that names it, before anything is normalized or saved. *)
Theorem unknown_names_are_rejected (Database : Type)
  (_save_workout : Database -> EventRecordCreate.t ->
                   EventRecordDetailCreate.t -> result unit * Database)
  (db : Database) (user_id : UUID) (payload : json) (w : World)
  (provider_name source_type : string) :
  (provider_name ∉ ["apple"; "garmin"; "google_health"; "suunto"; "polar"] ->
   ProviderFactory.get_provider provider_name
   = Raise (ValueError ("Unknown provider: " +:+ provider_name))) /\
  (GoogleHealthWorkouts.handlers !! source_type = None ->
   GoogleHealthWorkouts.process_payload Database _save_workout db user_id
     payload source_type w
   = (Raise (ValueError ("Unknown Google Health Connect source: "
                         +:+ source_type)), db, w)).
Proof.
  split.
  - intros Hout. unfold ProviderFactory.get_provider.
    repeat match goal with
    | |- context [String.eqb provider_name ?s] =>
        destruct (String.eqb_spec provider_name s) as [->|_];
          [exfalso; apply Hout; set_solver|]
    end.
    reflexivity.
  - intros Hnone. unfold GoogleHealthWorkouts.process_payload.
    match goal with
    | |- match ?h with _ => _ end = _ =>
        replace h with (@None (json -> M (list record_pair)))
          by (symmetry; exact Hnone)
    end.
    reflexivity.
Qed.

Lemma unknown_names_are_rejected_witness :
  ProviderFactory.get_provider "fitbit"
  = Raise (ValueError "Unknown provider: fitbit") /\
  GoogleHealthWorkouts.process_payload (list record_pair) save_to_list []
    7%N sample_session "invalid_source" sample_world
  = (Raise (ValueError "Unknown Google Health Connect source: invalid_source"),
     [], sample_world).
Proof.
  destruct (unknown_names_are_rejected (list record_pair) save_to_list []
              7%N sample_session sample_world "fitbit" "invalid_source")
    as [Hprovider Hsource].
  split.
  - apply Hprovider. apply (bool_decide_unpack _). vm_compute. exact I.
  - apply Hsource. vm_compute. reflexivity.
Defined.

(** *** Unit conversions of the HealthKit handler *)

(** C4, as the code has it.  An absent raw value (no attribute, or an
    empty one) gives the duration zero, no distance and no energy, and
    nothing is raised; a raw duration that is no number gives zero too.
    A duration whose unit is neither hours nor seconds is taken as
    minutes, a distance whose unit is not kilometres, miles or yards as
    metres, an energy whose unit is not kilojoules as kilocalories. *)
Theorem conversions_of_absent_values_and_unknown_units
  (value : option string) (unit : string) (distance_unit : option string) :
  (HealthKitHandler.missing value = true ->
   HealthKitHandler._parse_duration value unit = Ok 0 /\
   HealthKitHandler._parse_distance value distance_unit = Ok None /\
   HealthKitHandler._parse_energy value unit = Ok None) /\
  (forall v, value = Some v -> float_of_string v = None ->
   HealthKitHandler._parse_duration value unit = Ok 0) /\
  (unit ∉ ["hr"; "s"] ->
   HealthKitHandler._parse_duration value unit
   = HealthKitHandler._parse_duration value "min") /\
  (distance_unit ∉ [Some "km"; Some "mi"; Some "yd"] ->
   HealthKitHandler._parse_distance value distance_unit
   = HealthKitHandler._parse_distance value (Some "m")) /\
  (unit <> "kJ" ->
   HealthKitHandler._parse_energy value unit
   = HealthKitHandler._parse_energy value "kcal").
Proof.
  split; [|split; [|split; [|split]]].
  - intros Hmissing. destruct value as [v|]; simpl in *;
      [rewrite Hmissing|]; repeat split.
  - intros v -> Hgarbled. simpl. rewrite Hgarbled.
    destruct (String.eqb v ""); reflexivity.
  - intros Hout. destruct value as [v|]; simpl; [|reflexivity].
    destruct (String.eqb v ""); [reflexivity|].
    destruct (float_of_string v) as [duration|]; [|reflexivity].
    destruct (String.eqb_spec unit "min") as [->|_]; [reflexivity|].
    destruct (String.eqb_spec unit "hr") as [->|_];
      [exfalso; apply Hout; set_solver|].
    destruct (String.eqb_spec unit "s") as [->|_];
      [exfalso; apply Hout; set_solver|].
    reflexivity.
  - intros Hout. destruct value as [v|]; simpl; [|reflexivity].
    destruct (String.eqb v ""); [reflexivity|].
    destruct (Dec.of_string v) as [distance|]; [|reflexivity].
    destruct distance_unit as [u|]; simpl; [|reflexivity].
    destruct (String.eqb u ""); [reflexivity|].
    destruct (String.eqb_spec u "km") as [->|_];
      [exfalso; apply Hout; set_solver|].
    destruct (String.eqb_spec u "mi") as [->|_];
      [exfalso; apply Hout; set_solver|].
    destruct (String.eqb_spec u "m") as [->|_]; [reflexivity|].
    destruct (String.eqb_spec u "yd") as [->|_];
      [exfalso; apply Hout; set_solver|].
    reflexivity.
  - intros Hout. destruct value as [v|]; simpl; [|reflexivity].
    destruct (String.eqb v ""); [reflexivity|].
    destruct (Dec.of_string v) as [energy|]; [|reflexivity].
    destruct (String.eqb unit "Cal" || String.eqb unit "kcal"); [reflexivity|].
    destruct (String.eqb_spec unit "kJ") as [->|_]; [contradiction|].
    reflexivity.
Qed.

Lemma conversions_of_absent_values_and_unknown_units_witness :
  HealthKitHandler._parse_distance None (Some "km") = Ok None /\
  HealthKitHandler._parse_duration (Some "abc") "min" = Ok 0 /\
  HealthKitHandler._parse_duration (Some "2") "fortnight" = Ok 120 /\
  HealthKitHandler._parse_distance (Some "12") (Some "furlong")
  = Ok (Some (DFinite 12 0)) /\
  HealthKitHandler._parse_energy (Some "342") "BTU" = Ok (Some (DFinite 342 0)).
Proof.
  split; [|split; [|split; [|split]]].
  - destruct (conversions_of_absent_values_and_unknown_units None "min"
                (Some "km")) as (Habsent & _).
    apply Habsent. reflexivity.
  - destruct (conversions_of_absent_values_and_unknown_units (Some "abc")
                "min" None) as (_ & Hgarbled & _).
    apply (Hgarbled "abc"); reflexivity.
  - destruct (conversions_of_absent_values_and_unknown_units (Some "2")
                "fortnight" None) as (_ & _ & Hminutes & _).
    rewrite Hminutes; [reflexivity|].
    apply (bool_decide_unpack _). vm_compute. exact I.
  - destruct (conversions_of_absent_values_and_unknown_units (Some "12")
                "min" (Some "furlong")) as (_ & _ & _ & Hmetres & _).
    rewrite Hmetres; [reflexivity|].
    apply (bool_decide_unpack _). vm_compute. exact I.
  - destruct (conversions_of_absent_values_and_unknown_units (Some "342")
                "BTU" None) as (_ & _ & _ & _ & Hkcal).
    rewrite Hkcal; [reflexivity|]. discriminate.
Defined.

(** C4 as stated fails: for an absent or a garbled raw duration the
    conversion returns the number zero, where the distance conversion
    returns no value. *)
Lemma duration_of_absent_value_is_zero :
  HealthKitHandler._parse_duration None "min" = Ok 0 /\
  HealthKitHandler._parse_duration (Some "abc") "min" = Ok 0 /\
  HealthKitHandler._parse_distance None (Some "km") = Ok None.
Proof. repeat split. Qed.

(** A raw distance or energy that is no number is not caught: the
    handler expects ValueError or TypeError, and [Decimal] raises
    InvalidOperation. *)
Lemma garbled_decimal_raises :
  HealthKitHandler._parse_distance (Some "abc") (Some "km") = Raise InvalidOperation /\
  HealthKitHandler._parse_energy (Some "abc") "kcal" = Raise InvalidOperation.
Proof. split; reflexivity. Qed.

(** *** Timestamps that cannot be read *)

(** C5, as the code has it.  The Health Connect handler reads an empty
    timestamp string, and one that [fromisoformat] refuses, as the
    current wall-clock time, and raises nothing.  The HealthKit handler
    reads an empty timestamp string as the current wall-clock time; a
    non-empty string that matches none of its three formats raises
    ValueError, and the workout is skipped with a diagnostic. *)
Theorem unreadable_timestamps (s : string) (w : World)
  (get_unified_workout_type : string -> WorkoutType)
  (workout_elem : Element) (workouts : list record_pair) :
  (unreadable s ->
   HealthConnectHandler._parse_datetime (JStr s) w = now w) /\
  HealthKitHandler._parse_datetime "" w = now w /\
  (s <> "" -> matches_no_format s ->
   HealthKitHandler._parse_datetime s w
   = (Raise (ValueError "Invalid isoformat string"), w) /\
   (elem_get workout_elem "startDate" = Some s ->
    HealthKitHandler.normalize_step get_unified_workout_type workouts
      workout_elem w
    = (Ok workouts,
       mk_World (wall_clock w) (clock_reads w) (uuid_source w) (uuid_draws w)
         (diagnostics w ++ [Printed (ValueError "Invalid isoformat string")])))).
Proof.
  split; [|split].
  - intros [->|Hrefused]; [reflexivity|].
    unfold HealthConnectHandler._parse_datetime. simpl.
    destruct (String.eqb s ""); simpl; [reflexivity|].
    rewrite Hrefused. reflexivity.
  - reflexivity.
  - intros Hne (Hzone & Hplain & Hiso).
    assert (Hparse : HealthKitHandler._parse_datetime s w
                     = (Raise (ValueError "Invalid isoformat string"), w)).
    { unfold HealthKitHandler._parse_datetime.
      destruct (String.eqb_spec s "") as [->|_]; [contradiction|].
      rewrite Hzone, Hplain, Hiso. reflexivity. }
    split; [exact Hparse|].
    intros Hstart.
    unfold HealthKitHandler.normalize_step, try_except, bindM,
      HealthKitHandler._parse_workout_element, elem_get_default.
    rewrite Hstart. simpl. unfold bindM. rewrite Hparse. reflexivity.
Qed.

Lemma unreadable_timestamps_witness :
  HealthConnectHandler._parse_datetime (JStr "yesterday") sample_world
  = now sample_world /\
  HealthKitHandler._parse_datetime "not a date" sample_world
  = (Raise (ValueError "Invalid isoformat string"), sample_world).
Proof.
  destruct (unreadable_timestamps "yesterday" sample_world
              every_activity_is_other garbled_export []) as (Hconnect & _).
  destruct (unreadable_timestamps "not a date" sample_world
              every_activity_is_other garbled_export []) as (_ & _ & Hkit).
  split.
  - apply Hconnect. right. reflexivity.
  - apply Hkit; [discriminate | repeat split].
Defined.

(** C5 as stated fails: a workout of a HealthKit export whose start date
    is no date yields no record pair; the clock is not read for it. *)
Lemma healthkit_garbled_start_skips_workout :
  HealthKitHandler.normalize no_xml_parser every_activity_is_other
    (HealthKitHandler.Parsed garbled_export) sample_world
  = (Ok [],
     mk_World (wall_clock sample_world) 0 (uuid_source sample_world) 0
       [Printed (ValueError "Invalid isoformat string")]).
Proof. reflexivity. Qed.

(** In the Health Connect handler the substituted time is naive: next to
    a timestamp that carries an offset the subtraction raises TypeError
    and the session is skipped. *)
Lemma health_connect_empty_start_skips_session :
  HealthConnectHandler.normalize
    (JDict [("startTime", JStr ""); ("endTime", JStr "2024-01-15T09:15:00Z")])
    sample_world
  = (Ok [],
     mk_World (wall_clock sample_world) 1 (uuid_source sample_world) 0
       [LogError (JStr "unknown") TypeError]).
Proof. reflexivity. Qed.

(** The table names the identifier 79 twice; the comprehension keeps the
    later entry. *)
Lemma identifier_79_is_listed_twice :
  In (79, "EXERCISE_TYPE_RUNNING", RUNNING) GOOGLE_HEALTH_WORKOUT_TYPE_MAPPINGS /\
  In (79, "EXERCISE_TYPE_SOCCER", SOCCER) GOOGLE_HEALTH_WORKOUT_TYPE_MAPPINGS /\
  get_unified_workout_type_by_id 79 = SOCCER /\
  get_unified_workout_type_by_name "EXERCISE_TYPE_RUNNING" = RUNNING.
Proof.
  split; [|split; [|split]].
  - left. reflexivity.
  - unfold GOOGLE_HEALTH_WORKOUT_TYPE_MAPPINGS.
    repeat (first [left; reflexivity | right]).
  - vm_compute. reflexivity.
  - vm_compute. reflexivity.
Qed.

(** Two substituted timestamps are both naive: the session survives, with
    the two readings of the clock as its start and its end. *)
Example health_connect_unreadable_timestamps_survive :
  exists record detail w',
    HealthConnectHandler.normalize
      (JDict [("startTime", JStr ""); ("endTime", JStr "yesterday")])
      sample_world
    = (Ok [(record, detail)], w') /\
    EventRecordCreate.start_datetime record = mk_datetime 2025 1 1 0 0 0 0 None /\
    EventRecordCreate.end_datetime record = mk_datetime 2025 1 1 0 0 0 0 None /\
    EventRecordCreate.duration_seconds record = 0 /\
    clock_reads w' = 2%nat.
Proof.
  eexists _, _, _. split; [vm_compute; reflexivity|].
  repeat split.
Qed.

(** ** Further properties *)

(** *** The three dictionaries of the taxonomy *)

Lemma foldl_insert_last_binding `{Countable K} {V : Type}
  (items : list (K * V)) (d : gmap K V) (k : K) :
  foldl (fun d kv => <[fst kv := snd kv]> d) d items !! k
  = match last_binding k items with
    | Some v => Some v
    | None => d !! k
    end.
Proof.
  revert d. induction items as [|[k' v] items IH]; intros d; simpl.
  - reflexivity.
  - rewrite IH. destruct (last_binding k items); [reflexivity|].
    destruct (decide (k' = k)) as [->|Hne].
    + apply lookup_insert_eq.
    + apply lookup_insert_ne. exact Hne.
Qed.

Lemma dict_comprehension_last_binding `{Countable K} {V : Type}
  (items : list (K * V)) (k : K) :
  dict_comprehension items !! k = last_binding k items.
Proof.
  unfold dict_comprehension. rewrite foldl_insert_last_binding.
  destruct (last_binding k items); [reflexivity | apply lookup_empty].
Qed.

Lemma last_binding_not_in `{EqDecision K} {V : Type} (k : K)
  (items : list (K * V)) :
  k ∉ map fst items -> last_binding k items = None.
Proof.
  induction items as [|[k' v] items IH]; simpl; intros Hout; [reflexivity|].
  rewrite IH; [|set_solver].
  destruct (decide (k' = k)) as [->|_]; [|reflexivity].
  exfalso. apply Hout. set_solver.
Qed.

Lemma last_binding_split `{EqDecision K} {V : Type} (k : K) (v : V)
  (before after : list (K * V)) :
  k ∉ map fst after -> last_binding k (before ++ (k, v) :: after) = Some v.
Proof.
  intros Hout. induction before as [|[k' v'] before IH]; simpl.
  - rewrite (last_binding_not_in k after Hout).
    destruct (decide (k = k)); [reflexivity | contradiction].
  - rewrite IH. reflexivity.
Qed.

(** X1. In each of the three dictionaries built from the table, a row
    decides the lookup of its key exactly when no later row has the same
    key: the later row wins. *)
Theorem later_row_wins (before after : list (Z * string * WorkoutType))
  (exercise_id : Z) (name : string) (unified_type : WorkoutType) :
  GOOGLE_HEALTH_WORKOUT_TYPE_MAPPINGS
  = before ++ (exercise_id, name, unified_type) :: after ->
  (exercise_id ∉ map (fun row => fst (fst row)) after ->
   get_unified_workout_type_by_id exercise_id = unified_type /\
   get_exercise_name exercise_id = name) /\
  (name ∉ map (fun row => snd (fst row)) after ->
   get_unified_workout_type_by_name name = unified_type).
Proof.
  intros Htable. split.
  - intros Hout.
    unfold get_unified_workout_type_by_id, get_exercise_name,
      GOOGLE_HEALTH_ID_TO_UNIFIED, GOOGLE_HEALTH_ID_TO_NAME.
    rewrite !dict_comprehension_last_binding, Htable, !map_app. simpl.
    rewrite !last_binding_split; [split; reflexivity | |].
    + rewrite map_map. erewrite map_ext; [exact Hout|].
      intros [[i n] t]. reflexivity.
    + rewrite map_map. erewrite map_ext; [exact Hout|].
      intros [[i n] t]. reflexivity.
  - intros Hout.
    unfold get_unified_workout_type_by_name, GOOGLE_HEALTH_NAME_TO_UNIFIED.
    rewrite dict_comprehension_last_binding, Htable, map_app. simpl.
    rewrite last_binding_split; [reflexivity|].
    rewrite map_map. erewrite map_ext; [exact Hout|].
    intros [[i n] t]. reflexivity.
Qed.

Lemma later_row_wins_witness :
  get_unified_workout_type_by_id 79 = SOCCER /\
  get_exercise_name 79 = "EXERCISE_TYPE_SOCCER" /\
  get_unified_workout_type_by_name "EXERCISE_TYPE_RUNNING" = RUNNING.
Proof.
  destruct (later_row_wins (firstn 56 GOOGLE_HEALTH_WORKOUT_TYPE_MAPPINGS)
              (skipn 57 GOOGLE_HEALTH_WORKOUT_TYPE_MAPPINGS)
              79 "EXERCISE_TYPE_SOCCER" SOCCER eq_refl) as [Hid _].
  destruct (later_row_wins [] (skipn 1 GOOGLE_HEALTH_WORKOUT_TYPE_MAPPINGS)
              79 "EXERCISE_TYPE_RUNNING" RUNNING eq_refl) as [_ Hname].
  split; [|split].
  - apply Hid. apply (bool_decide_unpack _). vm_compute. exact I.
  - apply Hid. apply (bool_decide_unpack _). vm_compute. exact I.
  - apply Hname. apply (bool_decide_unpack _). vm_compute. exact I.
Defined.

(** X2. The lookup by name returns the type of every row of the table,
    although one name is listed twice.  The lookup by identifier does
    not: nine identifiers are listed more than once, each with a row
    whose type the lookup does not return; every other row is returned
    as listed. *)
Theorem rows_and_lookups :
  Forall (fun row => get_unified_workout_type_by_name (snd (fst row)) = snd row)
    GOOGLE_HEALTH_WORKOUT_TYPE_MAPPINGS /\
  Forall (fun row =>
            get_unified_workout_type_by_id (fst (fst row)) = snd row \/
            fst (fst row) ∈ [79; 80; 84; 85; 86; 88; 91; 92; 93])
    GOOGLE_HEALTH_WORKOUT_TYPE_MAPPINGS /\
  Forall (fun exercise_id =>
            exists name unified_type,
              In (exercise_id, name, unified_type)
                GOOGLE_HEALTH_WORKOUT_TYPE_MAPPINGS /\
              get_unified_workout_type_by_id exercise_id <> unified_type)
    [79; 80; 84; 85; 86; 88; 91; 92; 93].
Proof.
  split; [|split].
  - unfold GOOGLE_HEALTH_WORKOUT_TYPE_MAPPINGS.
    repeat (apply List.Forall_cons; [vm_compute; reflexivity|]).
    apply List.Forall_nil.
  - unfold GOOGLE_HEALTH_WORKOUT_TYPE_MAPPINGS.
    repeat (apply List.Forall_cons;
            [first [left; vm_compute; reflexivity
                   | right; apply (bool_decide_unpack _); vm_compute; exact I]|]).
    apply List.Forall_nil.
  - repeat (apply List.Forall_cons;
            [eexists _, _; split;
             [unfold GOOGLE_HEALTH_WORKOUT_TYPE_MAPPINGS;
              repeat (first [left; reflexivity | right])
             | vm_compute; discriminate]|]).
    apply List.Forall_nil.
Qed.

Lemma table_ids_property (P : Z -> Prop) :
  Forall P table_ids -> forall exercise_id, exercise_id ∈ table_ids -> P exercise_id.
Proof. intros HP i Hi. exact (proj1 (Forall_forall P table_ids) HP i Hi). Qed.

(** X3. The three lookups agree: the type found under the name of an
    identifier is the type found under the identifier, for every
    identifier, listed or not; and the name is "Unknown" exactly for the
    identifiers the table does not list. *)
Theorem name_of_identifier_has_its_type (exercise_type_id : Z) :
  get_unified_workout_type_by_name (get_exercise_name exercise_type_id)
  = get_unified_workout_type_by_id exercise_type_id /\
  (get_exercise_name exercise_type_id = "Unknown" <->
   exercise_type_id ∉ table_ids).
Proof.
  destruct (decide (exercise_type_id ∈ table_ids)) as [Hin|Hout].
  - revert exercise_type_id Hin. apply table_ids_property.
    unfold table_ids, GOOGLE_HEALTH_WORKOUT_TYPE_MAPPINGS. simpl.
    repeat (apply List.Forall_cons;
            [split; [vm_compute; reflexivity|];
             split; [vm_compute; discriminate|];
             intros Hout; exfalso; apply Hout;
             apply (bool_decide_unpack _); vm_compute; exact I|]).
    apply List.Forall_nil.
  - assert (Hname : get_exercise_name exercise_type_id = "Unknown").
    { unfold get_exercise_name, GOOGLE_HEALTH_ID_TO_NAME.
      rewrite dict_comprehension_lookup_None; [reflexivity|].
      rewrite map_map. unfold table_ids in Hout.
      erewrite map_ext; [exact Hout|]. intros [[i n] t]. reflexivity. }
    split.
    + rewrite Hname.
      unfold get_unified_workout_type_by_id, GOOGLE_HEALTH_ID_TO_UNIFIED.
      rewrite (dict_comprehension_lookup_None _ exercise_type_id);
        [vm_compute; reflexivity|].
      rewrite map_map. unfold table_ids in Hout.
      erewrite map_ext; [exact Hout|]. intros [[i n] t]. reflexivity.
    + split; [intros _; exact Hout | intros _; exact Hname].
Qed.

(** *** What the Health Connect handler returns *)

Lemma bindM_Ok {A B : Type} (c : M A) (k : A -> M B) (w w' : World) (b : B) :
  bindM c k w = (Ok b, w') ->
  exists a w1, c w = (Ok a, w1) /\ k a w1 = (Ok b, w').
Proof.
  unfold bindM. destruct (c w) as [[a|e] w1]; intros Hk.
  - exists a, w1. split; [reflexivity | exact Hk].
  - discriminate.
Qed.

Lemma lift_Ok {A : Type} (r : result A) (w w' : World) (a : A) :
  lift r w = (Ok a, w') -> r = Ok a /\ w' = w.
Proof. unfold lift. intros [= -> ->]. split; reflexivity. Qed.

Lemma steady_ret {A : Type} (a : A) : steady (ret a).
Proof. intros w. simpl. repeat split; lia. Qed.

Lemma steady_raise {A : Type} (e : exn) : steady (@raise A e).
Proof. intros w. simpl. repeat split; lia. Qed.

Lemma steady_lift {A : Type} (r : result A) : steady (lift r).
Proof. intros w. simpl. repeat split; lia. Qed.

Lemma steady_now : steady now.
Proof. intros w. simpl. repeat split; lia. Qed.

Lemma steady_uuid4 : steady uuid4.
Proof. intros w. simpl. repeat split; lia. Qed.

Lemma steady_emit (d : diagnostic) : steady (emit d).
Proof. intros w. simpl. repeat split; lia. Qed.

Lemma steady_bind {A B : Type} (c : M A) (k : A -> M B) :
  steady c -> (forall a, steady (k a)) -> steady (bindM c k).
Proof.
  intros Hc Hk w. unfold bindM. specialize (Hc w).
  destruct (c w) as [[a|e] w1]; simpl in *.
  - destruct (Hk a w1) as (H1 & H2 & H3 & H4).
    destruct Hc as (G1 & G2 & G3 & G4).
    repeat split; [congruence | congruence | lia | lia].
  - exact Hc.
Qed.

Lemma steady_try_except {A : Type} (body : M A) (handler : exn -> M A) :
  steady body -> (forall e, steady (handler e)) -> steady (try_except body handler).
Proof.
  intros Hb Hh w. unfold try_except. specialize (Hb w).
  destruct (body w) as [[a|e] w1]; simpl in *.
  - exact Hb.
  - destruct (Hh e w1) as (H1 & H2 & H3 & H4).
    destruct Hb as (G1 & G2 & G3 & G4).
    repeat split; [congruence | congruence | lia | lia].
Qed.

Lemma steady_parse_datetime (date_str : json) : steady (_parse_datetime date_str).
Proof.
  unfold _parse_datetime.
  destruct (negb (truthy date_str)); [apply steady_now|].
  destruct date_str; try apply steady_raise.
  match goal with |- steady (match ?p with _ => _ end) => destruct p end;
    [apply steady_ret | apply steady_now].
Qed.

Create HintDb steady.

#[local] Hint Resolve steady_ret steady_raise steady_lift steady_now
  steady_uuid4 steady_emit steady_parse_datetime : steady.

Lemma steady_parse_exercise_session (session : json) :
  steady (_parse_exercise_session session).
Proof.
  unfold _parse_exercise_session.
  repeat (apply steady_bind; [auto with steady | intros ?]).
  auto with steady.
Qed.

Lemma steady_normalize_step (workouts : list record_pair) (session : json) :
  steady (normalize_step workouts session).
Proof.
  unfold normalize_step. apply steady_try_except.
  - apply steady_bind; [apply steady_parse_exercise_session|].
    intros ?. apply steady_ret.
  - intros e. repeat (apply steady_bind; [auto with steady | intros ?]).
    auto with steady.
Qed.

Lemma parse_datetime_draws (date_str : json) (w : World) :
  uuid_draws (snd (_parse_datetime date_str w)) = uuid_draws w.
Proof.
  unfold _parse_datetime.
  destruct (negb (truthy date_str)); [reflexivity|].
  destruct date_str; try reflexivity.
  match goal with |- context [match ?p with _ => _ end] => destruct p end;
    reflexivity.
Qed.

Lemma build_metrics_other_keys (heart_rate_data : gmap string Decimal)
  (distance_meters calories : option Decimal)
  (elevation_data : gmap string Decimal) (key : string) :
  key ∉ ["heart_rate_avg"; "heart_rate_max"; "heart_rate_min";
         "distance_total"; "calories_total"; "elevation_gain"] ->
  _build_metrics heart_rate_data distance_meters calories elevation_data !! key
  = None.
Proof.
  intros Hout. unfold _build_metrics.
  assert (key <> "heart_rate_avg" /\ key <> "heart_rate_max" /\
          key <> "heart_rate_min" /\ key <> "distance_total" /\
          key <> "calories_total" /\ key <> "elevation_gain")
    as (H1 & H2 & H3 & H4 & H5 & H6)
    by (repeat split; intros ->; apply Hout; set_solver).
  destruct (heart_rate_data !! "avg"), (heart_rate_data !! "max"),
    (heart_rate_data !! "min"), distance_meters, calories,
    (elevation_data !! "gain");
    repeat (rewrite lookup_insert_ne by congruence); apply lookup_empty.
Qed.

(** A session that parses draws one identifier, which the record and
    the detail share. *)
Lemma parse_exercise_session_pair (session : json) (w w' : World)
  (p : record_pair) :
  _parse_exercise_session session w = (Ok p, w') ->
  fresh_pair p /\ no_healthkit_metric p /\
  pair_id p = uuid_source w (uuid_draws w) /\
  uuid_draws w' = S (uuid_draws w).
Proof.
  unfold _parse_exercise_session. intros H.
  repeat match type of H with
  | bindM (lift _) _ _ = _ =>
      let Hl := fresh "Hl" in
      apply bindM_Ok in H; destruct H as (? & ? & Hl & H);
      apply lift_Ok in Hl; destruct Hl as [Hl ->]
  end.
  apply bindM_Ok in H. destruct H as (start_time & w1 & Hstart & H).
  repeat match type of H with
  | bindM (lift _) _ _ = _ =>
      let Hl := fresh "Hl" in
      apply bindM_Ok in H; destruct H as (? & ? & Hl & H);
      apply lift_Ok in Hl; destruct Hl as [Hl ->]
  end.
  apply bindM_Ok in H. destruct H as (end_time & w2 & Hend & H).
  repeat match type of H with
  | bindM (lift _) _ _ = _ =>
      let Hl := fresh "Hl" in
      apply bindM_Ok in H; destruct H as (? & ? & Hl & H);
      apply lift_Ok in Hl; destruct Hl as [Hl ->]
  end.
  cbv zeta in H.
  apply bindM_Ok in H. destruct H as (workout_id & w3 & Hid & H).
  repeat match type of H with
  | bindM (lift _) _ _ = _ =>
      let Hl := fresh "Hl" in
      apply bindM_Ok in H; destruct H as (? & ? & Hl & H);
      apply lift_Ok in Hl; destruct Hl as [Hl ->]
  end.
  unfold ret in H. injection H as <- <-.
  unfold uuid4 in Hid. injection Hid as <- <-.
  pose proof (parse_datetime_draws x0 w) as D1. rewrite Hstart in D1.
  pose proof (parse_datetime_draws x1 w1) as D2. rewrite Hend in D2.
  pose proof (steady_parse_datetime x0 w) as (_ & S1 & _). rewrite Hstart in S1.
  pose proof (steady_parse_datetime x1 w1) as (_ & S2 & _). rewrite Hend in S2.
  simpl in *.
  split; [repeat split|]. split.
  - unfold no_healthkit_metric. simpl.
    rewrite !build_metrics_other_keys;
      [repeat split | | |]; apply (bool_decide_unpack _); vm_compute; exact I.
  - unfold pair_id. simpl. split; congruence.
Qed.

Lemma normalize_step_outcome (workouts workouts' : list record_pair)
  (session : json) (w w' : World) :
  normalize_step workouts session w = (Ok workouts', w') ->
  uuid_source w' = uuid_source w /\
  ((exists p, workouts' = workouts ++ [p] /\
              fresh_pair p /\ no_healthkit_metric p /\
              pair_id p = uuid_source w (uuid_draws w) /\
              uuid_draws w' = S (uuid_draws w)) \/
   (workouts' = workouts /\ (uuid_draws w <= uuid_draws w')%nat)).
Proof.
  intros Hstep.
  pose proof (steady_normalize_step workouts session w) as (_ & Hsrc & Hdraws & _).
  rewrite Hstep in Hsrc, Hdraws. simpl in Hsrc, Hdraws.
  split; [exact Hsrc|].
  unfold normalize_step, try_except, bindM in Hstep.
  destruct (_parse_exercise_session session w) as [[p|e] w1] eqn:Hparse.
  - left. exists p. unfold ret in Hstep. injection Hstep as <- <-.
    destruct (parse_exercise_session_pair _ _ _ _ Hparse) as (H1 & H2 & H3 & H4).
    split; [reflexivity|]. split; [exact H1|]. split; [exact H2|].
    split; [exact H3 | exact H4].
  - right. split; [|exact Hdraws].
    unfold lift in Hstep.
    destruct (get session "id" (JStr "unknown")); [|discriminate].
    simpl in Hstep. injection Hstep as <- _. reflexivity.
Qed.

Lemma normalize_loop_pairs (sessions : list json) :
  forall (workouts workouts' : list record_pair) (w w' : World) (indices : list nat),
  normalize_loop sessions workouts w = (Ok workouts', w') ->
  Forall (fun p => fresh_pair p /\ no_healthkit_metric p) workouts ->
  map pair_id workouts = map (uuid_source w) indices ->
  Forall (fun i => (i < uuid_draws w)%nat) indices ->
  NoDup indices ->
  Forall (fun p => fresh_pair p /\ no_healthkit_metric p) workouts' /\
  exists indices',
    map pair_id workouts' = map (uuid_source w) indices' /\
    NoDup indices'.
Proof.
  induction sessions as [|session sessions IH];
    intros workouts workouts' w w' indices Hloop Hgood Hids Hbelow Hnodup.
  - simpl in Hloop. unfold ret in Hloop. injection Hloop as <- <-.
    split; [exact Hgood|]. exists indices. split; assumption.
  - simpl in Hloop. apply bindM_Ok in Hloop.
    destruct Hloop as (ws1 & w1 & Hstep & Hloop).
    destruct (normalize_step_outcome _ _ _ _ _ Hstep)
      as (Hsrc & [(p & -> & Hfresh & Hnone & Hid & Hdraws) | (-> & Hdraws)]).
    + destruct (IH _ _ _ _ (indices ++ [uuid_draws w]) Hloop)
        as (Hgood' & indices' & Hids' & Hnodup').
      * apply Forall_app. split; [exact Hgood|].
        constructor; [split; assumption | constructor].
      * rewrite !map_app, Hids, Hsrc. simpl. rewrite Hid. reflexivity.
      * apply Forall_app. split.
        -- eapply Forall_impl; [exact Hbelow|]. simpl. intros i Hi. lia.
        -- constructor; [lia | constructor].
      * apply NoDup_app. split; [exact Hnodup|]. split.
        -- intros i Hi Hin. apply list_elem_of_singleton in Hin. subst i.
           pose proof (proj1 (Forall_forall _ _) Hbelow _ Hi) as Hlt.
           simpl in Hlt. lia.
        -- apply NoDup_singleton.
      * split; [exact Hgood'|]. exists indices'.
        rewrite <- Hsrc. split; assumption.
    + destruct (IH _ _ _ _ indices Hloop) as (Hgood' & indices' & Hids' & Hnodup').
      * exact Hgood.
      * rewrite Hids, Hsrc. reflexivity.
      * eapply Forall_impl; [exact Hbelow|]. simpl. intros i Hi. lia.
      * exact Hnodup.
      * split; [exact Hgood'|]. exists indices'.
        rewrite <- Hsrc. split; assumption.
Qed.

Lemma normalize_pairs (data : json) (w w' : World) (pairs : list record_pair) :
  normalize data w = (Ok pairs, w') ->
  Forall (fun p => fresh_pair p /\ no_healthkit_metric p) pairs /\
  exists indices,
    map pair_id pairs = map (uuid_source w) indices /\ NoDup indices.
Proof.
  intros Hnorm.
  destruct data; try discriminate; simpl in Hnorm.
  - apply (normalize_loop_pairs items [] pairs w w' [] Hnorm);
      [constructor | reflexivity | constructor | constructor].
  - apply (normalize_loop_pairs [JDict items] [] pairs w w' [] Hnorm);
      [constructor | reflexivity | constructor | constructor].
Qed.

(** X4. Every pair [normalize] returns, for any payload: the detail
    carries the identifier of its record, the category is "workout", the
    user is not set, and the elevation loss, the temperature and the
    humidity are absent. *)
Theorem health_connect_pairs_are_fresh (data : json) (w w' : World)
  (pairs : list record_pair) :
  HealthConnectHandler.normalize data w = (Ok pairs, w') ->
  Forall fresh_pair pairs /\ Forall no_healthkit_metric pairs.
Proof.
  intros Hnorm. destruct (normalize_pairs _ _ _ _ Hnorm) as [Hgood _].
  split; (eapply Forall_impl; [exact Hgood|]); simpl; tauto.
Qed.

Lemma health_connect_pairs_are_fresh_witness :
  exists pairs,
    fst (HealthConnectHandler.normalize (JList [sample_session; sample_session])
           sample_world) = Ok pairs /\
    length pairs = 2%nat /\
    Forall fresh_pair pairs /\ Forall no_healthkit_metric pairs.
Proof.
  destruct (HealthConnectHandler.normalize (JList [sample_session; sample_session])
              sample_world) as [[pairs|e] w'] eqn:Hnorm;
    [|vm_compute in Hnorm; discriminate].
  exists pairs. split; [reflexivity|]. split.
  - vm_compute in Hnorm. injection Hnorm as <- _. reflexivity.
  - exact (health_connect_pairs_are_fresh _ _ _ _ Hnorm).
Defined.

(** X5. The pairs of one call of [normalize] carry pairwise distinct
    identifiers, provided [uuid4] never returns the same identifier
    twice. *)
Theorem health_connect_identifiers_are_distinct (data : json) (w w' : World)
  (pairs : list record_pair) :
  (forall i j, uuid_source w i = uuid_source w j -> i = j) ->
  HealthConnectHandler.normalize data w = (Ok pairs, w') ->
  NoDup (map pair_id pairs).
Proof.
  intros Hinj Hnorm.
  destruct (normalize_pairs _ _ _ _ Hnorm) as [_ (indices & Hids & Hnodup)].
  rewrite Hids.
  assert (Hclass : Inj (=) (=) (uuid_source w)) by (intros i j; apply Hinj).
  apply (NoDup_fmap_2 (uuid_source w)). exact Hnodup.
Qed.

Lemma health_connect_identifiers_are_distinct_witness :
  exists pairs,
    fst (HealthConnectHandler.normalize (JList [sample_session; sample_session])
           sample_world) = Ok pairs /\
    map pair_id pairs = [0%N; 1%N] /\
    NoDup (map pair_id pairs).
Proof.
  destruct (HealthConnectHandler.normalize (JList [sample_session; sample_session])
              sample_world) as [[pairs|e] w'] eqn:Hnorm;
    [|vm_compute in Hnorm; discriminate].
  exists pairs. split; [reflexivity|]. split.
  - vm_compute in Hnorm. injection Hnorm as <- _. reflexivity.
  - apply (health_connect_identifiers_are_distinct
             (JList [sample_session; sample_session]) sample_world w' pairs);
      [|exact Hnorm].
    intros i j. simpl. apply Nat2N.inj.
Defined.

(** *** Timestamps of a Health Connect session *)

Lemma bindM_step_Ok {A B : Type} (c : M A) (k : A -> M B) (a : A)
  (w w1 : World) (r : result B * World) :
  c w = (Ok a, w1) -> k a w1 = r -> bindM c k w = r.
Proof. intros Hc Hk. unfold bindM. rewrite Hc. exact Hk. Qed.

Lemma bindM_step_Raise {A B : Type} (c : M A) (k : A -> M B) (e : exn)
  (w w1 : World) :
  c w = (Raise e, w1) -> bindM c k w = (Raise e, w1).
Proof. intros Hc. unfold bindM. rewrite Hc. reflexivity. Qed.

Lemma iso_reading_parse (s : string) (d : datetime) (w : World) :
  iso_reading s = Some d ->
  _parse_datetime (JStr s) w = (Ok d, w).
Proof.
  intros Hread. unfold _parse_datetime. simpl.
  destruct (String.eqb_spec s "") as [->|_]; [discriminate|].
  simpl. unfold iso_reading in Hread. rewrite Hread. reflexivity.
Qed.

Lemma unreadable_parse (s : string) (w : World) :
  unreadable s -> _parse_datetime (JStr s) w = now w.
Proof.
  intros [->|Hrefused]; [reflexivity|].
  unfold _parse_datetime. simpl.
  destruct (String.eqb s ""); simpl; [reflexivity|].
  rewrite Hrefused. reflexivity.
Qed.

Lemma failed_session_is_logged (items : list (string * json)) (e : exn)
  (w w1 : World) :
  _parse_exercise_session (JDict items) w = (Raise e, w1) ->
  HealthConnectHandler.normalize (JDict items) w
  = (Ok [], with_diagnostic w1 (LogError (logged_id items) e)).
Proof.
  intros Hparse. unfold HealthConnectHandler.normalize. simpl.
  unfold bindM at 1. unfold normalize_step, try_except, bindM.
  rewrite Hparse. reflexivity.
Qed.

(** X6. A timestamp that is not a string is not converted: when it is
    truthy (a number such as an epoch, [true], a non-empty list or dict)
    reading it raises AttributeError and the session is skipped with a
    diagnostic; when it is falsy ([null], [false], zero, an empty list or
    dict) the current time is taken. *)
Theorem timestamp_must_be_a_string (items : list (string * json))
  (v : json) (w : World) :
  is_str v = false ->
  HealthConnectHandler._parse_datetime v w
  = (if truthy v then (Raise AttributeError, w) else now w) /\
  (dict_get "startTime" items = Some v -> truthy v = true ->
   HealthConnectHandler.normalize (JDict items) w
   = (Ok [], with_diagnostic w (LogError (logged_id items) AttributeError))).
Proof.
  intros Hstr.
  assert (Hparse : _parse_datetime v w
                   = (if truthy v then (Raise AttributeError, w) else now w)).
  { unfold _parse_datetime. destruct (truthy v); simpl; [|reflexivity].
    destruct v; try discriminate; reflexivity. }
  split; [exact Hparse|].
  intros Hstart Htruthy. apply failed_session_is_logged.
  unfold _parse_exercise_session. simpl. rewrite Hstart. simpl.
  unfold bindM, lift. rewrite Hparse, Htruthy. reflexivity.
Qed.

Lemma timestamp_must_be_a_string_witness :
  HealthConnectHandler.normalize
    (JDict [("id", JStr "s-1"); ("startTime", JInt 1705307400);
            ("endTime", JInt 1705310100)]) sample_world
  = (Ok [],
     with_diagnostic sample_world (LogError (JStr "s-1") AttributeError)).
Proof.
  destruct (timestamp_must_be_a_string
              [("id", JStr "s-1"); ("startTime", JInt 1705307400);
               ("endTime", JInt 1705310100)]
              (JInt 1705307400) sample_world eq_refl) as [_ Hskip].
  apply Hskip; reflexivity.
Defined.

(** X7. A session one of whose timestamps carries an offset while the
    other is empty or unreadable is skipped: the substituted current time
    is naive, and subtracting a naive from an aware datetime raises
    TypeError. *)
Theorem aware_and_substituted_timestamps_clash (items : list (string * json))
  (aware_str other_str : string) (d : datetime) (offset : Z) (w : World) :
  iso_reading aware_str = Some d ->
  tzinfo d = Some offset ->
  unreadable other_str ->
  (dict_get "startTime" items = Some (JStr aware_str) /\
   dict_get "endTime" items = Some (JStr other_str)) \/
  (dict_get "startTime" items = Some (JStr other_str) /\
   dict_get "endTime" items = Some (JStr aware_str)) ->
  HealthConnectHandler.normalize (JDict items) w
  = (Ok [],
     with_diagnostic (snd (now w)) (LogError (logged_id items) TypeError)).
Proof.
  intros Hread Hzone Hother Hwhere.
  apply failed_session_is_logged.
  unfold _parse_exercise_session. simpl.
  destruct Hwhere as [[Hstart Hend]|[Hstart Hend]]; rewrite Hstart, Hend; simpl.
  - eapply bindM_step_Ok; [reflexivity|].
    eapply bindM_step_Ok; [reflexivity|].
    eapply bindM_step_Ok; [apply iso_reading_parse; exact Hread|].
    eapply bindM_step_Ok; [reflexivity|].
    eapply bindM_step_Ok;
      [rewrite (unreadable_parse _ _ Hother); reflexivity|].
    apply bindM_step_Raise. unfold lift, datetime_sub. simpl.
    rewrite Hzone. reflexivity.
  - eapply bindM_step_Ok; [reflexivity|].
    eapply bindM_step_Ok; [reflexivity|].
    eapply bindM_step_Ok;
      [rewrite (unreadable_parse _ _ Hother); reflexivity|].
    eapply bindM_step_Ok; [reflexivity|].
    eapply bindM_step_Ok; [apply iso_reading_parse; exact Hread|].
    apply bindM_step_Raise. unfold lift, datetime_sub. simpl.
    rewrite Hzone. reflexivity.
Qed.

Lemma aware_and_substituted_timestamps_clash_witness :
  HealthConnectHandler.normalize
    (JDict [("startTime", JStr "2024-01-15T08:30:00Z"); ("endTime", JStr "")])
    sample_world
  = (Ok [],
     with_diagnostic (snd (now sample_world))
       (LogError (JStr "unknown") TypeError)).
Proof.
  apply (aware_and_substituted_timestamps_clash
           [("startTime", JStr "2024-01-15T08:30:00Z"); ("endTime", JStr "")]
           "2024-01-15T08:30:00Z" "" (mk_datetime 2024 1 15 8 30 0 0 (Some 0)) 0
           sample_world).
  - vm_compute. reflexivity.
  - reflexivity.
  - left. reflexivity.
  - left. split; reflexivity.
Defined.

(** *** The HealthKit handler *)

Lemma healthkit_quiet_parse_datetime (date_str : string) :
  quiet (HealthKitHandler._parse_datetime date_str).
Proof.
  unfold HealthKitHandler._parse_datetime.
  destruct (String.eqb date_str ""); [apply quiet_now|].
  repeat match goal with
         | |- quiet (match ?p with _ => _ end) => destruct p
         end; auto with quiet.
Qed.

Lemma healthkit_quiet_parse_workout_element
  (get_unified_workout_type : string -> WorkoutType) (workout_elem : Element) :
  quiet (HealthKitHandler._parse_workout_element get_unified_workout_type
           workout_elem).
Proof.
  unfold HealthKitHandler._parse_workout_element. cbv zeta.
  repeat (apply quiet_bind;
          [first [apply healthkit_quiet_parse_datetime | auto with quiet]
          | intros ?]).
  auto with quiet.
Qed.

(** What a workout element that parses gives. *)
Lemma healthkit_parse_workout_element_pair
  (get_unified_workout_type : string -> WorkoutType) (workout_elem : Element)
  (w w' : World) (p : record_pair) :
  HealthKitHandler._parse_workout_element get_unified_workout_type
    workout_elem w = (Ok p, w') ->
  fresh_pair p /\
  EventRecordCreate.provider_id (fst p) = None /\
  EventRecordCreate.type (fst p)
  = get_unified_workout_type
      (elem_get_default workout_elem "workoutActivityType"
         "HKWorkoutActivityTypeOther") /\
  HealthKitHandler._parse_duration (elem_get workout_elem "duration")
    (elem_get_default workout_elem "durationUnit" "min")
  = Ok (EventRecordCreate.duration_seconds (fst p)).
Proof.
  unfold HealthKitHandler._parse_workout_element. cbv zeta. intros H.
  apply bindM_Ok in H. destruct H as (start_date & w1 & _ & H).
  apply bindM_Ok in H. destruct H as (end_date & w2 & _ & H).
  apply bindM_Ok in H. destruct H as (duration_seconds & w3 & Hduration & H).
  apply lift_Ok in Hduration. destruct Hduration as [Hduration ->].
  repeat match type of H with
  | bindM (lift _) _ _ = _ =>
      let Hl := fresh "Hl" in
      apply bindM_Ok in H; destruct H as (? & ? & Hl & H);
      apply lift_Ok in Hl; destruct Hl as [Hl ->]
  end.
  apply bindM_Ok in H. destruct H as (workout_id & w4 & _ & H).
  unfold ret in H. injection H as <- <-. simpl.
  split; [repeat split|]. split; [reflexivity|]. split; [reflexivity|].
  exact Hduration.
Qed.

Lemma healthkit_normalize_step_outcome
  (get_unified_workout_type : string -> WorkoutType)
  (workouts : list record_pair) (workout_elem : Element) (w : World) :
  exists workouts' w',
    HealthKitHandler.normalize_step get_unified_workout_type workouts
      workout_elem w = (Ok workouts', w') /\
    ((exists p, workouts' = workouts ++ [p] /\ fresh_pair p /\
                EventRecordCreate.provider_id (fst p) = None /\
                diagnostics w' = diagnostics w) \/
     (exists e, workouts' = workouts /\
                diagnostics w' = diagnostics w ++ [Printed e])).
Proof.
  pose proof (healthkit_quiet_parse_workout_element get_unified_workout_type
                workout_elem w) as Hq.
  unfold HealthKitHandler.normalize_step, try_except, bindM.
  destruct (HealthKitHandler._parse_workout_element get_unified_workout_type
              workout_elem w) as [[p|e] w1] eqn:Hparse; simpl in *.
  - eexists _, _. split; [reflexivity|]. left. exists p.
    destruct (healthkit_parse_workout_element_pair _ _ _ _ _ Hparse)
      as (Hfresh & Hprovider & _).
    split; [reflexivity|]. split; [exact Hfresh|]. split; [exact Hprovider|].
    exact Hq.
  - eexists _, _. split; [reflexivity|]. right. exists e.
    split; [reflexivity|]. simpl. rewrite Hq. reflexivity.
Qed.

Lemma healthkit_normalize_loop_outcome
  (get_unified_workout_type : string -> WorkoutType) (elems : list Element) :
  forall (workouts : list record_pair) (w : World),
  exists (pairs : list record_pair) (errors : list exn) (w' : World),
    HealthKitHandler.normalize_loop get_unified_workout_type elems workouts w
    = (Ok (workouts ++ pairs), w') /\
    diagnostics w' = diagnostics w ++ map Printed errors /\
    (length pairs + length errors = length elems)%nat /\
    Forall (fun p => fresh_pair p /\
                     EventRecordCreate.provider_id (fst p) = None) pairs.
Proof.
  induction elems as [|elem elems IH]; intros workouts w; simpl.
  - exists [], [], w. rewrite !app_nil_r. repeat split. constructor.
  - destruct (healthkit_normalize_step_outcome get_unified_workout_type
                workouts elem w)
      as (ws1 & w1 & Hstep &
          [(p & -> & Hfresh & Hprovider & Hdiag) | (e & -> & Hdiag)]);
      unfold bindM at 1; rewrite Hstep.
    + destruct (IH (workouts ++ [p]) w1)
        as (pairs & errors & w2 & Hloop & Hdiag2 & Hlen & Hgood).
      exists (p :: pairs), errors, w2.
      split; [rewrite Hloop, <- app_assoc; reflexivity|].
      split; [rewrite Hdiag2, Hdiag; reflexivity|].
      split; [simpl; lia|].
      constructor; [split; assumption | exact Hgood].
    + destruct (IH workouts w1)
        as (pairs & errors & w2 & Hloop & Hdiag2 & Hlen & Hgood).
      exists pairs, (e :: errors), w2.
      split; [exact Hloop|].
      split; [rewrite Hdiag2, Hdiag, <- app_assoc; reflexivity|].
      split; [simpl; lia | exact Hgood].
Qed.

Lemma well_formed_ascii (data : list Byte.byte) :
  Forall (fun b => byte_in b 0 127 = true) data ->
  well_formed_utf8 data = true.
Proof.
  induction 1 as [|b data Hb _ IH]; [reflexivity|].
  simpl. unfold byte_in in Hb. apply andb_true_iff in Hb.
  destruct Hb as [_ Hb]. rewrite Hb. exact IH.
Qed.

(** X8. The HealthKit handler accounts for every Workout element of a
    parsed export: [normalize] returns, each element gives either one
    pair or one printed diagnostic, and every pair has its detail linked
    to its record, the category "workout", no user and no provider
    identifier.  A text payload behaves as the document the XML parser
    makes of it.  A bytes payload is decoded as UTF-8 first: bytes that
    are not well-formed UTF-8 raise UnicodeDecodeError before the parser
    is called, and bytes below 128 always reach it.  An error of the
    decoder or of the parser is not caught, and an object of another
    type is refused before anything is read. *)
Theorem healthkit_workouts_are_accounted_for
  (fromstring : string -> result Element)
  (get_unified_workout_type : string -> WorkoutType)
  (root : Element) (s type_name : string) (data : list Byte.byte)
  (w : World) :
  let normalize :=
    HealthKitHandler.normalize fromstring get_unified_workout_type in
  (exists (pairs : list record_pair) (errors : list exn) (w' : World),
     normalize (HealthKitHandler.Parsed root) w = (Ok pairs, w') /\
     diagnostics w' = diagnostics w ++ map Printed errors /\
     (length pairs + length errors
      = length (findall_descendants root "Workout"))%nat /\
     Forall fresh_pair pairs /\
     Forall (fun p => EventRecordCreate.provider_id (fst p) = None) pairs) /\
  normalize (HealthKitHandler.Text s) w
  = match fromstring s with
    | Ok parsed => normalize (HealthKitHandler.Parsed parsed) w
    | Raise e => (Raise e, w)
    end /\
  normalize (HealthKitHandler.Bytes data) w
  = match decode_utf8 data with
    | Ok decoded => normalize (HealthKitHandler.Text decoded) w
    | Raise e => (Raise e, w)
    end /\
  (well_formed_utf8 data = false ->
   normalize (HealthKitHandler.Bytes data) w = (Raise UnicodeDecodeError, w)) /\
  (Forall (fun b => byte_in b 0 127 = true) data ->
   normalize (HealthKitHandler.Bytes data) w
   = normalize (HealthKitHandler.Text (string_of_list_byte data)) w) /\
  normalize (HealthKitHandler.Other type_name) w
  = (Raise (ValueError ("Unsupported data type for HealthKit parsing: "
                        +:+ type_name)), w).
Proof.
  intros normalize.
  assert (Hbytes :
            normalize (HealthKitHandler.Bytes data) w
            = match decode_utf8 data with
              | Ok decoded => normalize (HealthKitHandler.Text decoded) w
              | Raise e => (Raise e, w)
              end).
  { unfold normalize, HealthKitHandler.normalize, bindM, lift.
    destruct (decode_utf8 data); reflexivity. }
  split; [|split; [|split; [|split; [|split]]]].
  - destruct (healthkit_normalize_loop_outcome get_unified_workout_type
                (findall_descendants root "Workout") [] w)
      as (pairs & errors & w' & Hloop & Hdiag & Hlen & Hgood).
    exists pairs, errors, w'.
    split; [exact Hloop|]. split; [exact Hdiag|]. split; [exact Hlen|].
    split; (eapply Forall_impl; [exact Hgood|]); simpl; tauto.
  - unfold normalize, HealthKitHandler.normalize, bindM, lift.
    destruct (fromstring s); reflexivity.
  - exact Hbytes.
  - intros Hbad. rewrite Hbytes. unfold decode_utf8. rewrite Hbad. reflexivity.
  - intros Hascii. rewrite Hbytes. unfold decode_utf8.
    rewrite (well_formed_ascii data Hascii). reflexivity.
  - reflexivity.
Qed.

(** X9. The duration of a HealthKit workout is its [duration] attribute
    converted with its unit, whatever the two dates are: a workout
    without that attribute, or with one that is no number, has the
    duration zero; and its type is what the lookup of the Apple activity
    names gives for the activity, "HKWorkoutActivityTypeOther" when the
    attribute is missing. *)
Theorem healthkit_duration_is_the_attribute
  (get_unified_workout_type : string -> WorkoutType) (workout_elem : Element)
  (w w' : World) (record : EventRecordCreate.t)
  (detail : EventRecordDetailCreate.t) :
  HealthKitHandler._parse_workout_element get_unified_workout_type
    workout_elem w = (Ok (record, detail), w') ->
  HealthKitHandler._parse_duration (elem_get workout_elem "duration")
    (elem_get_default workout_elem "durationUnit" "min")
  = Ok (EventRecordCreate.duration_seconds record) /\
  (elem_get workout_elem "duration" ≫= float_of_string = None ->
   EventRecordCreate.duration_seconds record = 0) /\
  EventRecordCreate.type record
  = get_unified_workout_type
      (elem_get_default workout_elem "workoutActivityType"
         "HKWorkoutActivityTypeOther") /\
  (elem_get workout_elem "workoutActivityType" = None ->
   EventRecordCreate.type record
   = get_unified_workout_type "HKWorkoutActivityTypeOther").
Proof.
  intros Hparse.
  destruct (healthkit_parse_workout_element_pair _ _ _ _ _ Hparse)
    as (_ & _ & Htype & Hduration). simpl in Htype, Hduration.
  split; [exact Hduration|]. split; [|split; [exact Htype|]].
  - intros Hnone.
    destruct (elem_get workout_elem "duration") as [v|]; simpl in *.
    + rewrite Hnone in Hduration.
      destruct (String.eqb v ""); congruence.
    + congruence.
  - intros Hnone. rewrite Htype. unfold elem_get_default.
    rewrite Hnone. reflexivity.
Qed.

Lemma healthkit_duration_is_the_attribute_witness :
  exists record detail w',
    HealthKitHandler._parse_workout_element every_activity_is_other
      (mk_Element "Workout"
         [ ("startDate", "2024-01-15 08:30:00 -0800");
           ("endDate", "2024-01-15 09:15:00 -0800") ] [])
      sample_world = (Ok (record, detail), w') /\
    EventRecordCreate.duration_seconds record = 0.
Proof.
  destruct (HealthKitHandler._parse_workout_element every_activity_is_other
              (mk_Element "Workout"
                 [ ("startDate", "2024-01-15 08:30:00 -0800");
                   ("endDate", "2024-01-15 09:15:00 -0800") ] [])
              sample_world) as [[[record detail]|e] w'] eqn:Hparse;
    [|vm_compute in Hparse; discriminate].
  exists record, detail, w'. split; [reflexivity|].
  destruct (healthkit_duration_is_the_attribute _ _ _ _ _ _ Hparse)
    as (_ & Hzero & _).
  apply Hzero. reflexivity.
Defined.

(** **** Metadata *)

Lemma parse_metadata_fold (entries : list Element) :
  forall (metadata : gmap string json) (key : string),
  foldl
    (fun metadata meta_elem =>
       let key := elem_get_default meta_elem "key" "" in
       let value := elem_get_default meta_elem "value" "" in
       if negb (String.eqb key "") && negb (String.eqb value "")
       then <[key := HealthKitHandler.metadata_value value]> metadata
       else metadata)
    metadata entries !! key
  = match last_binding key
            (List.filter
               (fun kv => negb (String.eqb (fst kv) "")
                          && negb (String.eqb (snd kv) ""))
               (map (fun meta_elem =>
                       (elem_get_default meta_elem "key" "",
                        elem_get_default meta_elem "value" ""))
                  entries)) with
    | Some value => Some (HealthKitHandler.metadata_value value)
    | None => metadata !! key
    end.
Proof.
  induction entries as [|meta_elem entries IH]; intros metadata key; simpl.
  - reflexivity.
  - rewrite IH.
    destruct (negb (String.eqb (elem_get_default meta_elem "key" "") "")
              && negb (String.eqb (elem_get_default meta_elem "value" "") ""));
      simpl; [|reflexivity].
    match goal with |- context [last_binding key ?l] =>
      destruct (last_binding key l)
    end; [reflexivity|].
    destruct (decide (elem_get_default meta_elem "key" "" = key)) as [->|Hne].
    + apply lookup_insert_eq.
    + apply lookup_insert_ne. exact Hne.
Qed.

(** X10. The metadata of a workout is read from its MetadataEntry
    children that carry both a key and a value: under each key stands
    the value of the last such entry, as an integer, a float or the
    string itself, and a key no such entry carries is absent. *)
Theorem healthkit_metadata_last_entry_wins (workout_elem : Element)
  (key : string) :
  HealthKitHandler._parse_metadata workout_elem !! key
  = HealthKitHandler.metadata_value
    <$> last_binding key (metadata_entries workout_elem).
Proof.
  unfold HealthKitHandler._parse_metadata, metadata_entries.
  rewrite parse_metadata_fold.
  match goal with |- context [last_binding key ?l] =>
    destruct (last_binding key l)
  end; [reflexivity | apply lookup_empty].
Qed.

Lemma Decimal_of_str_view (v : json) :
  Decimal_of_str v
  = match decimal_view v with
    | Some d => Ok d
    | None => Raise InvalidOperation
    end.
Proof.
  unfold decimal_view. destruct v; simpl; try reflexivity.
  destruct (Dec.of_string s); reflexivity.
Qed.

Lemma copy_metric_view (metadata : gmap string json) (key name : string)
  (metrics : gmap string Decimal) :
  HealthKitHandler.copy_metric metadata key name metrics
  = match metadata !! key with
    | None => Ok metrics
    | Some v =>
        match decimal_view v with
        | Some d => Ok (<[name := d]> metrics)
        | None => Raise InvalidOperation
        end
    end.
Proof.
  unfold HealthKitHandler.copy_metric.
  destruct (metadata !! key) as [v|]; [|reflexivity].
  rewrite Decimal_of_str_view. destruct (decimal_view v); reflexivity.
Qed.

Lemma copy_metric_converts (metadata : gmap string json) (key name : string)
  (metrics : gmap string Decimal) :
  (forall v, metadata !! key = Some v -> decimal_view v <> None) ->
  HealthKitHandler.copy_metric metadata key name metrics
  = Ok (match metadata !! key ≫= decimal_view with
        | Some d => <[name := d]> metrics
        | None => metrics
        end).
Proof.
  intros Hconv. rewrite copy_metric_view.
  destruct (metadata !! key) as [v|]; simpl; [|reflexivity].
  specialize (Hconv v eq_refl).
  destruct (decimal_view v); [reflexivity | contradiction].
Qed.

Lemma lookup_optional_insert_eq (metrics : gmap string Decimal)
  (value : option Decimal) (name : string) :
  match value with
  | Some d => <[name := d]> metrics
  | None => metrics
  end !! name
  = match value with Some d => Some d | None => metrics !! name end.
Proof. destruct value as [d|]; [apply lookup_insert_eq | reflexivity]. Qed.

Lemma lookup_optional_insert_ne (metrics : gmap string Decimal)
  (value : option Decimal) (name key : string) :
  name <> key ->
  match value with
  | Some d => <[name := d]> metrics
  | None => metrics
  end !! key
  = metrics !! key.
Proof.
  intros Hne. destruct value as [d|]; [|reflexivity].
  apply lookup_insert_ne. exact Hne.
Qed.

Ltac metric_lookup :=
  repeat first
    [ rewrite lookup_optional_insert_eq
    | rewrite lookup_optional_insert_ne
        by (apply (bool_decide_unpack _); vm_compute; exact I) ];
  rewrite ?lookup_empty;
  match goal with
  | |- match ?o with _ => _ end = _ => destruct o; reflexivity
  | _ => reflexivity
  end.

Lemma healthkit_build_metrics_cases (metadata : gmap string json)
  (distance_meters calories : option Decimal) :
  HealthKitHandler._build_metrics metadata distance_meters calories
  = Raise InvalidOperation \/
  Forall (fun key => forall v, metadata !! key = Some v ->
                               decimal_view v <> None)
    (map fst healthkit_metric_keys).
Proof.
  unfold HealthKitHandler._build_metrics.
  repeat (rewrite copy_metric_view;
          match goal with
          | |- context [match metadata !! ?k with _ => _ end] =>
              let E := fresh "E" in
              let V := fresh "V" in
              destruct (metadata !! k) as [?v|] eqn:E;
              [match goal with
               | |- context [match decimal_view ?x with _ => _ end] =>
                   destruct (decimal_view x) eqn:V;
                   [|left; reflexivity]
               end|];
              cbn [bind]
          end).
  all: right; simpl;
    repeat (apply List.Forall_cons; [intros ? ? ?; congruence|]);
    apply List.Forall_nil.
Qed.

(** X11. The metrics of a HealthKit workout: when every value that
    stands under one of the seven metadata keys converts to a decimal,
    each of the seven metrics is the decimal of the value under its key
    and is absent when the key is absent, and the distance and the
    calories are passed on as given; when one of them does not convert,
    building the metrics raises InvalidOperation. *)
Theorem healthkit_metrics_follow_the_metadata (metadata : gmap string json)
  (distance_meters calories : option Decimal) :
  (Forall (fun key => forall v, metadata !! key = Some v ->
                                decimal_view v <> None)
     (map fst healthkit_metric_keys) ->
   exists metrics,
     HealthKitHandler._build_metrics metadata distance_meters calories
     = Ok metrics /\
     Forall (fun entry => metrics !! snd entry
                          = metadata !! fst entry ≫= decimal_view)
       healthkit_metric_keys /\
     metrics !! "distance_total" = distance_meters /\
     metrics !! "calories_total" = calories) /\
  (Exists (fun key => exists v, metadata !! key = Some v /\
                                decimal_view v = None)
     (map fst healthkit_metric_keys) ->
   HealthKitHandler._build_metrics metadata distance_meters calories
   = Raise InvalidOperation).
Proof.
  split.
  - intros Hall. unfold healthkit_metric_keys in *. simpl in Hall.
    repeat match goal with
           | H : Forall _ (_ :: _) |- _ =>
               apply Forall_cons_1 in H;
               let Hk := fresh "Hk" in destruct H as [Hk H]
           end.
    unfold HealthKitHandler._build_metrics.
    rewrite (copy_metric_converts _ _ _ _ Hk). cbn [bind].
    rewrite (copy_metric_converts _ _ _ _ Hk0). cbn [bind].
    rewrite (copy_metric_converts _ _ _ _ Hk1). cbn [bind].
    rewrite (copy_metric_converts _ _ _ _ Hk2). cbn [bind].
    rewrite (copy_metric_converts _ _ _ _ Hk3). cbn [bind].
    rewrite (copy_metric_converts _ _ _ _ Hk4). cbn [bind].
    rewrite (copy_metric_converts _ _ _ _ Hk5).
    eexists. split; [reflexivity|].
    split; [repeat constructor; cbn [fst snd]; metric_lookup|].
    split; metric_lookup.
  - intros Hsome.
    destruct (healthkit_build_metrics_cases metadata distance_meters calories)
      as [Hraise|Hall]; [exact Hraise|].
    exfalso. apply Exists_exists in Hsome.
    destruct Hsome as (key & Hin & v & Hv & Hview).
    exact (proj1 (Forall_forall _ _) Hall key Hin v Hv Hview).
Qed.

Lemma healthkit_metrics_follow_the_metadata_witness :
  HealthKitHandler._build_metrics
    {[ "HKAverageHeartRate" := JStr "140 count/min" ]} None None
  = Raise InvalidOperation /\
  HealthKitHandler._build_metrics
    {[ "HKAverageHeartRate" := JInt 140; "HKIndoorWorkout" := JInt 1 ]}
    (Some (DFinite 5 3)) None
  = Ok {[ "heart_rate_avg" := DFinite 140 0; "distance_total" := DFinite 5 3 ]}.
Proof.
  split.
  - destruct (healthkit_metrics_follow_the_metadata
                {[ "HKAverageHeartRate" := JStr "140 count/min" ]} None None)
      as [_ Hfail].
    apply Hfail. left. exists (JStr "140 count/min"). split; reflexivity.
  - destruct (healthkit_metrics_follow_the_metadata
                {[ "HKAverageHeartRate" := JInt 140; "HKIndoorWorkout" := JInt 1 ]}
                (Some (DFinite 5 3)) None) as [Hok _].
    destruct Hok as (metrics & Hbuilt & _); [|vm_compute; reflexivity].
    repeat constructor; intros v Hv; vm_compute in Hv;
      try discriminate; injection Hv as <-; discriminate.
Defined.

(** *** Saving what a handler returns *)

Lemma save_all_app (Database : Type)
  (_save_workout : Database -> EventRecordCreate.t ->
                   EventRecordDetailCreate.t -> result unit * Database)
  (user_id : UUID) (before after : list record_pair) :
  forall db : Database,
  GoogleHealthWorkouts.save_all Database _save_workout db user_id
    (before ++ after)
  = match GoogleHealthWorkouts.save_all Database _save_workout db user_id
            before with
    | (Ok _, db1) =>
        GoogleHealthWorkouts.save_all Database _save_workout db1 user_id after
    | (Raise e, db1) => (Raise e, db1)
    end.
Proof.
  induction before as [|[record detail] before IH]; intros db; simpl.
  - reflexivity.
  - destruct (_save_workout db (EventRecordCreate.set_user_id record user_id)
                detail) as [[[]|e] db1]; [apply IH | reflexivity].
Qed.

Lemma process_payload_health_connect (Database : Type)
  (_save_workout : Database -> EventRecordCreate.t ->
                   EventRecordDetailCreate.t -> result unit * Database)
  (db : Database) (user_id : UUID) (payload : json) (w : World) :
  GoogleHealthWorkouts.process_payload Database _save_workout db user_id
    payload "health_connect" w
  = match HealthConnectHandler.normalize payload w with
    | (Ok normalized_data, w') =>
        (GoogleHealthWorkouts.save_all Database _save_workout db user_id
           normalized_data, w')
    | (Raise e, w') => (Raise e, db, w')
    end.
Proof. reflexivity. Qed.

(** X12. When the collaborator never fails, [process_payload] hands it
    every pair the handler returns, once and in the handler's order,
    each with the user stamped on its record and nothing else changed;
    the database is the one the last call leaves. *)
Theorem every_pair_is_saved_once_in_order (Database : Type)
  (_save_workout : Database -> EventRecordCreate.t ->
                   EventRecordDetailCreate.t -> result unit * Database)
  (db : Database) (user_id : UUID) (payload : json) (w w' : World)
  (pairs : list record_pair) :
  (forall db record detail, fst (_save_workout db record detail) = Ok tt) ->
  HealthConnectHandler.normalize payload w = (Ok pairs, w') ->
  GoogleHealthWorkouts.process_payload Database _save_workout db user_id
    payload "health_connect" w
  = (Ok tt,
     foldl (fun db p =>
              snd (_save_workout db (fst (stamped user_id p))
                     (snd (stamped user_id p))))
       db pairs,
     w').
Proof.
  intros Hsaves Hnorm. rewrite process_payload_health_connect, Hnorm.
  f_equal. clear Hnorm. revert db.
  induction pairs as [|[record detail] pairs IH]; intros db; simpl.
  - reflexivity.
  - specialize (Hsaves db (EventRecordCreate.set_user_id record user_id) detail).
    destruct (_save_workout db (EventRecordCreate.set_user_id record user_id)
                detail) as [r db1]; simpl in *.
    subst r. apply IH.
Qed.

Lemma every_pair_is_saved_once_in_order_witness :
  exists pairs w',
    HealthConnectHandler.normalize (JList [JDict []; JDict []]) sample_world
    = (Ok pairs, w') /\
    GoogleHealthWorkouts.process_payload (list record_pair) save_to_list []
      7%N (JList [JDict []; JDict []]) "health_connect" sample_world
    = (Ok tt, map (stamped 7%N) pairs, w').
Proof.
  destruct (HealthConnectHandler.normalize (JList [JDict []; JDict []])
              sample_world) as [[pairs|e] w'] eqn:Hnorm;
    [|vm_compute in Hnorm; discriminate].
  exists pairs, w'. split; [reflexivity|].
  rewrite (every_pair_is_saved_once_in_order (list record_pair) save_to_list
             [] 7%N (JList [JDict []; JDict []]) sample_world w' pairs
             (fun _ _ _ => eq_refl) Hnorm).
  f_equal. f_equal. clear Hnorm.
  change (map (stamped 7%N) pairs) with ([] ++ map (stamped 7%N) pairs).
  generalize (@nil record_pair) as saved.
  induction pairs as [|[record detail] pairs IH]; intros saved; simpl.
  - symmetry. apply app_nil_r.
  - rewrite IH, <- app_assoc. reflexivity.
Defined.

(** X13. A failure of the collaborator is not caught, and there is no
    rolling back: when saving a pair raises, [process_payload] raises the
    same exception, the pairs before it have been saved, and the pairs
    after it are never handed over. *)
Theorem persistence_failure_stops_the_import (Database : Type)
  (_save_workout : Database -> EventRecordCreate.t ->
                   EventRecordDetailCreate.t -> result unit * Database)
  (db db1 db2 : Database) (user_id : UUID) (payload : json) (w w' : World)
  (before after : list record_pair) (p : record_pair) (e : exn) :
  HealthConnectHandler.normalize payload w = (Ok (before ++ p :: after), w') ->
  GoogleHealthWorkouts.save_all Database _save_workout db user_id before
  = (Ok tt, db1) ->
  _save_workout db1 (fst (stamped user_id p)) (snd (stamped user_id p))
  = (Raise e, db2) ->
  GoogleHealthWorkouts.process_payload Database _save_workout db user_id
    payload "health_connect" w
  = (Raise e, db2, w').
Proof.
  intros Hnorm Hbefore Hfail.
  rewrite process_payload_health_connect, Hnorm, save_all_app, Hbefore.
  destruct p as [record detail]. simpl in *. rewrite Hfail. reflexivity.
Qed.

Lemma persistence_failure_stops_the_import_witness :
  exists saved w',
    GoogleHealthWorkouts.process_payload (list record_pair) (save_up_to 1) []
      7%N (JList [JDict []; JDict []; JDict []]) "health_connect" sample_world
    = (Raise (ValueError "database is full"), [saved], w').
Proof.
  destruct (HealthConnectHandler.normalize (JList [JDict []; JDict []; JDict []])
              sample_world) as [[pairs|e] w'] eqn:Hnorm;
    [|vm_compute in Hnorm; discriminate].
  destruct pairs as [|p1 [|p2 [|p3 [|p4 pairs]]]];
    try (vm_compute in Hnorm; discriminate).
  exists (stamped 7%N p1), w'.
  apply (persistence_failure_stops_the_import (list record_pair)
           (save_up_to 1) [] [stamped 7%N p1] [stamped 7%N p1] 7%N
           (JList [JDict []; JDict []; JDict []]) sample_world w'
           [p1] [p3] p2 (ValueError "database is full")).
  - exact Hnorm.
  - destruct p1. reflexivity.
  - reflexivity.
Defined.

(** *** The provider factory *)

(** X14. The factory knows exactly five names, compared as they are
    written, and gives each of them a strategy of its own: no two names
    share a strategy, and every strategy has a name. *)
Theorem provider_names_and_strategies (provider_name other_name : string)
  (strategy : BaseProviderStrategy) :
  ((exists found, ProviderFactory.get_provider provider_name = Ok found) <->
   provider_name ∈ ["apple"; "garmin"; "google_health"; "suunto"; "polar"]) /\
  (ProviderFactory.get_provider provider_name = Ok strategy ->
   ProviderFactory.get_provider other_name = Ok strategy ->
   provider_name = other_name) /\
  (exists name, ProviderFactory.get_provider name = Ok strategy).
Proof.
  assert (Hcases : forall name found,
             ProviderFactory.get_provider name = Ok found ->
             (name = "apple" /\ found = AppleStrategy) \/
             (name = "garmin" /\ found = GarminStrategy) \/
             (name = "google_health" /\ found = GoogleHealthStrategy) \/
             (name = "suunto" /\ found = SuuntoStrategy) \/
             (name = "polar" /\ found = PolarStrategy)).
  { intros name found. unfold ProviderFactory.get_provider.
    repeat match goal with
           | |- context [String.eqb name ?s] =>
               destruct (String.eqb_spec name s) as [->|?]
           end; intros [= <-]; tauto. }
  split; [split|split].
  - intros [found Hfound].
    destruct (Hcases _ _ Hfound) as [[-> _]|[[-> _]|[[-> _]|[[-> _]|[-> _]]]]];
      apply (bool_decide_unpack _); vm_compute; exact I.
  - intros Hin.
    repeat (apply elem_of_cons in Hin; destruct Hin as [->|Hin];
            [eexists; reflexivity|]).
    apply elem_of_nil in Hin. contradiction.
  - intros Hone Hother.
    destruct (Hcases _ _ Hone) as [[-> ->]|[[-> ->]|[[-> ->]|[[-> ->]|[-> ->]]]]];
      destruct (Hcases _ _ Hother)
        as [[-> ?]|[[-> ?]|[[-> ?]|[[-> ?]|[-> ?]]]]];
      congruence.
  - destruct strategy;
      [exists "apple" | exists "garmin" | exists "google_health"
      | exists "suunto" | exists "polar"]; reflexivity.
Qed.

(** *** The import route *)

(** X15. The route answers with the number of sessions it received, not
    with the number it saved: for an upload that decodes to a list of
    dict sessions, with a collaborator that keeps what it is handed, the
    answer is the 201 body with [workouts_imported] the length of the
    list, while the database has grown by the sessions that parsed
    only; a single dict is reported as one workout even when it was
    skipped. *)
Theorem import_reports_the_sessions_received
  (other_process_payload :
     BaseProviderStrategy -> list record_pair -> UUID -> json -> string ->
     World -> result unit * list record_pair * World)
  (user_id : UUID) (sessions : list json) (items : list (string * json))
  (db : list record_pair) (w : World) :
  let route :=
    ImportGoogleHealth.import_google_health (list record_pair) save_to_list
      other_process_payload user_id in
  (Forall (fun s => is_dict s = true) sessions ->
   exists db' w',
     route (ImportGoogleHealth.Decoded (JList sessions)) db w
     = (ImportGoogleHealth.Created true
          ("Successfully imported " +:+ pretty (Z.of_nat (length sessions))
           +:+ " workout(s) from Google Health Connect")
          (Z.of_nat (length sessions)),
        db', w') /\
     (length db' + failed_sessions sessions w
      = length db + length sessions)%nat) /\
  (exists db' w',
     route (ImportGoogleHealth.Decoded (JDict items)) db w
     = (ImportGoogleHealth.Created true
          "Successfully imported 1 workout(s) from Google Health Connect" 1,
        db', w') /\
     (length db' + failed_sessions [JDict items] w = length db + 1)%nat).
Proof.
  intros route.
  assert (Hsaved : forall pairs (saved : list record_pair),
             GoogleHealthWorkouts.save_all (list record_pair) save_to_list
               saved user_id pairs
             = (Ok tt, saved ++ map (stamped user_id) pairs)).
  { induction pairs as [|[record detail] pairs IH]; intros saved; simpl.
    - rewrite app_nil_r. reflexivity.
    - rewrite IH, <- app_assoc. reflexivity. }
  assert (Hlist : forall sessions,
             Forall (fun s => is_dict s = true) sessions ->
             exists pairs w',
               GoogleHealthWorkouts.process_payload (list record_pair)
                 save_to_list db user_id (JList sessions) "health_connect" w
               = (Ok tt, db ++ map (stamped user_id) pairs, w') /\
               (length pairs + failed_sessions sessions w
                = length sessions)%nat).
  { intros ss Hdicts.
    destruct (normalize_dict_sessions ss w Hdicts)
      as (pairs & w' & Hnorm & Hlen & _).
    exists pairs, w'. split; [|exact Hlen].
    rewrite process_payload_health_connect, Hnorm, Hsaved. reflexivity. }
  split.
  - intros Hdicts. destruct (Hlist sessions Hdicts) as (pairs & w' & Hrun & Hlen).
    exists (db ++ map (stamped user_id) pairs), w'. split.
    + unfold route, ImportGoogleHealth.import_google_health. simpl.
      rewrite Hrun. reflexivity.
    + rewrite length_app, length_map. lia.
  - destruct (Hlist [JDict items]) as (pairs & w' & Hrun & Hlen);
      [repeat constructor|].
    exists (db ++ map (stamped user_id) pairs), w'. split.
    + unfold route, ImportGoogleHealth.import_google_health. simpl.
      change (GoogleHealthWorkouts.process_payload (list record_pair)
                save_to_list db user_id (JDict items) "health_connect" w)
        with (GoogleHealthWorkouts.process_payload (list record_pair)
                save_to_list db user_id (JList [JDict items])
                "health_connect" w).
      rewrite Hrun. reflexivity.
    + rewrite length_app, length_map. simpl in *. lia.
Qed.

Lemma import_reports_the_sessions_received_witness :
  exists w',
    ImportGoogleHealth.import_google_health (list record_pair) save_to_list
      no_other_payloads 7%N
      (ImportGoogleHealth.Decoded
         (JList [JDict [("startTime", JInt 1705307400)];
                 JDict [("startTime", JStr "2024-01-15T08:30:00Z")]]))
      [] sample_world
    = (ImportGoogleHealth.Created true
         "Successfully imported 2 workout(s) from Google Health Connect" 2,
       [], w').
Proof.
  destruct (import_reports_the_sessions_received no_other_payloads 7%N
              [JDict [("startTime", JInt 1705307400)];
               JDict [("startTime", JStr "2024-01-15T08:30:00Z")]]
              [] [] sample_world) as [Hlist _].
  destruct Hlist as (db' & w' & Hrun & Hlen); [repeat constructor|].
  exists w'. rewrite Hrun.
  assert (Hfailed :
            failed_sessions
              [JDict [("startTime", JInt 1705307400)];
               JDict [("startTime", JStr "2024-01-15T08:30:00Z")]]
              sample_world = 2%nat) by (vm_compute; reflexivity).
  rewrite Hfailed in Hlen.
  destruct db'; [reflexivity | simpl in Hlen; lia].
Defined.

Lemma normalize_loop_raises (sessions : list json) :
  forall (workouts : list record_pair) (w w' : World) (e : exn),
  normalize_loop sessions workouts w = (Raise e, w') -> e = AttributeError.
Proof.
  induction sessions as [|session sessions IH]; intros workouts w w' e Hloop.
  - discriminate.
  - simpl in Hloop. unfold bindM at 1 in Hloop.
    destruct (is_dict session) eqn:Hd.
    + destruct session as [| | | | | |items]; try discriminate.
      destruct (normalize_step_dict items workouts w) as (ws1 & w1 & Hstep & _).
      rewrite Hstep in Hloop. exact (IH _ _ _ _ Hloop).
    + rewrite (normalize_step_not_dict _ _ _ Hd) in Hloop.
      injection Hloop as <- _. reflexivity.
Qed.

(** What [normalize] can raise: the ValueError of the unsupported shape,
    or the AttributeError of a session that is not a dict. *)
Lemma normalize_raises (data : json) (w w' : World) (e : exn) :
  HealthConnectHandler.normalize data w = (Raise e, w') ->
  e = AttributeError \/
  e = ValueError ("Unsupported data type for Health Connect parsing: "
                  +:+ type_repr data).
Proof.
  unfold HealthConnectHandler.normalize.
  destruct data; intros Hnorm;
    try (right; injection Hnorm as <- _; reflexivity);
    left; exact (normalize_loop_raises _ _ _ _ _ Hnorm).
Qed.

(** X16. The route turns a failure to read or decode the upload into an
    HTTPException with the status 400, and then nothing is normalized or
    saved.  Once the upload is decoded it catches nothing: what
    [process_payload] raises is what the route raises.  So a payload that
    is neither a dict nor a list ends in the ValueError of the
    unsupported shape and a list holding a session that is not a dict in
    AttributeError; whatever the handler raises reaches the caller
    unchanged, with nothing saved, and is no HTTPException. *)
Theorem only_decoding_errors_are_bad_requests (Database : Type)
  (_save_workout : Database -> EventRecordCreate.t ->
                   EventRecordDetailCreate.t -> result unit * Database)
  (other_process_payload :
     BaseProviderStrategy -> Database -> UUID -> json -> string ->
     World -> result unit * Database * World)
  (user_id : UUID) (text : string) (data : json) (sessions : list json)
  (db : Database) (w : World) :
  let route :=
    ImportGoogleHealth.import_google_health Database _save_workout
      other_process_payload user_id in
  route (ImportGoogleHealth.NotJson text) db w
  = (ImportGoogleHealth.Raised
       (HTTPException 400 ("Invalid JSON format: " +:+ text)), db, w) /\
  route (ImportGoogleHealth.Unreadable text) db w
  = (ImportGoogleHealth.Raised
       (HTTPException 400 ("Error reading file: " +:+ text)), db, w) /\
  (forall e db' w',
     GoogleHealthWorkouts.process_payload Database _save_workout db user_id
       data "health_connect" w = (Raise e, db', w') ->
     route (ImportGoogleHealth.Decoded data) db w
     = (ImportGoogleHealth.Raised e, db', w')) /\
  (is_dict data = false -> is_list data = false ->
   route (ImportGoogleHealth.Decoded data) db w
   = (ImportGoogleHealth.Raised
        (ValueError ("Unsupported data type for Health Connect parsing: "
                     +:+ type_repr data)),
      db, w)) /\
  (Exists (fun s => is_dict s = false) sessions ->
   exists w',
     route (ImportGoogleHealth.Decoded (JList sessions)) db w
     = (ImportGoogleHealth.Raised AttributeError, db, w')) /\
  (forall e w',
     HealthConnectHandler.normalize data w = (Raise e, w') ->
     route (ImportGoogleHealth.Decoded data) db w
     = (ImportGoogleHealth.Raised e, db, w') /\
     forall status_code detail, e <> HTTPException status_code detail).
Proof.
  intros route. split; [reflexivity|]. split; [reflexivity|].
  assert (Hraised : forall e db' w',
             GoogleHealthWorkouts.process_payload Database _save_workout db
               user_id data "health_connect" w = (Raise e, db', w') ->
             route (ImportGoogleHealth.Decoded data) db w
             = (ImportGoogleHealth.Raised e, db', w')).
  { intros e db' w' Hrun.
    unfold route, ImportGoogleHealth.import_google_health. simpl.
    rewrite Hrun. reflexivity. }
  split; [exact Hraised|]. split; [|split].
  - intros Hdict Hlist. destruct data; try discriminate; reflexivity.
  - intros Hex. destruct (normalize_not_dict_session sessions w Hex)
      as (w' & Hnorm).
    exists w'. unfold route, ImportGoogleHealth.import_google_health. simpl.
    rewrite process_payload_health_connect, Hnorm. reflexivity.
  - intros e w' Hnorm. split.
    + apply Hraised. rewrite process_payload_health_connect, Hnorm.
      reflexivity.
    + intros status_code detail ->.
      destruct (normalize_raises _ _ _ _ Hnorm); discriminate.
Qed.

(** *** The repository of the unit mappings *)

Lemma filter_unique_key {A K : Type} `{EqDecision K} (key_of : A -> K)
  (wanted : K) (rows : list A) :
  NoDup (map key_of rows) ->
  ((wanted ∉ map key_of rows) /\
   List.filter (fun row => bool_decide (key_of row = wanted)) rows = []) \/
  (exists row, row ∈ rows /\ key_of row = wanted /\
     List.filter (fun row => bool_decide (key_of row = wanted)) rows = [row]).
Proof.
  induction rows as [|row rows IH]; simpl; intros Hunique.
  - left. split; [apply not_elem_of_nil | reflexivity].
  - apply NoDup_cons in Hunique. destruct Hunique as [Hfresh Hunique].
    destruct (IH Hunique) as [[Hout Hnone]|(found & Hin & Hkey & Hone)].
    + destruct (bool_decide_reflect (key_of row = wanted)) as [Heq|Hne].
      * right. exists row. split; [left|].
        split; [exact Heq | rewrite Hnone; reflexivity].
      * left. split; [|exact Hnone].
        intros Hin. apply elem_of_cons in Hin. destruct Hin as [Heq|Hin].
        -- apply Hne. symmetry. exact Heq.
        -- exact (Hout Hin).
    + destruct (bool_decide_reflect (key_of row = wanted)) as [Heq|Hne].
      * exfalso. apply Hfresh. rewrite Heq, <- Hkey.
        apply list_elem_of_fmap. exists found. split; [reflexivity | exact Hin].
      * right. exists found. split; [right; exact Hin|].
        split; [exact Hkey | exact Hone].
Qed.

(** X17. Under the unique constraint of the table, looking a mapping up
    by its series type never meets several rows: the answer is the one
    row of that series type when the table has it, and no row when it
    has none. *)
Theorem unique_series_type_gives_one_or_none (SeriesType : Type)
  `{EqDecision SeriesType}
  (db_session : list (SeriesUnitMappingRepository.SeriesUnitMapping SeriesType))
  (wanted : SeriesType) :
  SeriesUnitMappingRepository.uq_series_unit_series_type SeriesType db_session ->
  ((wanted ∉ map (SeriesUnitMappingRepository.series_type SeriesType) db_session) /\
   SeriesUnitMappingRepository.get_by_series_type SeriesType db_session wanted
   = SeriesUnitMappingRepository.NoRow SeriesType) \/
  (exists row,
     row ∈ db_session /\
     SeriesUnitMappingRepository.series_type SeriesType row = wanted /\
     SeriesUnitMappingRepository.get_by_series_type SeriesType db_session wanted
     = SeriesUnitMappingRepository.OneRow SeriesType row).
Proof.
  intros Hunique. unfold SeriesUnitMappingRepository.get_by_series_type.
  destruct (filter_unique_key (SeriesUnitMappingRepository.series_type SeriesType)
              wanted db_session Hunique)
    as [[Hout Hnone]|(row & Hin & Hkey & Hone)].
  - left. split; [exact Hout|]. rewrite Hnone. reflexivity.
  - right. exists row. split; [exact Hin|]. split; [exact Hkey|].
    rewrite Hone. reflexivity.
Qed.

Lemma unique_series_type_gives_one_or_none_witness :
  SeriesUnitMappingRepository.get_by_series_type Z sample_mappings 20
  = SeriesUnitMappingRepository.OneRow Z
      (SeriesUnitMappingRepository.mk Z 2%N 20 "m") /\
  SeriesUnitMappingRepository.get_by_series_type Z sample_mappings 30
  = SeriesUnitMappingRepository.NoRow Z.
Proof.
  assert (Hunique : SeriesUnitMappingRepository.uq_series_unit_series_type Z
                      sample_mappings).
  { apply (bool_decide_unpack _). vm_compute. exact I. }
  split.
  - destruct (unique_series_type_gives_one_or_none Z sample_mappings 20 Hunique)
      as [[Hout _]|(row & _ & _ & Hrow)].
    + exfalso. apply Hout. apply (bool_decide_unpack _). vm_compute. exact I.
    + reflexivity.
  - destruct (unique_series_type_gives_one_or_none Z sample_mappings 30 Hunique)
      as [[_ Hnone]|(row & _ & _ & Hrow)].
    + exact Hnone.
    + reflexivity.
Defined.

(** *** Sessions are taken whole or not at all *)

Lemma for_each_Ok_Forall {A B : Type} (body : B -> A -> result B)
  (P : A -> Prop) :
  (forall acc x acc', body acc x = Ok acc' -> P x) ->
  forall (items : list A) (acc r : B),
  for_each body items acc = Ok r -> Forall P items.
Proof.
  intros Hbody. induction items as [|x items IH]; intros acc r Hloop.
  - constructor.
  - simpl in Hloop. destruct (body acc x) as [acc'|e] eqn:Hx; [|discriminate].
    constructor; [exact (Hbody _ _ _ Hx) | exact (IH _ _ Hloop)].
Qed.

Lemma decimal_view_Ok (v : json) (d : Decimal) :
  Decimal_of_str v = Ok d -> decimal_view v <> None.
Proof. unfold decimal_view. intros ->. discriminate. Qed.

Lemma extract_distance_Ok (items : list (string * json)) (records : list json)
  (total : option Decimal) :
  _extract_distance (JDict items) = Ok total ->
  dict_get "distanceRecords" items = Some (JList records) ->
  Forall (fun r => exists v, field_of "distance" "inMeters" r = Ok v /\
                             decimal_view v <> None) records.
Proof.
  unfold _extract_distance. simpl. intros Hok Hget. rewrite Hget in Hok.
  simpl in Hok. destruct records as [|r records]; [constructor|].
  cbn [truthy negb iterate bind] in Hok.
  match type of Hok with
  | context [for_each ?f ?l ?a] => destruct (for_each f l a) eqn:Hloop
  end; [|cbn [bind] in *; discriminate].
  revert Hloop. apply for_each_Ok_Forall.
  intros acc x acc' Hx. unfold field_of.
  destruct (get x "distance" (JDict [])) as [d|]; [|cbn [bind] in *; discriminate].
  cbn [bind] in *.
  destruct (get d "inMeters" (JInt 0)) as [v|]; [|cbn [bind] in *; discriminate].
  cbn [bind] in *. exists v. split; [reflexivity|].
  destruct (Decimal_of_str v) as [x'|] eqn:Hv; [|cbn [bind] in *; discriminate].
  exact (decimal_view_Ok _ _ Hv).
Qed.

Lemma extract_calories_Ok (items : list (string * json)) (records : list json)
  (total : option Decimal) :
  _extract_calories (JDict items) = Ok total ->
  dict_get "caloriesRecords" items = Some (JList records) ->
  Forall (fun r => exists v, field_of "energy" "inKilocalories" r = Ok v /\
                             decimal_view v <> None) records.
Proof.
  unfold _extract_calories. simpl. intros Hok Hget. rewrite Hget in Hok.
  simpl in Hok. destruct records as [|r records]; [constructor|].
  cbn [truthy negb iterate bind] in Hok.
  match type of Hok with
  | context [for_each ?f ?l ?a] => destruct (for_each f l a) eqn:Hloop
  end; [|cbn [bind] in *; discriminate].
  revert Hloop. apply for_each_Ok_Forall.
  intros acc x acc' Hx. unfold field_of.
  destruct (get x "energy" (JDict [])) as [d|]; [|cbn [bind] in *; discriminate].
  cbn [bind] in *.
  destruct (get d "inKilocalories" (JInt 0)) as [v|]; [|cbn [bind] in *; discriminate].
  cbn [bind] in *. exists v. split; [reflexivity|].
  destruct (Decimal_of_str v) as [x'|] eqn:Hv; [|cbn [bind] in *; discriminate].
  exact (decimal_view_Ok _ _ Hv).
Qed.

Lemma extract_elevation_Ok (items : list (string * json)) (records : list json)
  (gain : gmap string Decimal) :
  _extract_elevation (JDict items) = Ok gain ->
  dict_get "elevationRecords" items = Some (JList records) ->
  Forall (fun r => exists v above,
            field_of "elevation" "inMeters" r = Ok v /\
            gt_zero v = Ok above /\
            (above = true -> decimal_view v <> None)) records.
Proof.
  unfold _extract_elevation. simpl. intros Hok Hget. rewrite Hget in Hok.
  simpl in Hok. destruct records as [|r records]; [constructor|].
  cbn [truthy negb iterate bind] in Hok.
  match type of Hok with
  | context [for_each ?f ?l ?a] => destruct (for_each f l a) eqn:Hloop
  end; [|cbn [bind] in *; discriminate].
  revert Hloop. apply for_each_Ok_Forall.
  intros acc x acc' Hx. unfold field_of.
  destruct (get x "elevation" (JDict [])) as [d|]; [|cbn [bind] in *; discriminate].
  cbn [bind] in *.
  destruct (get d "inMeters" (JInt 0)) as [v|]; [|cbn [bind] in *; discriminate].
  cbn [bind] in *.
  destruct (gt_zero v) as [above|] eqn:Habove; [|cbn [bind] in *; discriminate].
  cbn [bind] in *. exists v, above.
  split; [reflexivity|]. split; [exact Habove|].
  intros ->. destruct (Decimal_of_str v) as [x'|] eqn:Hv; [|cbn [bind] in *; discriminate].
  exact (decimal_view_Ok _ _ Hv).
Qed.

Lemma extract_heart_rate_Ok (items : list (string * json)) (records : list json)
  (statistics : gmap string Decimal) :
  _extract_heart_rate (JDict items) = Ok statistics ->
  dict_get "heartRateRecords" items = Some (JList records) ->
  Forall (fun r => exists samples,
            samples_of r = Ok samples /\
            Forall (fun s => exists v above,
                      bpm_of s = Ok v /\ gt_zero v = Ok above) samples)
    records.
Proof.
  unfold _extract_heart_rate. simpl. intros Hok Hget. rewrite Hget in Hok.
  simpl in Hok. destruct records as [|r records]; [constructor|].
  cbn [truthy negb iterate bind] in Hok.
  match type of Hok with
  | context [for_each ?f ?l ?a] => destruct (for_each f l a) eqn:Hloop
  end; [|cbn [bind] in *; discriminate].
  revert Hloop. apply for_each_Ok_Forall.
  intros acc x acc' Hx. unfold collect_samples in Hx. unfold samples_of.
  destruct (get x "samples" (JList [])) as [samples|]; [|cbn [bind] in *; discriminate].
  cbn [bind] in *.
  destruct (iterate samples) as [elements|]; [|cbn [bind] in *; discriminate].
  cbn [bind] in *. exists elements. split; [reflexivity|].
  revert Hx. apply for_each_Ok_Forall.
  intros acc1 s acc1' Hs. unfold bpm_of.
  destruct (get s "beatsPerMinute" (JInt 0)) as [v|]; [|cbn [bind] in *; discriminate].
  cbn [bind] in *.
  destruct (gt_zero v) as [above|] eqn:Habove; [|cbn [bind] in *; discriminate].
  exists v, above. split; [reflexivity | exact Habove].
Qed.

Lemma parse_exercise_session_extractors (session : json) (w w' : World)
  (p : record_pair) :
  _parse_exercise_session session w = (Ok p, w') ->
  exists distance calories statistics gain,
    _extract_distance session = Ok distance /\
    _extract_calories session = Ok calories /\
    _extract_heart_rate session = Ok statistics /\
    _extract_elevation session = Ok gain.
Proof.
  unfold _parse_exercise_session. intros H.
  do 11 (apply bindM_Ok in H; destruct H as (? & ? & _ & H)).
  apply bindM_Ok in H. destruct H as (distance & ? & Hdistance & H).
  apply bindM_Ok in H. destruct H as (calories & ? & Hcalories & H).
  apply bindM_Ok in H. destruct H as (statistics & ? & Hstatistics & H).
  apply bindM_Ok in H. destruct H as (gain & ? & Hgain & _).
  apply lift_Ok in Hdistance, Hcalories, Hstatistics, Hgain.
  exists distance, calories, statistics, gain. tauto.
Qed.

(** X18. A session is taken whole or not at all: when a session yields
    a pair, every one of its distance and calories records carried a
    value that converts to a decimal, every elevation record a value
    that compares with zero (and converts when it is above zero), and
    every heart-rate record an iterable of samples whose rates compare
    with zero.  So one malformed sub-record costs the whole session, and
    no pair carries a total from which a record was left out. *)
Theorem sessions_are_all_or_nothing (items : list (string * json))
  (w w' : World) (p : record_pair) :
  _parse_exercise_session (JDict items) w = (Ok p, w') ->
  (forall records,
     dict_get "distanceRecords" items = Some (JList records) ->
     Forall (fun r => exists v, field_of "distance" "inMeters" r = Ok v /\
                                decimal_view v <> None) records) /\
  (forall records,
     dict_get "caloriesRecords" items = Some (JList records) ->
     Forall (fun r => exists v, field_of "energy" "inKilocalories" r = Ok v /\
                                decimal_view v <> None) records) /\
  (forall records,
     dict_get "elevationRecords" items = Some (JList records) ->
     Forall (fun r => exists v above,
               field_of "elevation" "inMeters" r = Ok v /\
               gt_zero v = Ok above /\
               (above = true -> decimal_view v <> None)) records) /\
  (forall records,
     dict_get "heartRateRecords" items = Some (JList records) ->
     Forall (fun r => exists samples,
               samples_of r = Ok samples /\
               Forall (fun s => exists v above,
                         bpm_of s = Ok v /\ gt_zero v = Ok above) samples)
       records).
Proof.
  intros Hparse.
  destruct (parse_exercise_session_extractors _ _ _ _ Hparse)
    as (distance & calories & statistics & gain & Hd & Hc & Hs & Hg).
  split; [|split; [|split]]; intros records Hget.
  - exact (extract_distance_Ok _ _ _ Hd Hget).
  - exact (extract_calories_Ok _ _ _ Hc Hget).
  - exact (extract_elevation_Ok _ _ _ Hg Hget).
  - exact (extract_heart_rate_Ok _ _ _ Hs Hget).
Qed.

Lemma sessions_are_all_or_nothing_witness :
  Forall (fun r => exists v, field_of "distance" "inMeters" r = Ok v /\
                             decimal_view v <> None)
    [JDict [("distance", JDict [("inMeters", JInt 1000)])]; JDict []].
Proof.
  destruct (_parse_exercise_session
              (JDict [("distanceRecords",
                       JList [JDict [("distance", JDict [("inMeters", JInt 1000)])];
                              JDict []])])
              sample_world) as [[p|e] w'] eqn:Hparse;
    [|vm_compute in Hparse; discriminate].
  destruct (sessions_are_all_or_nothing _ _ _ _ Hparse) as (Hdistance & _).
  apply Hdistance. reflexivity.
Defined.
